(** * The realtime connection layer of exo's desktop shell and web client

    A shallow embedding of

    - [main.js] of the Electron shell ([exo/ui/electron]): the WebSocket
      client of the main process ([connectToContainerWebSocket],
      [disconnectFromContainer], the socket handlers, the [to-backend] and
      [container-settings] IPC handlers) and backend discovery
      ([checkContainerConnection], [showContainerSelectionDialog]);
    - [scripts/container-integration.js] next to it: configuration
      ([loadConfig], [saveConfig]), Docker queries ([listContainers] with the
      way it splits the output of [docker ps]), the port probe [checkPort],
      [connectToContainer] and the selection dialog;
    - [static/js/app.js] of the web client ([exo/ui/web], the same script is
      inlined in [templates/index.html]): [initWebSocket], [sendMessage] and
      the message handlers (module [Web]), the Socket.IO handlers and the
      event loop of the page (module [WebEvents]).

    The JavaScript is event driven and single threaded.  Every handler is a
    computation in a small state/exception/output monad over the module-level
    variables of the file it lives in; everything that leaves the process (a
    console line, an IPC message to the renderer, a frame on a socket, a
    dialog, a file write, a timer registration) is recorded, in order, as an
    [effect]. *)

From Stdlib Require Import String Ascii NArith List Bool Lia.
From stdpp Require Import base list strings pretty.

Open Scope string_scope.
Open Scope list_scope.

(** ** Data *)

(** A parsed JSON value.  No handler computes on numbers, so a number keeps
    its literal text. *)
#[warnings="-register-all"]
Inductive json : Type :=
| JNull
| JBool (b : bool)
| JNumber (literal : string)
| JString (s : string)
| JArray (items : list json)
| JObject (fields : list (string * json)).

(** The object kept in [container-config.json]. *)
Record config : Type := mkConfig {
  containerHost : string;
  containerPort : N;
  websocketPort : N;
  autoConnect : bool;
  lastContainer : option string
}.

Definition DEFAULT_CONFIG : config :=
  {| containerHost := "localhost";
     containerPort := 8080;
     websocketPort := 8765;
     autoConnect := true;
     lastContainer := None |}.

(** One row of [docker ps], as [listContainers] returns it. *)
Record container : Type := mkContainer {
  container_id : string;
  container_name : string;
  container_image : string;
  container_status : string
}.

(** The value [connectToContainer] resolves to. *)
Record connectionInfo : Type := mkConnectionInfo {
  webUrl : string;
  websocketUrl : string
}.

(** [readyState] of a [ws] socket. *)
Inductive readyState : Type := CONNECTING | OPEN | CLOSING | CLOSED.

#[global] Instance readyState_eq_dec : EqDecision readyState.
Proof. solve_decision. Defined.

Record WebSocket : Type := mkWebSocket {
  ws_url : string;
  ws_readyState : readyState
}.

(** A pending [setTimeout(() => connectToContainerWebSocket(url), delay)]. *)
Record timer : Type := mkTimer {
  timer_url : string;
  timer_delay : N
}.

Inductive console_level : Type := LOG | WARN | ERROR.

Inductive console_arg : Type :=
| ArgJson (j : json)
| ArgMessage (message : string)
| ArgError (name : string).

(** What a handler does to the outside, in program order. *)
Inductive effect : Type :=
| Console (level : console_level) (text : string) (args : list console_arg)
| WebContentsSend (channel : string) (payload : json)
| WsNew (i : nat) (url : string)
| WsSend (i : nat) (frame : string)
| WsClose (i : nat)
| SocketEmit (name : string) (payload : json)
| SetTimeout (url : string) (delay : N)
| ShowErrorBox (title message : string)
| ShowMessageBox (title : string) (buttons : list string)
| TcpProbe (host : string) (port : N)
| FsWrite (cfg : config).

(** The module-level variables of [main.js], the socket objects it has
    constructed (a socket is named by its position in [sockets]), the timers
    it has pending, and the configuration file on disk. *)
Record store : Type := mkStore {
  mainWindow : bool;
  sockets : list WebSocket;
  wsClient : option nat;
  containerConfig : config;
  isConnected : bool;
  reconnectAttempts : nat;
  timers : list timer;
  configFile : option config
}.

Definition MAX_RECONNECT_ATTEMPTS : nat := 5.
Definition RECONNECT_INTERVAL : N := 2000.

(** ** The handler monad *)

Inductive completion (A : Type) : Type :=
| Return (a : A)
| Throw (message : string).
Arguments Return {A} a.
Arguments Throw {A} message.

(** A handler over module-level state [S]: how it completes, the state it
    leaves, and what it did to the outside. *)
Definition JS (S A : Type) : Type := S -> completion A * S * list effect.

Definition ret {S A} (a : A) : JS S A := fun st => (Return a, st, []).

Definition throw {S A} (message : string) : JS S A := fun st => (Throw message, st, []).

Definition bind {S A B} (m : JS S A) (k : A -> JS S B) : JS S B :=
  fun st =>
    match m st with
    | (Return a, st1, out1) =>
        match k a st1 with
        | (r, st2, out2) => (r, st2, out1 ++ out2)
        end
    | (Throw message, st1, out1) => (Throw message, st1, out1)
    end.

(** [try { body } catch (error) { handler(error.message) }]: what the body
    did before it threw stays done. *)
Definition try_catch {S A} (body : JS S A) (handler : string -> JS S A) : JS S A :=
  fun st =>
    match body st with
    | (Return a, st1, out1) => (Return a, st1, out1)
    | (Throw message, st1, out1) =>
        match handler message st1 with
        | (r, st2, out2) => (r, st2, out1 ++ out2)
        end
    end.

Declare Scope js_scope.
Delimit Scope js_scope with js.
Notation "x <- m ;; k" := (bind m (fun x => k))
  (at level 100, m at next level, k at level 200, right associativity) : js_scope.
Notation "m ;; k" := (bind m (fun _ => k))
  (at level 100, k at level 200, right associativity) : js_scope.
Open Scope js_scope.

Definition gets {S A} (f : S -> A) : JS S A := fun st => (Return (f st), st, []).
Definition modify {S} (f : S -> S) : JS S unit := fun st => (Return tt, f st, []).
Definition emit {S} (e : effect) : JS S unit := fun st => (Return tt, st, [e]).

Definition when {S} (b : bool) (m : JS S unit) : JS S unit := if b then m else ret tt.

(** The final state, the output and the completion of a handler. *)
Definition exec {S A} (m : JS S A) (st : S) : S := snd (fst (m st)).
Definition output {S A} (m : JS S A) (st : S) : list effect := snd (m st).
Definition outcome {S A} (m : JS S A) (st : S) : completion A := fst (fst (m st)).

Definition console_log {S} (text : string) (args : list console_arg) : JS S unit :=
  emit (Console LOG text args).
Definition console_warn {S} (text : string) (args : list console_arg) : JS S unit :=
  emit (Console WARN text args).
Definition console_error {S} (text : string) (args : list console_arg) : JS S unit :=
  emit (Console ERROR text args).

(** JavaScript truthiness of a value that is [null] or a string. *)
Definition truthy (v : option string) : bool :=
  match v with
  | Some s => negb (String.eqb s "")
  | None => false
  end.

(** Field assignments. *)
Definition set_mainWindow (v : bool) (st : store) : store :=
  mkStore v (sockets st) (wsClient st) (containerConfig st) (isConnected st)
          (reconnectAttempts st) (timers st) (configFile st).
Definition set_sockets (v : list WebSocket) (st : store) : store :=
  mkStore (mainWindow st) v (wsClient st) (containerConfig st) (isConnected st)
          (reconnectAttempts st) (timers st) (configFile st).
Definition set_wsClient (v : option nat) (st : store) : store :=
  mkStore (mainWindow st) (sockets st) v (containerConfig st) (isConnected st)
          (reconnectAttempts st) (timers st) (configFile st).
Definition set_containerConfig (v : config) (st : store) : store :=
  mkStore (mainWindow st) (sockets st) (wsClient st) v (isConnected st)
          (reconnectAttempts st) (timers st) (configFile st).
Definition set_isConnected (v : bool) (st : store) : store :=
  mkStore (mainWindow st) (sockets st) (wsClient st) (containerConfig st) v
          (reconnectAttempts st) (timers st) (configFile st).
Definition set_reconnectAttempts (v : nat) (st : store) : store :=
  mkStore (mainWindow st) (sockets st) (wsClient st) (containerConfig st)
          (isConnected st) v (timers st) (configFile st).
Definition set_timers (v : list timer) (st : store) : store :=
  mkStore (mainWindow st) (sockets st) (wsClient st) (containerConfig st)
          (isConnected st) (reconnectAttempts st) v (configFile st).
Definition set_configFile (v : option config) (st : store) : store :=
  mkStore (mainWindow st) (sockets st) (wsClient st) (containerConfig st)
          (isConnected st) (reconnectAttempts st) (timers st) v.

(** Handlers of [main.js] and of the module it requires. *)
Abbreviation M := (JS store).

(** ** [scripts/container-integration.js] *)

(** What the socket of one [checkPort] probe does first. *)
Inductive probe_outcome : Type :=
| ConnectsAfter (ms : N)
| ErrorAfter (ms : N)
| Silent.

(** The world outside the process while one handler runs: the Docker command
    line ([None] where [execSync] throws, outputs already trimmed), the
    network, the file system and the user in front of a message box.
    [docker_ps] holds the rows as [listContainers] splits them out of the
    output of [docker ps], one per line (an empty output gives one row with an
    empty id, which [main.js] treats as no choice). *)
Record env : Type := mkEnv {
  docker_version : bool;
  docker_ps : option (list container);
  docker_inspect : string -> option string;
  docker_images : string -> option string;
  docker_run : string -> option string;
  tcp_connect : string -> N -> probe_outcome;
  fs_writable : bool;
  box_response : nat
}.

Module containerIntegration.

(** [saveConfig(config)]: a failing write is logged and swallowed. *)
Definition saveConfig (w : env) (cfg : config) : M unit :=
  if fs_writable w then
    modify (set_configFile (Some cfg)) ;;
    emit (FsWrite cfg)
  else console_error "Error saving configuration:" [ArgError "Error"].

Definition checkDocker (w : env) : bool := docker_version w.

Definition listContainers (w : env) : M (list container) :=
  match docker_ps w with
  | Some rows => ret rows
  | None =>
      console_error "Error listing containers:" [ArgError "Error"] ;;
      ret []
  end.

Definition getContainerIP (w : env) (containerId : string) : M (option string) :=
  match docker_inspect w containerId with
  | Some address => ret (Some address)
  | None =>
      console_error "Error getting container IP:" [ArgError "Error"] ;;
      ret None
  end.

Definition PROBE_TIMEOUT : N := 1000.

(** [checkPort(host, port)].  The promise resolves once: [true] when the
    connect callback runs before the 1000 ms timer, [false] when the timer or
    the socket's [error] event comes first.  [socket.connect] throws on a port
    above 65535, which rejects the promise. *)
Definition checkPort (w : env) (host : string) (port : N) : M bool :=
  emit (TcpProbe host port) ;;
  if (65535 <? port)%N then throw "ERR_SOCKET_BAD_PORT"
  else
    match tcp_connect w host port with
    | ConnectsAfter ms => ret (ms <? PROBE_TIMEOUT)%N
    | ErrorAfter ms => ret false
    | Silent => ret false
    end.

(** [connectToContainer(containerId, config)].  Both call sites pass the
    module-level [containerConfig] object of [main.js], so the assignments to
    [config.containerHost] and [config.lastContainer] are assignments to that
    object. *)
Definition connectToContainer (w : env) (containerId : string) : M connectionInfo :=
  containerIP <- getContainerIP w containerId ;;
  if negb (truthy containerIP) then throw "Failed to get container IP address"
  else
    let ip := default "" containerIP in
    cfg <- gets containerConfig ;;
    webServerOpen <- checkPort w ip (containerPort cfg) ;;
    if negb webServerOpen then
      throw ("Web server port " +:+ pretty (containerPort cfg)
             +:+ " is not open on the container")
    else
      websocketOpen <- checkPort w ip (websocketPort cfg) ;;
      if negb websocketOpen then
        throw ("WebSocket port " +:+ pretty (websocketPort cfg)
               +:+ " is not open on the container")
      else
        modify (fun st => set_containerConfig
                  (mkConfig ip (containerPort cfg) (websocketPort cfg)
                            (autoConnect cfg) (Some containerId)) st) ;;
        cfg' <- gets containerConfig ;;
        saveConfig w cfg' ;;
        ret {| webUrl := "http://" +:+ ip +:+ ":" +:+ pretty (containerPort cfg');
               websocketUrl := "ws://" +:+ ip +:+ ":" +:+ pretty (websocketPort cfg') |}.

(** [startContainer(imageName)] *)
Definition startContainer (w : env) (imageName : string) : M string :=
  try_catch
    (match docker_images w imageName with
     | Some images =>
         if String.eqb images "" then throw ("Image " +:+ imageName +:+ " not found")
         else
           match docker_run w imageName with
           | Some containerId => ret containerId
           | None => throw "Command failed"
           end
     | None => throw "Command failed"
     end)
    (fun message =>
       console_error "Error starting container:" [ArgMessage message] ;;
       throw message).

Definition option_label (c : container) : string :=
  container_name c +:+ " (" +:+ container_image c +:+ ")".

(** [showContainerSelectionDialog(browserWindow)]: the chosen container id, or
    [None] for [null]. *)
Definition showContainerSelectionDialog (w : env) : M (option string) :=
  containers <- listContainers w ;;
  if Nat.eqb (length containers) 0 then
    emit (ShowMessageBox "No Containers Found" ["Start Container"; "Cancel"]) ;;
    if Nat.eqb (box_response w) 0 then
      try_catch
        (containerId <- startContainer w "exo:latest" ;;
         ret (Some containerId))
        (fun message =>
           emit (ShowErrorBox "Error" ("Failed to start container: " +:+ message)) ;;
           ret None)
    else ret None
  else
    let options := map (fun c => (option_label c, container_id c)) containers in
    emit (ShowMessageBox "Select Container" (map fst options ++ ["Cancel"])) ;;
    if Nat.ltb (box_response w) (length options) then
      ret (snd <$> options !! box_response w)
    else ret None.

End containerIntegration.

(** ** [main.js]: the WebSocket client of the main process *)

(** The platform functions the handlers call.  [JSON_parse] is [None] where
    [JSON.parse] throws its [SyntaxError]; [ws_accepts url] is [false] where
    the [WebSocket] constructor throws on [url]. *)
Record platform : Type := mkPlatform {
  JSON_parse : string -> option json;
  JSON_stringify : json -> string;
  ws_accepts : string -> bool
}.

Section MainProcess.

Variable P : platform.

(** [wsClient.readyState] of socket [i]. *)
Definition readyState_of (i : nat) (st : store) : readyState :=
  match sockets st !! i with
  | Some s => ws_readyState s
  | None => CLOSED
  end.

Definition set_readyState (i : nat) (r : readyState) (st : store) : store :=
  match sockets st !! i with
  | Some s => set_sockets (<[i := mkWebSocket (ws_url s) r]> (sockets st)) st
  | None => st
  end.

(** [new WebSocket(url)]: a fresh socket object in state [CONNECTING]. *)
Definition new_WebSocket (url : string) : M nat :=
  if ws_accepts P url then
    i <- gets (fun st => length (sockets st)) ;;
    modify (fun st => set_sockets (sockets st ++ [mkWebSocket url CONNECTING]) st) ;;
    emit (WsNew i url) ;;
    ret i
  else throw ("Invalid URL: " +:+ url).

(** [socket.close()] on an open socket starts the closing handshake. *)
Definition ws_close (i : nat) : M unit :=
  modify (set_readyState i CLOSING) ;;
  emit (WsClose i).

Definition ws_send (i : nat) (frame : string) : M unit :=
  emit (WsSend i frame).

Definition setTimeout (url : string) (delay : N) : M unit :=
  modify (fun st => set_timers (timers st ++ [mkTimer url delay]) st) ;;
  emit (SetTimeout url delay).

Definition connection_status (connected : bool) : json :=
  JObject [("connected", JBool connected)].

Definition default_connection_error : string :=
  "Failed to connect to the container. Please check that the container is running and try again.".

(** [showConnectionError(message = '')] *)
Definition showConnectionError (message : string) : M unit :=
  let errorMessage :=
    if String.eqb message "" then default_connection_error else message in
  emit (ShowErrorBox "Connection Error" errorMessage).

Definition showDockerNotInstalledError : M unit :=
  emit (ShowErrorBox "Docker Not Installed"
    "Docker is required to run the exo backend in a container. Please install Docker and restart the application.").

(** [disconnectFromContainer()] *)
Definition disconnectFromContainer : M unit :=
  c <- gets wsClient ;;
  match c with
  | Some i =>
      r <- gets (readyState_of i) ;;
      when (bool_decide (r = OPEN)) (ws_close i) ;;
      modify (set_wsClient None)
  | None => ret tt
  end ;;
  modify (set_isConnected false).

(** [connectToContainerWebSocket(url)].  The four [wsClient.on] registrations
    are the handlers [on_open], [on_message], [on_close url] and [on_error]
    below; they are attached to the socket the constructor returned. *)
Definition connectToContainerWebSocket (url : string) : M bool :=
  disconnectFromContainer ;;
  console_log ("Connecting to WebSocket at " +:+ url +:+ "...") [] ;;
  try_catch
    (i <- new_WebSocket url ;;
     modify (set_wsClient (Some i)) ;;
     ret true)
    (fun message =>
       console_error "Error connecting to WebSocket:" [ArgMessage message] ;;
       ret false).

(** [wsClient.on('open', ...)] *)
Definition on_open : M unit :=
  console_log "Connected to container WebSocket" [] ;;
  modify (set_isConnected true) ;;
  modify (set_reconnectAttempts 0) ;;
  w <- gets mainWindow ;;
  when w (emit (WebContentsSend "connection-status" (connection_status true))).

(** [wsClient.on('message', ...)] *)
Definition on_message (message : string) : M unit :=
  try_catch
    (match JSON_parse P message with
     | Some data =>
         console_log "Received from backend:" [ArgJson data] ;;
         w <- gets mainWindow ;;
         when w (emit (WebContentsSend "from-backend" data))
     | None => throw "SyntaxError"
     end)
    (fun error => console_error "Error parsing message:" [ArgError error]).

(** [wsClient.on('close', ...)] of a socket opened for [url]. *)
Definition on_close (url : string) : M unit :=
  console_log "WebSocket connection closed" [] ;;
  modify (set_isConnected false) ;;
  w <- gets mainWindow ;;
  when w (emit (WebContentsSend "connection-status" (connection_status false))) ;;
  n <- gets reconnectAttempts ;;
  if Nat.ltb n MAX_RECONNECT_ATTEMPTS then
    modify (set_reconnectAttempts (S n)) ;;
    console_log ("Reconnecting (attempt " +:+ pretty (S n) +:+ "/"
                 +:+ pretty MAX_RECONNECT_ATTEMPTS +:+ ")...") [] ;;
    setTimeout url RECONNECT_INTERVAL
  else
    console_log "Max reconnect attempts reached" [] ;;
    showConnectionError "".

(** [wsClient.on('error', ...)] *)
Definition on_error (message : string) : M unit :=
  console_error "WebSocket error:" [ArgMessage message].

(** [wsClient && wsClient.readyState === WebSocket.OPEN], with the socket. *)
Definition open_client (st : store) : option nat :=
  match wsClient st with
  | Some i => if bool_decide (readyState_of i st = OPEN) then Some i else None
  | None => None
  end.

(** [ipcMain.on('to-backend', ...)] *)
Definition to_backend (data : json) : M unit :=
  console_log "Sending to backend:" [ArgJson data] ;;
  c <- gets open_client ;;
  match c with
  | Some i => ws_send i (JSON_stringify P data)
  | None =>
      console_warn "Cannot send message: WebSocket not connected" [] ;;
      n <- gets reconnectAttempts ;;
      when (Nat.eqb n 0) (showConnectionError "")
  end.

(** [showContainerSelectionDialog()] of [main.js] *)
Definition showContainerSelectionDialog (w : env) : M unit :=
  try_catch
    (containerId <- containerIntegration.showContainerSelectionDialog w ;;
     if truthy containerId then
       connectionInfo <-
         containerIntegration.connectToContainer w (default "" containerId) ;;
       connectToContainerWebSocket (websocketUrl connectionInfo) ;;
       ret tt
     else ret tt)
    (fun message =>
       console_error "Error connecting to container:" [ArgMessage message] ;;
       showConnectionError message).

(** [checkContainerConnection()].  The inner computation yields [true] where
    the source leaves the function through the [return] inside the [try]. *)
Definition checkContainerConnection (w : env) : M unit :=
  if negb (containerIntegration.checkDocker w) then showDockerNotInstalledError
  else
    cfg <- gets containerConfig ;;
    returned <-
      (if autoConnect cfg && truthy (lastContainer cfg) then
         let last := default "" (lastContainer cfg) in
         try_catch
           (containers <- containerIntegration.listContainers w ;;
            let containerExists :=
              existsb (fun c => String.eqb (container_id c) last) containers in
            if containerExists then
              connectionInfo <- containerIntegration.connectToContainer w last ;;
              connectToContainerWebSocket (websocketUrl connectionInfo) ;;
              ret true
            else ret false)
           (fun message =>
              console_error "Error auto-connecting to container:" [ArgMessage message] ;;
              ret false)
       else ret false) ;;
    if returned then ret tt else showContainerSelectionDialog w.

(** [mainWindow.on('closed', ...)] *)
Definition window_closed : M unit :=
  disconnectFromContainer ;;
  modify (set_mainWindow false).

(** [app.on('before-quit', ...)] *)
Definition before_quit : M unit := disconnectFromContainer.

(** ** The event loop of the main process *)

(** What can happen next: a socket event (for the [i]-th socket constructed),
    the [k]-th pending timer coming due, an IPC message from the renderer, or
    an application event.  An event that starts discovery carries the world
    it runs in. *)
Inductive event : Type :=
| SocketOpen (i : nat)
| SocketMessage (i : nat) (frame : string)
| SocketError (i : nat) (message : string)
| SocketClose (i : nat)
| TimerFires (k : nat)
| ToBackend (data : json)
| ConnectToContainer (w : env)
| ReadyToShow (w : env)
| WindowClosed
| BeforeQuit.

(** Run a handler to completion. *)
Definition handle {A} (m : M A) (st : store) : store * list effect :=
  (exec m st, output m st).

(** One turn of the event loop; [None] when the event cannot occur in [st]:
    a socket opens once, out of [CONNECTING]; it delivers frames while
    [OPEN]; it emits [close] once, when it leaves the connection for good; a
    timer fires once and is then gone. *)
Definition step (ev : event) (st : store) : option (store * list effect) :=
  match ev with
  | SocketOpen i =>
      if bool_decide (readyState_of i st = CONNECTING)
      then Some (handle on_open (set_readyState i OPEN st))
      else None
  | SocketMessage i frame =>
      if bool_decide (readyState_of i st = OPEN)
      then Some (handle (on_message frame) st)
      else None
  | SocketError i message =>
      if bool_decide (readyState_of i st = CLOSED) then None
      else Some (handle (on_error message) st)
  | SocketClose i =>
      match sockets st !! i with
      | Some s =>
          if bool_decide (ws_readyState s = CLOSED) then None
          else Some (handle (on_close (ws_url s)) (set_readyState i CLOSED st))
      | None => None
      end
  | TimerFires k =>
      match timers st !! k with
      | Some t =>
          Some (handle (connectToContainerWebSocket (timer_url t))
                       (set_timers (delete k (timers st)) st))
      | None => None
      end
  | ToBackend data => Some (handle (to_backend data) st)
  | ConnectToContainer w => Some (handle (showContainerSelectionDialog w) st)
  | ReadyToShow w => Some (handle (checkContainerConnection w) st)
  | WindowClosed => Some (handle window_closed st)
  | BeforeQuit => Some (handle before_quit st)
  end.

(** A sequence of turns, with everything it put out. *)
Fixpoint run (evs : list event) (st : store) : option (store * list effect) :=
  match evs with
  | [] => Some (st, [])
  | ev :: evs' =>
      match step ev st with
      | Some (st1, out1) =>
          match run evs' st1 with
          | Some (st2, out2) => Some (st2, out1 ++ out2)
          | None => None
          end
      | None => None
      end
  end.

(** Events the process brings on itself, as opposed to the user's. *)
Definition automatic (ev : event) : bool :=
  match ev with
  | SocketOpen _ | SocketMessage _ _ | SocketError _ _ | SocketClose _
  | TimerFires _ => true
  | _ => false
  end.

End MainProcess.

(** ** [app.js]: the web client *)

Module Web.

(** A child of [#messages]: the class [addMessage] gives it and its text. *)
Record element : Type := mkElement {
  className : string;
  textContent : string
}.

(** The module-level variables of [app.js] and the parts of the page they
    drive; [timers] counts the pending [setTimeout(initWebSocket, 5000)]. *)
Record state : Type := mkState {
  socketConnected : bool;
  websocketConnected : bool;
  sockets : list WebSocket;
  ws : option nat;
  messages : list element;
  messageInput : string;
  statusDot : list string;
  timers : nat
}.

Definition set_socketConnected (v : bool) (st : state) : state :=
  mkState v (websocketConnected st) (sockets st) (ws st) (messages st)
          (messageInput st) (statusDot st) (timers st).
Definition set_websocketConnected (v : bool) (st : state) : state :=
  mkState (socketConnected st) v (sockets st) (ws st) (messages st)
          (messageInput st) (statusDot st) (timers st).
Definition set_sockets (v : list WebSocket) (st : state) : state :=
  mkState (socketConnected st) (websocketConnected st) v (ws st) (messages st)
          (messageInput st) (statusDot st) (timers st).
Definition set_ws (v : option nat) (st : state) : state :=
  mkState (socketConnected st) (websocketConnected st) (sockets st) v (messages st)
          (messageInput st) (statusDot st) (timers st).
Definition set_messages (v : list element) (st : state) : state :=
  mkState (socketConnected st) (websocketConnected st) (sockets st) (ws st) v
          (messageInput st) (statusDot st) (timers st).
Definition set_messageInput (v : string) (st : state) : state :=
  mkState (socketConnected st) (websocketConnected st) (sockets st) (ws st)
          (messages st) v (statusDot st) (timers st).
Definition set_statusDot (v : list string) (st : state) : state :=
  mkState (socketConnected st) (websocketConnected st) (sockets st) (ws st)
          (messages st) (messageInput st) v (timers st).
Definition set_timers (v : nat) (st : state) : state :=
  mkState (socketConnected st) (websocketConnected st) (sockets st) (ws st)
          (messages st) (messageInput st) (statusDot st) v.

Definition RECONNECT_DELAY : N := 5000.

Section App.

Variable P : platform.

(** [String.prototype.trim]. *)
Variable String_trim : string -> string.

(** [config.websocketUrl], filled in by the page template. *)
Variable websocketUrl : string.

(** [handleMessage(data)]: the chat and status-dot rendering of a decoded
    envelope, which belongs to the page and may throw. *)
Variable handleMessage : json -> JS state unit.

(** [classList.add] and [classList.remove]. *)
Definition classList_add (c : string) (l : list string) : list string :=
  if existsb (String.eqb c) l then l else l ++ [c].
Definition classList_remove (c : string) (l : list string) : list string :=
  filter (fun x => x <> c) l.

(** [addMessage({role, content})] *)
Definition addMessage (role content : string) : JS state unit :=
  let class :=
    if String.eqb role "user" then "user-message"
    else if String.eqb role "assistant" then "assistant-message"
    else "system-message" in
  modify (fun st => set_messages (messages st ++ [mkElement ("message " +:+ class) content]) st).

(** [updateConnectionStatus()] *)
Definition updateConnectionStatus : JS state unit :=
  a <- gets socketConnected ;;
  b <- gets websocketConnected ;;
  if a || b then
    modify (fun st => set_statusDot (classList_add "idle" (classList_remove "error" (statusDot st))) st)
  else
    modify (fun st => set_statusDot (classList_add "error" (classList_remove "idle" (statusDot st))) st) ;;
    addMessage "system" "Connection lost. Trying to reconnect...".

Definition readyState_of (i : nat) (st : state) : readyState :=
  match sockets st !! i with
  | Some s => ws_readyState s
  | None => CLOSED
  end.

Definition set_readyState (i : nat) (r : readyState) (st : state) : state :=
  match sockets st !! i with
  | Some s => set_sockets (<[i := mkWebSocket (ws_url s) r]> (sockets st)) st
  | None => st
  end.

(** [ws.send(frame)] of a browser socket: an [InvalidStateError] while
    connecting, a frame on the wire while open, nothing afterwards. *)
Definition ws_send (frame : string) : JS state unit :=
  c <- gets ws ;;
  match c with
  | Some i =>
      r <- gets (readyState_of i) ;;
      match r with
      | CONNECTING => throw "InvalidStateError"
      | OPEN => emit (WsSend i frame)
      | _ => ret tt
      end
  | None => throw "TypeError"
  end.

(** [ws.close()] of a browser socket. *)
Definition ws_close (i : nat) : JS state unit :=
  r <- gets (readyState_of i) ;;
  match r with
  | CONNECTING | OPEN =>
      modify (set_readyState i CLOSING) ;;
      emit (WsClose i)
  | _ => ret tt
  end.

(** [initWebSocket()]; the four handler assignments are [onopen], [onclose],
    [onerror] and [onmessage] below. *)
Definition initWebSocket : JS state unit :=
  a <- gets socketConnected ;;
  if a then ret tt
  else
    c <- gets ws ;;
    match c with
    | Some i => ws_close i
    | None => ret tt
    end ;;
    if ws_accepts P websocketUrl then
      i <- gets (fun st => length (sockets st)) ;;
      modify (fun st => set_sockets (sockets st ++ [mkWebSocket websocketUrl CONNECTING]) st) ;;
      emit (WsNew i websocketUrl) ;;
      modify (set_ws (Some i))
    else throw "SyntaxError".

Definition onopen : JS state unit :=
  console_log "Connected to WebSocket server" [] ;;
  modify (set_websocketConnected true) ;;
  updateConnectionStatus.

Definition onclose : JS state unit :=
  console_log "Disconnected from WebSocket server" [] ;;
  modify (set_websocketConnected false) ;;
  updateConnectionStatus ;;
  modify (fun st => set_timers (S (timers st)) st) ;;
  emit (SetTimeout websocketUrl RECONNECT_DELAY).

Definition onerror : JS state unit :=
  console_error "WebSocket error:" [ArgError "Event"] ;;
  modify (set_websocketConnected false) ;;
  updateConnectionStatus.

Definition onmessage (data : string) : JS state unit :=
  console_log "Received message from WebSocket:" [ArgMessage data] ;;
  try_catch
    (match JSON_parse P data with
     | Some decoded => handleMessage decoded
     | None => throw "SyntaxError"
     end)
    (fun error => console_error "Error parsing WebSocket message:" [ArgError error]).

(** [sendMessage()]; [now] is the literal of [Date.now() / 1000]. *)
Definition sendMessage (now : string) : JS state unit :=
  content <- gets (fun st => String_trim (messageInput st)) ;;
  if String.eqb content "" then ret tt
  else
    let data := JObject [("role", JString "user"); ("content", JString content);
                         ("timestamp", JNumber now)] in
    let message := JObject [("type", JString "message"); ("data", data)] in
    addMessage "user" content ;;
    modify (set_messageInput "") ;;
    a <- gets socketConnected ;;
    b <- gets websocketConnected ;;
    if a then
      emit (SocketEmit "message" message) ;;
      modify (set_statusDot ["dot"; "processing"])
    else if b then
      ws_send (JSON_stringify P message) ;;
      modify (set_statusDot ["dot"; "processing"])
    else
      addMessage "system" "Not connected to server. Please try again later.".

End App.

End Web.

(** ** Observations on outputs and stores *)

(** Kinds of effects. *)
Definition is_timeout (e : effect) : bool :=
  match e with SetTimeout _ _ => true | _ => false end.
Definition is_send (e : effect) : bool :=
  match e with WsSend _ _ => true | _ => false end.
Definition is_give_up (e : effect) : bool :=
  match e with
  | Console LOG "Max reconnect attempts reached" _ => true
  | _ => false
  end.
(** The frames handed to a transport, in order. *)
Definition delivered (out : list effect) : list string :=
  omap (fun e => match e with WsSend _ frame => Some frame | _ => None end) out.

(** The delays of the timers registered, in order. *)
Definition scheduled_delays (out : list effect) : list N :=
  omap (fun e => match e with SetTimeout _ delay => Some delay | _ => None end) out.

(** The sockets constructed, in order. *)
Definition constructed (out : list effect) : list string :=
  omap (fun e => match e with WsNew _ url => Some url | _ => None end) out.

(** Status messages sent up to the renderer. *)
Definition status_events (out : list effect) : list json :=
  omap (fun e => match e with
                 | WebContentsSend "connection-status" j => Some j
                 | _ => None
                 end) out.

(** Message boxes put in front of the user. *)
Definition prompts (out : list effect) : list string :=
  omap (fun e => match e with ShowMessageBox title _ => Some title | _ => None end) out.

(** Configurations written to disk. *)
Definition writes (out : list effect) : list config :=
  omap (fun e => match e with FsWrite cfg => Some cfg | _ => None end) out.

(** The close handler has no state variable for the terminal state: it is the
    branch that logs the line [is_give_up] recognises and shows the connection
    error instead of registering a timer. *)
Definition gives_up (out : list effect) : bool := existsb is_give_up out.

(** No socket object is live: none can emit an event any more. *)
Definition all_closed (st : store) : Prop :=
  Forall (fun s => ws_readyState s = CLOSED) (sockets st).

(** The session is up on socket [i], opened for [url], and nothing else is
    going on: no timer is pending and every other socket is closed. *)
Record Connected (P : platform) (st : store) (i : nat) (url : string) : Prop := {
  connected_client : wsClient st = Some i;
  connected_socket : sockets st !! i = Some (mkWebSocket url OPEN);
  connected_others : forall j s, sockets st !! j = Some s -> j <> i -> ws_readyState s = CLOSED;
  connected_attempts : reconnectAttempts st = 0;
  connected_timers : timers st = [];
  connected_url : ws_accepts P url = true
}.

(** The session is down and one reconnection timer for [url] is pending,
    [n] attempts having been counted. *)
Record Reconnecting (P : platform) (st : store) (url : string) (n : nat) : Prop := {
  reconnecting_closed : all_closed st;
  reconnecting_attempts : reconnectAttempts st = n;
  reconnecting_timers : timers st = [mkTimer url RECONNECT_INTERVAL];
  reconnecting_url : ws_accepts P url = true
}.

(** The session is down for good: nothing is pending and nothing is live. *)
Record Quiescent (st : store) : Prop := {
  quiescent_closed : all_closed st;
  quiescent_timers : timers st = []
}.

(** The session has been closed from this side. *)
Definition Disconnected (st : store) : Prop :=
  wsClient st = None /\ isConnected st = false.

(** One automatic reconnection attempt that fails: the pending timer comes
    due, the socket it constructs (number [i]) reports an error and closes. *)
Definition failed_attempt (i : nat) : list event :=
  [TimerFires 0; SocketError i "connect ECONNREFUSED"; SocketClose i].


(** [n] failed attempts in a row, the first of which constructs socket
    number [i]. *)
Fixpoint failed_attempts (i n : nat) : list event :=
  match n with
  | 0 => []
  | S n' => failed_attempt i ++ failed_attempts (S i) n'
  end.


(** The connection on socket [i] drops and the [n] reconnection attempts that
    follow all fail; [next] is the number of sockets constructed so far. *)
Definition outage (i next n : nat) : list event :=
  SocketClose i :: failed_attempts next n.

(** A reconnection attempt is under way on socket [i], the newest one, [n]
    attempts having been counted. *)
Record Attempting (P : platform) (st : store) (i : nat) (url : string) (n : nat) : Prop := {
  attempting_client : wsClient st = Some i;
  attempting_socket : sockets st !! i = Some (mkWebSocket url CONNECTING);
  attempting_others : forall j s, sockets st !! j = Some s -> j <> i -> ws_readyState s = CLOSED;
  attempting_attempts : reconnectAttempts st = n;
  attempting_timers : timers st = [];
  attempting_url : ws_accepts P url = true
}.

(** The status message a socket handler sends while the window exists. *)
Definition status_out (st : store) (connected : bool) : list effect :=
  if mainWindow st
  then [WebContentsSend "connection-status" (connection_status connected)]
  else [].

(** Each delay is longer than the one before it. *)
Definition strictly_increasing (l : list N) : Prop :=
  forall k a b, l !! k = Some a -> l !! (S k) = Some b -> (a < b)%N.

(** A handler that never puts out an effect of the kind [bad]. *)
Definition never {S A} (bad : effect -> bool) (m : JS S A) : Prop :=
  forall st, Forall (fun e => bad e = false) (output m st).

(** A handler that leaves the component [f] of the state as it found it. *)
Definition preserves {S A B} (f : S -> B) (m : JS S A) : Prop :=
  forall st, f (exec m st) = f st.

(** A handler that keeps the states in [I] in [I]. *)
Definition invariant {S A} (I : S -> Prop) (m : JS S A) : Prop :=
  forall st, I st -> I (exec m st).

(** What a call of [saveConfig] leaves in the output: the write, or the line
    that reports its failure. *)
Definition is_save (e : effect) : bool :=
  match e with
  | FsWrite _ => true
  | Console ERROR "Error saving configuration:" _ => true
  | _ => false
  end.
Definition save_calls (out : list effect) : list effect := List.filter is_save out.

(** [s.startsWith(p)] *)
Fixpoint starts_with (p s : string) : bool :=
  match p with
  | EmptyString => true
  | String a p' =>
      match s with
      | EmptyString => false
      | String b s' => Ascii.eqb a b && starts_with p' s'
      end
  end.

(** A call of [connectToContainerWebSocket] starts with this line. *)
Definition is_hand_over (e : effect) : bool :=
  match e with
  | Console LOG text _ => starts_with "Connecting to WebSocket at " text
  | _ => false
  end.
Definition hand_overs (out : list effect) : list effect := List.filter is_hand_over out.

(** ** Discovery: eligibility and selection *)

(** The promise of [checkPort] resolves to [true]. *)
Definition port_open (w : env) (host : string) (port : N) : bool :=
  (port <=? 65535)%N &&
  match tcp_connect w host port with
  | ConnectsAfter ms => (ms <? containerIntegration.PROBE_TIMEOUT)%N
  | _ => false
  end.

(** The same, as the claim words it: the port accepts a TCP connect within
    the probe timeout. *)
Definition port_accepts (w : env) (host : string) (port : N) : Prop :=
  (port <= 65535)%N /\
  exists ms, tcp_connect w host port = ConnectsAfter ms /\
             (ms < containerIntegration.PROBE_TIMEOUT)%N.

(** A container whose address Docker reports and whose two ports answer. *)
Definition healthy (w : env) (cfg : config) (containerId : string) : bool :=
  match docker_inspect w containerId with
  | Some ip =>
      negb (String.eqb ip "") &&
      port_open w ip (containerPort cfg) && port_open w ip (websocketPort cfg)
  | None => false
  end.

(** The address [connectToContainer] resolves to for a container at [ip]. *)
Definition resolved (ip : string) (cfg : config) : connectionInfo :=
  {| webUrl := "http://" +:+ ip +:+ ":" +:+ pretty (containerPort cfg);
     websocketUrl := "ws://" +:+ ip +:+ ":" +:+ pretty (websocketPort cfg) |}.

(** The configuration it stores on success. *)
Definition selected (ip containerId : string) (cfg : config) : config :=
  mkConfig ip (containerPort cfg) (websocketPort cfg) (autoConnect cfg) (Some containerId).

(** The running containers, as [listContainers] reports them. *)
Definition running (w : env) : list container := default [] (docker_ps w).


(** The message box [showContainerSelectionDialog] opens. *)
Definition selection_box (w : env) : effect :=
  if Nat.eqb (length (running w)) 0
  then ShowMessageBox "No Containers Found" ["Start Container"; "Cancel"]
  else ShowMessageBox "Select Container"
         (map containerIntegration.option_label (running w) ++ ["Cancel"]).

Definition box_title (e : effect) : list string :=
  match e with ShowMessageBox title _ => [title] | _ => [] end.

(** The line with which [connectToContainerWebSocket(url)] starts. *)
Definition hand_over (url : string) : effect :=
  Console LOG ("Connecting to WebSocket at " +:+ url +:+ "...") [].


(** The condition under which [checkContainerConnection] connects on its own:
    auto-connect is on, the stored identity is among the running containers,
    and it is healthy. *)
Definition reconnects_to_last (w : env) (cfg : config) : bool :=
  autoConnect cfg && truthy (lastContainer cfg) &&
  existsb (fun c => String.eqb (container_id c) (default "" (lastContainer cfg))) (running w) &&
  healthy w cfg (default "" (lastContainer cfg)).

(** ** An instance to run the handlers on *)

Module Example.

Definition quote (s : string) : string :=
  String "034"%char (s +:+ String "034"%char "").

(** [JSON.stringify] on values whose strings need no escaping. *)
Fixpoint stringify (j : json) : string :=
  match j with
  | JNull => "null"
  | JBool true => "true"
  | JBool false => "false"
  | JNumber literal => literal
  | JString s => quote s
  | JArray items =>
      "[" +:+ (fix go (l : list json) : string :=
                 match l with
                 | [] => ""
                 | [x] => stringify x
                 | x :: l' => stringify x +:+ "," +:+ go l'
                 end) items +:+ "]"
  | JObject fields =>
      "{" +:+ (fix go (l : list (string * json)) : string :=
                 match l with
                 | [] => ""
                 | [(k, v)] => quote k +:+ ":" +:+ stringify v
                 | (k, v) :: l' => quote k +:+ ":" +:+ stringify v +:+ "," +:+ go l'
                 end) fields +:+ "}"
  end.

(** [JSON.parse] on the frames the examples receive: the three literals
    decode, and [{oops], which is no JSON text, does not.  It is [None] on
    every other frame, so it stands for [JSON.parse] on these four only. *)
Definition parse (frame : string) : option json :=
  if String.eqb frame "null" then Some JNull
  else if String.eqb frame "true" then Some (JBool true)
  else if String.eqb frame "false" then Some (JBool false)
  else None.

Definition P : platform := mkPlatform parse stringify (fun _ => true).

Definition url : string := "ws://172.17.0.2:8765".

(** The session is up on the first socket. *)
Definition connected : store :=
  mkStore true [mkWebSocket url OPEN] (Some 0) DEFAULT_CONFIG true 0 [] None.

(** The first socket has dropped and the reconnection timer is pending. *)
Definition reconnecting : store :=
  mkStore true [mkWebSocket url CLOSED] (Some 0) DEFAULT_CONFIG false 1
          [mkTimer url RECONNECT_INTERVAL] None.

(** The first connection attempt is still under way. *)
Definition connecting : store :=
  mkStore true [mkWebSocket url CONNECTING] (Some 0) DEFAULT_CONFIG false 0 [] None.

(** Nothing has happened yet. *)
Definition fresh : store :=
  mkStore true [] None DEFAULT_CONFIG false 0 [] None.

Definition envelope : json :=
  JObject [("type", JString "message"); ("data", JString "hello")].

Definition exo1 : container := mkContainer "a1b2c3d4e5f6" "exo-1" "exo:latest" "Up 2 hours".
Definition exo2 : container := mkContainer "0f9e8d7c6b5a" "exo-2" "exo:latest" "Up 5 minutes".

Definition address_of (containerId : string) : option string :=
  if String.eqb containerId "a1b2c3d4e5f6" then Some "172.17.0.2"
  else if String.eqb containerId "0f9e8d7c6b5a" then Some "172.17.0.3"
  else None.

(** Two containers run, both answer on both ports after 20 ms, the file
    system takes writes, and the user clicks the first button. *)
Definition world : env :=
  mkEnv true (Some [exo1; exo2]) address_of
        (fun _ => Some "exo:latest") (fun _ => Some "c0ffee")
        (fun _ _ => ConnectsAfter 20) true 0.

(** The same world with a configuration file that cannot be written. *)
Definition read_only_world : env :=
  mkEnv true (Some [exo1; exo2]) address_of
        (fun _ => Some "exo:latest") (fun _ => Some "c0ffee")
        (fun _ _ => ConnectsAfter 20) false 0.

(** The same world with nothing listening on the WebSocket port. *)
Definition deaf_world : env :=
  mkEnv true (Some [exo1; exo2]) address_of
        (fun _ => Some "exo:latest") (fun _ => Some "c0ffee")
        (fun _ port => if (port =? 8765)%N then Silent else ConnectsAfter 20) true 0.

(** The store of a session that last used [exo1]. *)
Definition returning : store :=
  mkStore true [] None
          (mkConfig "172.17.0.2" 8080 8765 true (Some "a1b2c3d4e5f6"))
          false 0 []
          (Some (mkConfig "172.17.0.2" 8080 8765 true (Some "a1b2c3d4e5f6"))).

(** The web client with no transport up and a message typed in. *)
Definition offline : Web.state :=
  Web.mkState false false [mkWebSocket "ws://localhost:8765" CLOSED] (Some 0) []
              "hello" ["dot"; "error"] 1.

End Example.

(** ** The session part of the store *)

(** What the socket handlers work on: everything but the configuration. *)
Definition session (st : store) :
  bool * list WebSocket * option nat * bool * nat * list timer :=
  (mainWindow st, sockets st, wsClient st, isConnected st, reconnectAttempts st, timers st).

Definition is_ws_close (e : effect) : bool :=
  match e with WsClose _ => true | _ => false end.
Definition is_ws_new (e : effect) : bool :=
  match e with WsNew _ _ => true | _ => false end.
Definition is_renderer_send (e : effect) : bool :=
  match e with WebContentsSend _ _ => true | _ => false end.
Definition is_error_box (e : effect) : bool :=
  match e with ShowErrorBox _ _ => true | _ => false end.

(** The sockets [close()] has been called on, in order. *)
Definition closed_by_us (out : list effect) : list nat :=
  omap (fun e => match e with WsClose i => Some i | _ => None end) out.

(** From [st] to [st']: sockets are only added, at the end, and keep their
    address; the client is the one it was, or one of the added sockets, or
    none. *)
Definition extends (st st' : store) : Prop :=
  (exists added, map ws_url (sockets st') = map ws_url (sockets st) ++ added) /\
  (forall i, wsClient st' = Some i ->
     wsClient st = Some i \/ (length (sockets st) <= i /\ i < length (sockets st'))).

(** The client, if any, is one of the sockets constructed. *)
Definition client_is_a_socket (st : store) : Prop :=
  forall i, wsClient st = Some i -> i < length (sockets st).

(** An effect on a socket, a timer or the renderer. *)
Definition is_session_effect (e : effect) : bool :=
  match e with
  | WsNew _ _ | WsSend _ _ | WsClose _ | SetTimeout _ _ | WebContentsSend _ _ => true
  | _ => false
  end.

(** A handler that reaches the session only through one call of
    [connectToContainerWebSocket], made last, if at all. *)
Definition through_connect (P : platform) (m : M unit) : Prop :=
  forall st,
    exists pre,
      Forall (fun e => is_session_effect e = false) pre /\
      ((exec m st = st /\ output m st = pre) \/
       exists url st1,
         session st1 = session st /\
         exec m st = exec (connectToContainerWebSocket P url) st1 /\
         output m st = pre ++ output (connectToContainerWebSocket P url) st1).

(** ** [listContainers]: the rows of [docker ps] *)

(** [s.split(sep)] for a separator of one character. *)
Fixpoint String_split (sep : ascii) (s : string) : list string :=
  match s with
  | EmptyString => [""]
  | String c s' =>
      if Ascii.eqb c sep then "" :: String_split sep s'
      else
        match String_split sep s' with
        | piece :: pieces => String c piece :: pieces
        | [] => [String c ""]
        end
  end.

Definition newline : ascii := "010"%char.

(** How a template literal renders a field that may be [undefined]. *)
Definition in_template (v : option string) : string := default "undefined" v.

(** [line => { const [id, name, image, status] = line.split('|'); ... }].
    The first field is always there, as [split] never returns an empty array.
    The fields past the last [|] of the line are [undefined]; the record keeps
    them as the template literal of [option_label], their only reader, shows
    them. *)
Definition container_of_line (line : string) : container :=
  let fields := String_split "|" line in
  mkContainer (in_template (fields !! 0)) (in_template (fields !! 1))
              (in_template (fields !! 2)) (in_template (fields !! 3)).

(** [output.trim().split('\n').map(...)], the value [listContainers] returns
    when [docker ps] has printed [output]. *)
Definition containers_of (String_trim : string -> string) (output : string) : list container :=
  map container_of_line (String_split newline (String_trim output)).

(** ** [loadConfig] and the start of the process *)

Module Startup.

(** [loadConfig()], on a configuration file that is absent or is one
    [saveConfig] wrote: such a file parses to an object with every field of
    [DEFAULT_CONFIG], which the spread [{ ...DEFAULT_CONFIG, ...config }]
    yields back. *)
Definition loadConfig (file : option config) : config :=
  match file with
  | Some cfg => cfg
  | None => DEFAULT_CONFIG
  end.

(** The module-level variables of [main.js] once [createWindow] has run, over
    the configuration file the last run left. *)
Definition start (file : option config) : store :=
  mkStore true [] None (loadConfig file) false 0 [] file.

End Startup.

(** ** [ipcMain.on('container-settings', ...)] *)

(** The [settings] object of the message: the fields it carries, each of the
    type the configuration has it. *)
Record settings : Type := mkSettings {
  settings_containerHost : option string;
  settings_containerPort : option N;
  settings_websocketPort : option N;
  settings_autoConnect : option bool;
  settings_lastContainer : option (option string)
}.

(** [{ ...containerConfig, ...settings }] *)
Definition spread (cfg : config) (s : settings) : config :=
  mkConfig (default (containerHost cfg) (settings_containerHost s))
           (default (containerPort cfg) (settings_containerPort s))
           (default (websocketPort cfg) (settings_websocketPort s))
           (default (autoConnect cfg) (settings_autoConnect s))
           (default (lastContainer cfg) (settings_lastContainer s)).

Definition container_settings (w : env) (s : settings) : M unit :=
  modify (fun st => set_containerConfig (spread (containerConfig st) s) st) ;;
  cfg <- gets containerConfig ;;
  containerIntegration.saveConfig w cfg.

(** ** Further observations *)

(** The payloads relayed from the backend to the renderer, in order. *)
Definition relayed (out : list effect) : list json :=
  omap (fun e => match e with
                 | WebContentsSend "from-backend" j => Some j
                 | _ => None
                 end) out.

(** The Socket.IO messages emitted, in order. *)
Definition emitted (out : list effect) : list json :=
  omap (fun e => match e with SocketEmit "message" j => Some j | _ => None end) out.

(** The error boxes shown, in order. *)
Definition error_boxes (out : list effect) : list (string * string) :=
  omap (fun e => match e with
                 | ShowErrorBox title message => Some (title, message)
                 | _ => None
                 end) out.

(** The ids of the running containers. *)
Definition running_ids (w : env) : list string := map container_id (running w).

(** ** The event loop of the web client *)

Module WebEvents.

Section Loop.

Variable P : platform.
Variable String_trim : string -> string.
Variable websocketUrl : string.
Variable handleMessage : json -> JS Web.state unit.

(** [socket.on('connect', ...)] *)
Definition on_connect : JS Web.state unit :=
  console_log "Connected to Socket.IO server" [] ;;
  modify (Web.set_socketConnected true) ;;
  Web.updateConnectionStatus.

(** [socket.on('disconnect', ...)] *)
Definition on_disconnect : JS Web.state unit :=
  console_log "Disconnected from Socket.IO server" [] ;;
  modify (Web.set_socketConnected false) ;;
  Web.updateConnectionStatus.

(** [socket.on('message', ...)] *)
Definition on_message (data : json) : JS Web.state unit :=
  console_log "Received message from Socket.IO:" [ArgJson data] ;;
  handleMessage data.

(** The [keypress] listener of the input field. *)
Definition on_keypress (key now : string) : JS Web.state unit :=
  if String.eqb key "Enter" then Web.sendMessage P String_trim now else ret tt.

(** What can happen next in the page.  A WebSocket that fails fires [error]
    and then [close] in one task, its [readyState] already [CLOSED]; one that
    closes cleanly fires [close] alone. *)
Inductive event : Type :=
| Connect
| Disconnect
| Message (data : json)
| Open (i : nat)
| Frame (i : nat) (data : string)
| Fail (i : nat)
| Close (i : nat)
| TimerFires
| Input (text : string)
| Keypress (key now : string)
| Click (now : string).

Definition handle {A} (m : JS Web.state A) (st : Web.state) : Web.state * list effect :=
  (exec m st, output m st).

(** One turn of the page's event loop; [None] when the event cannot occur. *)
Definition step (ev : event) (st : Web.state) : option (Web.state * list effect) :=
  match ev with
  | Connect => Some (handle on_connect st)
  | Disconnect => Some (handle on_disconnect st)
  | Message data => Some (handle (on_message data) st)
  | Open i =>
      if bool_decide (Web.readyState_of i st = CONNECTING)
      then Some (handle Web.onopen (Web.set_readyState i OPEN st))
      else None
  | Frame i data =>
      if bool_decide (Web.readyState_of i st = OPEN)
      then Some (handle (Web.onmessage P handleMessage data) st)
      else None
  | Fail i =>
      if bool_decide (Web.readyState_of i st = CLOSED) then None
      else Some (handle (Web.onerror ;; Web.onclose websocketUrl)
                        (Web.set_readyState i CLOSED st))
  | Close i =>
      if bool_decide (Web.readyState_of i st = CLOSED) then None
      else Some (handle (Web.onclose websocketUrl) (Web.set_readyState i CLOSED st))
  | TimerFires =>
      match Web.timers st with
      | S n => Some (handle (Web.initWebSocket P websocketUrl) (Web.set_timers n st))
      | 0 => None
      end
  | Input text => Some (Web.set_messageInput text st, [])
  | Keypress key now => Some (handle (on_keypress key now) st)
  | Click now => Some (handle (Web.sendMessage P String_trim now) st)
  end.

Fixpoint run (evs : list event) (st : Web.state) : option (Web.state * list effect) :=
  match evs with
  | [] => Some (st, [])
  | ev :: evs' =>
      match step ev st with
      | Some (st1, out1) =>
          match run evs' st1 with
          | Some (st2, out2) => Some (st2, out1 ++ out2)
          | None => None
          end
      | None => None
      end
  end.

(** [n] connection attempts that fail one after the other, the first of them
    on socket [i]: the socket fails, and the timer its [close] handler
    registered comes due. *)
Fixpoint failed_attempts (i n : nat) : list event :=
  match n with
  | 0 => []
  | S n' => [Fail i; TimerFires] ++ failed_attempts (S i) n'
  end.

End Loop.

(** The fallback is trying to connect on socket [i], the newest one, and
    Socket.IO is down. *)
Record Trying (url : string) (st : Web.state) (i : nat) : Prop := {
  trying_client : Web.ws st = Some i;
  trying_newest : length (Web.sockets st) = S i;
  trying_socket : Web.sockets st !! i = Some (mkWebSocket url CONNECTING);
  trying_alone : Web.socketConnected st = false;
  trying_timers : Web.timers st = 0
}.

(** Nothing is left that could bring the fallback back: no socket is live
    and no timer is pending. *)
Definition Idle (st : Web.state) : Prop :=
  Web.timers st = 0 /\ Forall (fun s => ws_readyState s = CLOSED) (Web.sockets st).

(** The message [updateConnectionStatus] adds when no transport is up. *)
Definition connection_lost : Web.element :=
  Web.mkElement "message system-message" "Connection lost. Trying to reconnect...".

(** A page handler that works on the chat and the status dot only. *)
Definition page_only (handleMessage : json -> JS Web.state unit) : Prop :=
  forall data st,
    Web.ws (exec (handleMessage data) st) = Web.ws st /\
    Web.sockets (exec (handleMessage data) st) = Web.sockets st /\
    Web.timers (exec (handleMessage data) st) = Web.timers st /\
    constructed (output (handleMessage data) st) = [] /\
    scheduled_delays (output (handleMessage data) st) = [].

End WebEvents.

(** ** What goes into and comes out of the selection dialog *)

(** The user's click closes the box without a choice: [Cancel], which is the
    last button of either box. *)
Definition cancels (w : env) : bool :=
  if Nat.eqb (length (running w)) 0 then negb (Nat.eqb (box_response w) 0)
  else Nat.leb (length (running w)) (box_response w).

(** [sep] does not occur in [s]. *)
Fixpoint free_of (sep : ascii) (s : string) : bool :=
  match s with
  | EmptyString => true
  | String c s' => negb (Ascii.eqb c sep) && free_of sep s'
  end.

(** A row is printed without ambiguity. *)
Definition printable (c : container) : bool :=
  free_of "|" (container_id c) && free_of newline (container_id c) &&
  free_of "|" (container_name c) && free_of newline (container_name c) &&
  free_of "|" (container_image c) && free_of newline (container_image c) &&
  free_of "|" (container_status c) && free_of newline (container_status c).

(** What [docker ps] prints for one container under the format
    [{{.ID}}|{{.Names}}|{{.Image}}|{{.Status}}] that [listContainers] asks
    for, and for several, one per line. *)
Definition ps_line (c : container) : string :=
  container_id c +:+ "|" +:+ container_name c +:+ "|" +:+ container_image c
  +:+ "|" +:+ container_status c.

Fixpoint ps_lines (rows : list container) : string :=
  match rows with
  | [] => ""
  | [c] => ps_line c
  | c :: rows' => ps_line c +:+ String newline (ps_lines rows')
  end.

(** The events of the page that report on a transport. *)
Definition reports_connection (ev : WebEvents.event) : bool :=
  match ev with
  | WebEvents.Connect | WebEvents.Disconnect
  | WebEvents.Open _ | WebEvents.Fail _ | WebEvents.Close _ => true
  | _ => false
  end.

(** The page shows that a transport is up: [true] for the class [idle] on the
    status dot, [false] for the class [error], nothing for neither or both. *)
Definition dot_shows (st : Web.state) (up : bool) : Prop :=
  In (if up then "idle" else "error") (Web.statusDot st) /\
  ~ In (if up then "error" else "idle") (Web.statusDot st).

(** The envelope [sendMessage] builds around what was typed. *)
Definition outgoing (content now : string) : json :=
  JObject [("type", JString "message");
           ("data", JObject [("role", JString "user"); ("content", JString content);
                             ("timestamp", JNumber now)])].

(** An effect that constructs a socket or registers a timer. *)
Definition is_retry_effect (e : effect) : bool :=
  match e with
  | WsNew _ _ | SetTimeout _ _ => true
  | _ => false
  end.

(** What the retry cycle of the page works on: the sockets and the timers. *)
Definition wiring (st : Web.state) : list WebSocket * nat := (Web.sockets st, Web.timers st).

(** ** Further instances *)

Module Scenario.


(** The world of [Example.world] with a user who clicks [Cancel], the third
    button of the selection box. *)
Definition cancelling : env :=
  mkEnv true (Some [Example.exo1; Example.exo2]) Example.address_of
        (fun _ => Some "exo:latest") (fun _ => Some "c0ffee")
        (fun _ _ => ConnectsAfter 20) true 2.

(** [String.prototype.trim] on strings with no white space at either end. *)
Definition trim (s : string) : string := s.

(** Docker runs and no container does: [docker ps] prints nothing. *)
Definition nothing_running : env :=
  mkEnv true (Some (containers_of trim "")) Example.address_of
        (fun _ => Some "exo:latest") (fun _ => Some "c0ffee")
        (fun _ _ => ConnectsAfter 20) true 0.

(** Settings that turn [autoConnect] off and carry nothing else. *)
Definition manual : settings := mkSettings None None None (Some false) None.

(** The first connection attempt has been let go of while under way. *)
Definition let_go : store :=
  mkStore true [mkWebSocket Example.url CONNECTING] None DEFAULT_CONFIG false 0 [] None.

(** The session is up and the window is gone. *)
Definition windowless : store := set_mainWindow false Example.connected.

Definition websocketUrl : string := "ws://localhost:8765".

(** A page that shows every envelope it is handed as a message of the
    assistant. *)
Definition page (data : json) : JS Web.state unit :=
  Web.addMessage "assistant" (Example.stringify data).

(** The web client on its first attempt over the fallback. *)
Definition trying : Web.state :=
  Web.mkState false false [mkWebSocket websocketUrl CONNECTING] (Some 0) [] ""
              ["dot"] 0.

(** The web client on Socket.IO, its fallback socket closed and the retry
    timer pending. *)
Definition on_socket_io : Web.state :=
  Web.mkState true false [mkWebSocket websocketUrl CLOSED] (Some 0) [] "hello"
              ["dot"; "idle"] 1.

End Scenario.

(** ** What [isConnected] is for *)

(** Two stores that differ at most in [isConnected]. *)
Definition same_but_isConnected (st1 st2 : store) : Prop :=
  set_isConnected false st1 = set_isConnected false st2.

(** A handler that does not read [isConnected]: run from two stores that
    differ at most there, it completes the same way, puts out the same, and
    leaves stores that differ at most there. *)
Definition blind {A} (m : M A) : Prop :=
  forall st1 st2,
    same_but_isConnected st1 st2 ->
    outcome m st1 = outcome m st2 /\
    output m st1 = output m st2 /\
    same_but_isConnected (exec m st1) (exec m st2).

(** The same of two turns of the event loop. *)
Definition alike (r1 r2 : option (store * list effect)) : Prop :=
  match r1, r2 with
  | Some (st1, out1), Some (st2, out2) => out1 = out2 /\ same_but_isConnected st1 st2
  | None, None => True
  | _, _ => False
  end.

(** What the page holds of the fallback: the sockets and which one is [ws]. *)
Definition held (st : Web.state) : list WebSocket * option nat :=
  (Web.sockets st, Web.ws st).

(** Every socket but number [c] is closing or closed. *)
Definition others_settled (socks : list WebSocket) (c : option nat) : Prop :=
  forall j s,
    socks !! j = Some s -> c <> Some j ->
    ws_readyState s = CLOSING \/ ws_readyState s = CLOSED.

(** The page has at most one socket that is connecting or open, and that one
    is [ws]. *)
Definition one_live_socket (st : Web.state) : Prop :=
  others_settled (Web.sockets st) (Web.ws st).

(** ** What the main process still has coming *)

(** A socket that can still emit an event. *)
Definition is_live (s : WebSocket) : bool :=
  negb (bool_decide (ws_readyState s = CLOSED)).

Definition live (socks : list WebSocket) : nat := length (List.filter is_live socks).

(** The live sockets and the pending timers. *)
Definition pending (st : store) : nat := live (sockets st) + length (timers st).

(** ** Discovery turn by turn *)

(** [connectToContainer] is an [async] function: it runs up to its first
    [await], and every later part of it runs in a turn of its own, when the
    promise it waits for settles; so does each caller of it in [main.js].
    Between two such turns any other event may be handled.  The module below
    gives these turns one by one, with the configuration objects the pending
    calls hold on to, the two events [event] leaves out (the [activate] event
    of the application and the [container-settings] message) and the two ways
    a write of the configuration file fails. *)
Module System.

(** How a failing [fs.writeFileSync(CONFIG_FILE, ...)] leaves the file.  The
    call passes no flag, so the file is opened with ['w'], which truncates
    it: a write that fails at opening the file leaves it as it was, one that
    fails later leaves it empty or cut short. *)
Inductive failed_write : Type := NotOpened | CutShort.

(** The world outside while one turn runs. *)
Record world : Type := mkWorld {
  outside : env;
  failing_write : failed_write
}.
#[local] Coercion outside : world >-> env.

(** The [async] function of [main.js] that called [connectToContainer]. *)
Inductive caller : Type := CheckContainerConnection | ShowContainerSelectionDialog.

(** A call of [connectToContainer(containerId, config)] waiting for a probe.
    [call_config] names the object passed as [config]: [None] is the object
    the variable [containerConfig] of [main.js] holds now, [Some j] is the
    [j]-th of the objects it held earlier.  [call_websocket] tells the probe
    of the WebSocket port from that of the web server port. *)
Record call : Type := mkCall {
  call_caller : caller;
  call_containerId : string;
  call_config : option nat;
  call_containerIP : string;
  call_port : N;
  call_websocket : bool
}.

(** What an [async] function is waiting for: the answer to the message box of
    the selection dialog (over the containers listed), or a probe. *)
Inductive task : Type :=
| Box (containers : list container)
| Probe (c : call).

(** The main process: its module-level variables, the configuration objects
    [containerConfig] held before a [container-settings] message replaced
    them, and the [async] calls made so far ([None] once a call has gone
    on). *)
Record system : Type := mkSystem {
  main : store;
  detached : list config;
  tasks : list (option task)
}.

Definition set_main (v : store) (sys : system) : system :=
  mkSystem v (detached sys) (tasks sys).
Definition set_detached (v : list config) (sys : system) : system :=
  mkSystem (main sys) v (tasks sys).
Definition set_tasks (v : list (option task)) (sys : system) : system :=
  mkSystem (main sys) (detached sys) v.

(** A handler of [main.js], run where it stands. *)
Definition lift {A} (m : M A) : JS system A :=
  fun sys =>
    match m (main sys) with
    | (r, st, out) => (r, set_main st sys, out)
    end.

(** The object a reference names. *)
Definition object (r : option nat) (sys : system) : config :=
  match r with
  | None => containerConfig (main sys)
  | Some j => default DEFAULT_CONFIG (detached sys !! j)
  end.

(** Assignment to the fields of the object a reference names. *)
Definition assign (r : option nat) (v : config) (sys : system) : system :=
  match r with
  | None => set_main (set_containerConfig v (main sys)) sys
  | Some j => set_detached (<[j := v]> (detached sys)) sys
  end.

(** A reference names an object that exists, and so does the reference every
    pending call holds. *)
Definition refers (r : option nat) (sys : system) : Prop :=
  forall j, r = Some j -> j < length (detached sys).

Definition references_hold (sys : system) : Prop :=
  forall k c, tasks sys !! k = Some (Some (Probe c)) -> refers (call_config c) sys.

(** The references of the pending calls and the reference [r] hold. *)
Definition holding (r : option nat) (sys : system) : Prop :=
  references_hold sys /\ refers r sys.

(** [await]: the function goes on in a later turn. *)
Definition await (t : task) : JS system unit :=
  modify (fun sys => set_tasks (tasks sys ++ [Some t]) sys).

(** The [k]-th call goes on: it is through ([None]) or waits again. *)
Definition resume (k : nat) (t : option task) : JS system unit :=
  modify (fun sys => set_tasks (<[k := t]> (tasks sys)) sys).

(** [saveConfig(config)].  [configFile] is what [loadConfig] will find: a
    file cut short does not parse, and [loadConfig] treats it like no file. *)
Definition saveConfig (w : world) (cfg : config) : JS system unit :=
  if fs_writable w then
    lift (modify (set_configFile (Some cfg))) ;;
    emit (FsWrite cfg)
  else
    match failing_write w with
    | NotOpened => ret tt
    | CutShort => lift (modify (set_configFile None))
    end ;;
    console_error "Error saving configuration:" [ArgError "Error"].

(** [checkPort(host, port)] up to the promise it returns: the socket is told
    to connect, and [socket.connect] throws on a port above 65535. *)
Definition checkPort_called (host : string) (port : N) : JS system unit :=
  emit (TcpProbe host port) ;;
  if (65535 <? port)%N then throw "ERR_SOCKET_BAD_PORT" else ret tt.

(** What that promise resolves to. *)
Definition checkPort_settled (w : env) (host : string) (port : N) : bool :=
  match tcp_connect w host port with
  | ConnectsAfter ms => (ms <? containerIntegration.PROBE_TIMEOUT)%N
  | ErrorAfter ms => false
  | Silent => false
  end.

(** [connectToContainer(containerId, config)] up to
    [await checkPort(containerIP, config.containerPort)]. *)
Definition connectToContainer_called
    (w : env) (who : caller) (containerId : string) (config : option nat) :
    JS system unit :=
  containerIP <- lift (containerIntegration.getContainerIP w containerId) ;;
  if negb (truthy containerIP) then throw "Failed to get container IP address"
  else
    let ip := default "" containerIP in
    cfg <- gets (object config) ;;
    checkPort_called ip (containerPort cfg) ;;
    await (Probe (mkCall who containerId config ip (containerPort cfg) false)).

Section Turns.

Variable P : platform.

(** [showContainerSelectionDialog()] of [main.js] up to the message box that
    [containerIntegration.showContainerSelectionDialog] opens. *)
Definition showContainerSelectionDialog_called (w : env) : JS system unit :=
  containers <- lift (containerIntegration.listContainers w) ;;
  (if Nat.eqb (length containers) 0 then
     emit (ShowMessageBox "No Containers Found" ["Start Container"; "Cancel"])
   else
     emit (ShowMessageBox "Select Container"
             (map containerIntegration.option_label containers ++ ["Cancel"]))) ;;
  await (Box containers).

(** The [catch] clause of the caller. *)
Definition rejected (w : env) (who : caller) (message : string) : JS system unit :=
  match who with
  | ShowContainerSelectionDialog =>
      console_error "Error connecting to container:" [ArgMessage message] ;;
      lift (showConnectionError message)
  | CheckContainerConnection =>
      console_error "Error auto-connecting to container:" [ArgMessage message] ;;
      showContainerSelectionDialog_called w
  end.

(** [checkContainerConnection()] up to its first [await]; the inner
    computation yields [true] where the function waits for
    [connectToContainer]. *)
Definition checkContainerConnection_called (w : env) : JS system unit :=
  if negb (containerIntegration.checkDocker w) then lift showDockerNotInstalledError
  else
    cfg <- gets (object None) ;;
    waiting <-
      (if autoConnect cfg && truthy (lastContainer cfg) then
         let last := default "" (lastContainer cfg) in
         try_catch
           (containers <- lift (containerIntegration.listContainers w) ;;
            let containerExists :=
              existsb (fun c => String.eqb (container_id c) last) containers in
            if containerExists then
              connectToContainer_called w CheckContainerConnection last None ;;
              ret true
            else ret false)
           (fun message =>
              console_error "Error auto-connecting to container:" [ArgMessage message] ;;
              ret false)
       else ret false) ;;
    if waiting then ret tt else showContainerSelectionDialog_called w.

(** The message box of the [k]-th call is answered: the rest of
    [containerIntegration.showContainerSelectionDialog], and
    [showContainerSelectionDialog] of [main.js] up to its second [await]. *)
Definition box_answered (w : env) (k : nat) (containers : list container) :
    JS system unit :=
  resume k None ;;
  try_catch
    (containerId <-
       (if Nat.eqb (length containers) 0 then
          if Nat.eqb (box_response w) 0 then
            try_catch
              (containerId <- lift (containerIntegration.startContainer w "exo:latest") ;;
               ret (Some containerId))
              (fun message =>
                 emit (ShowErrorBox "Error" ("Failed to start container: " +:+ message)) ;;
                 ret None)
          else ret None
        else
          let options :=
            map (fun c => (containerIntegration.option_label c, container_id c))
                containers in
          if Nat.ltb (box_response w) (length options) then
            ret (snd <$> options !! box_response w)
          else ret None) ;;
     if truthy containerId then
       connectToContainer_called w ShowContainerSelectionDialog
                                 (default "" containerId) None
     else ret tt)
    (rejected w ShowContainerSelectionDialog).

(** The probe of the [k]-th call settles: [connectToContainer] goes on to its
    next [await] or to its end, and then its caller does. *)
Definition probe_settled (w : world) (k : nat) (c : call) : JS system unit :=
  resume k None ;;
  try_catch
    (let ip := call_containerIP c in
     let open := checkPort_settled w ip (call_port c) in
     cfg <- gets (object (call_config c)) ;;
     if call_websocket c then
       if negb open then
         throw ("WebSocket port " +:+ pretty (websocketPort cfg)
                +:+ " is not open on the container")
       else
         modify (assign (call_config c)
                   (mkConfig ip (containerPort cfg) (websocketPort cfg)
                             (autoConnect cfg) (Some (call_containerId c)))) ;;
         cfg' <- gets (object (call_config c)) ;;
         saveConfig w cfg' ;;
         lift (connectToContainerWebSocket P
                 ("ws://" +:+ ip +:+ ":" +:+ pretty (websocketPort cfg'))) ;;
         ret tt
     else
       if negb open then
         throw ("Web server port " +:+ pretty (containerPort cfg)
                +:+ " is not open on the container")
       else
         checkPort_called ip (websocketPort cfg) ;;
         resume k (Some (Probe (mkCall (call_caller c) (call_containerId c)
                                       (call_config c) ip (websocketPort cfg) true))))
    (rejected w (call_caller c)).

(** A pending call that was handed the object [containerConfig] holds keeps
    it when the variable is given another object, the [j]-th to go. *)
Definition keep_object (j : nat) (t : option task) : option task :=
  match t with
  | Some (Probe c) =>
      match call_config c with
      | None =>
          Some (Probe (mkCall (call_caller c) (call_containerId c) (Some j)
                              (call_containerIP c) (call_port c) (call_websocket c)))
      | Some _ => t
      end
  | _ => t
  end.

(** [ipcMain.on('container-settings', ...)]: [containerConfig] is given a new
    object, which is saved. *)
Definition container_settings (w : world) (s : settings) : JS system unit :=
  modify (fun sys =>
            mkSystem (set_containerConfig (spread (containerConfig (main sys)) s) (main sys))
                     (detached sys ++ [containerConfig (main sys)])
                     (map (keep_object (length (detached sys))) (tasks sys))) ;;
  cfg <- gets (object None) ;;
  saveConfig w cfg.

(** [app.on('activate', ...)]: with no window open, [createWindow] assigns a
    new one to [mainWindow]. *)
Definition activate : JS system unit :=
  open <- gets (fun sys => mainWindow (main sys)) ;;
  if open then ret tt else lift (modify (set_mainWindow true)).

(** The events of [event] that are handled in one turn: all but the two that
    start discovery. *)
Definition in_one_turn (ev : event) : bool :=
  match ev with
  | ConnectToContainer _ | ReadyToShow _ => false
  | _ => true
  end.

Definition session_turn (ev : event) (st : store) : option (store * list effect) :=
  if in_one_turn ev then step P ev st else None.

(** What can happen next: an event of the session, [activate], a
    [container-settings] message, the window becoming ready to show, a
    [connect-to-container] message, the user answering the message box of the
    [k]-th call, or the probe of the [k]-th call settling. *)
Inductive turn : Type :=
| Core (ev : event)
| Activate
| Settings (w : world) (s : settings)
| Ready (w : env)
| Connect (w : env)
| Answered (k : nat) (w : env)
| Settled (k : nat) (w : world).

Definition handle (m : JS system unit) (sys : system) : system * list effect :=
  (exec m sys, output m sys).

(** One turn; [None] when it cannot come in [sys]: [ready-to-show] comes from
    an open window, an answer from a message box that is up, a probe settles
    once. *)
Definition step (t : turn) (sys : system) : option (system * list effect) :=
  match t with
  | Core ev =>
      match session_turn ev (main sys) with
      | Some (st, out) => Some (set_main st sys, out)
      | None => None
      end
  | Activate => Some (handle activate sys)
  | Settings w s => Some (handle (container_settings w s) sys)
  | Ready w =>
      if mainWindow (main sys) then Some (handle (checkContainerConnection_called w) sys)
      else None
  | Connect w => Some (handle (showContainerSelectionDialog_called w) sys)
  | Answered k w =>
      match tasks sys !! k with
      | Some (Some (Box containers)) => Some (handle (box_answered w k containers) sys)
      | _ => None
      end
  | Settled k w =>
      match tasks sys !! k with
      | Some (Some (Probe c)) => Some (handle (probe_settled w k c) sys)
      | _ => None
      end
  end.

(** A sequence of turns, with everything it put out. *)
Fixpoint run (ts : list turn) (sys : system) : option (system * list effect) :=
  match ts with
  | [] => Some (sys, [])
  | t :: ts' =>
      match step t sys with
      | Some (sys1, out1) =>
          match run ts' sys1 with
          | Some (sys2, out2) => Some (sys2, out1 ++ out2)
          | None => None
          end
      | None => None
      end
  end.

(** The first call that is waiting, with its position. *)
Fixpoint first_pending (k : nat) (ts : list (option task)) : option (nat * task) :=
  match ts with
  | [] => None
  | Some t :: _ => Some (k, t)
  | None :: ts' => first_pending (S k) ts'
  end.

(** The turn in which that call goes on. *)
Definition next_turn (w : world) (sys : system) : option turn :=
  match first_pending 0 (tasks sys) with
  | Some (k, Box _) => Some (Answered k w)
  | Some (k, Probe _) => Some (Settled k w)
  | None => None
  end.

(** Discovery left to itself, for at most [n] turns: nothing else is handled
    until no call is waiting any more. *)
Fixpoint undisturbed (n : nat) (w : world) (sys : system) : option (system * list effect) :=
  match n with
  | 0 => Some (sys, [])
  | S n' =>
      match next_turn w sys with
      | Some t =>
          match step t sys with
          | Some (sys1, out1) =>
              match undisturbed n' w sys1 with
              | Some (sys2, out2) => Some (sys2, out1 ++ out2)
              | None => None
              end
          | None => None
          end
      | None => Some (sys, [])
      end
  end.

(** The turn [t], and discovery left to itself after it. *)
Definition left_alone (n : nat) (w : world) (t : turn) (sys : system) :
    option (system * list effect) :=
  match step t sys with
  | Some (sys1, out1) =>
      match undisturbed n w sys1 with
      | Some (sys2, out2) => Some (sys2, out1 ++ out2)
      | None => None
      end
  | None => None
  end.

End Turns.

(** The process once [createWindow] has run, over the configuration file the
    last run left. *)
Definition start (file : option config) : system :=
  mkSystem (Startup.start file) [] [].

End System.

Coercion System.outside : System.world >-> env.

(** ** Instances for discovery turn by turn *)

Module Selecting.

(** [Example.world], where the configuration file takes writes. *)
Definition writable : System.world := System.mkWorld Example.world System.NotOpened.



(** The turns of a selection from the message box to the hand-over. *)
Definition selection (w : System.world) : list System.turn :=
  [System.Connect w; System.Answered 0 w; System.Settled 1 w; System.Settled 1 w].

(** The session is up and the window is gone. *)
Definition windowless : System.system := System.mkSystem Scenario.windowless [] [].

End Selecting.

(** * Properties *)

(** ** Outputs of sequences *)

Section Properties.

Variable P : platform.

Ltac js_unfold :=
  unfold handle, exec, output, outcome, on_open, on_close, on_error, on_message,
    connectToContainerWebSocket, disconnectFromContainer, new_WebSocket, ws_close,
    ws_send, setTimeout, showConnectionError, console_log, console_warn,
    console_error, when, try_catch, bind, ret, throw, gets, modify, emit.

Lemma run_app evs1 evs2 st :
  run P (evs1 ++ evs2) st =
  match run P evs1 st with
  | Some (st1, out1) =>
      match run P evs2 st1 with
      | Some (st2, out2) => Some (st2, out1 ++ out2)
      | None => None
      end
  | None => None
  end.
Proof.
  revert st. induction evs1 as [|ev evs1 IH]; intros st; simpl.
  - destruct (run P evs2 st) as [[st2 out2]|]; reflexivity.
  - destruct (step P ev st) as [[st1 out1]|]; [|reflexivity].
    rewrite IH. destruct (run P evs1 st1) as [[st2 out2]|]; [|reflexivity].
    destruct (run P evs2 st2) as [[st3 out3]|]; [|reflexivity].
    by rewrite app_assoc.
Qed.

Lemma all_closed_readyState st i : all_closed st -> readyState_of i st = CLOSED.
Proof.
  unfold all_closed, readyState_of. intros H.
  destruct (sockets st !! i) as [s|] eqn:E; [|reflexivity].
  eapply Forall_lookup_1 in H; eauto.
Qed.


Lemma on_open_handle st :
  handle on_open st =
  (set_reconnectAttempts 0 (set_isConnected true st),
   Console LOG "Connected to container WebSocket" [] :: status_out st true).
Proof. js_unfold. unfold status_out. simpl. destruct (mainWindow st); reflexivity. Qed.

Lemma on_close_handle url st :
  handle (on_close url) st =
  if Nat.ltb (reconnectAttempts st) MAX_RECONNECT_ATTEMPTS then
    (set_timers (timers st ++ [mkTimer url RECONNECT_INTERVAL])
       (set_reconnectAttempts (S (reconnectAttempts st)) (set_isConnected false st)),
     Console LOG "WebSocket connection closed" [] :: status_out st false ++
     [Console LOG ("Reconnecting (attempt " +:+ pretty (S (reconnectAttempts st)) +:+ "/"
                   +:+ pretty MAX_RECONNECT_ATTEMPTS +:+ ")...") [];
      SetTimeout url RECONNECT_INTERVAL])
  else
    (set_isConnected false st,
     Console LOG "WebSocket connection closed" [] :: status_out st false ++
     [Console LOG "Max reconnect attempts reached" [];
      ShowErrorBox "Connection Error" default_connection_error]).
Proof.
  js_unfold. unfold status_out. simpl.
  destruct (mainWindow st); simpl;
    destruct (Nat.ltb (reconnectAttempts st) MAX_RECONNECT_ATTEMPTS); reflexivity.
Qed.

Lemma disconnect_handle st :
  handle disconnectFromContainer st =
  match open_client st with
  | Some i =>
      (set_isConnected false (set_wsClient None (set_readyState i CLOSING st)),
       [WsClose i])
  | None => (set_isConnected false (set_wsClient None st), [])
  end.
Proof.
  js_unfold. unfold open_client. simpl.
  destruct (wsClient st) as [i|] eqn:E; simpl.
  - destruct (bool_decide (readyState_of i st = OPEN)); reflexivity.
  - unfold set_wsClient. rewrite <- E. reflexivity.
Qed.


Lemma connect_handle url st :
  ws_accepts P url = true ->
  handle (connectToContainerWebSocket P url) st =
  let '(st1, out1) := handle disconnectFromContainer st in
  (set_wsClient (Some (length (sockets st1)))
     (set_sockets (sockets st1 ++ [mkWebSocket url CONNECTING]) st1),
   out1 ++ [Console LOG ("Connecting to WebSocket at " +:+ url +:+ "...") [];
            WsNew (length (sockets st1)) url]).
Proof.
  intros Hu. rewrite disconnect_handle. js_unfold. rewrite Hu. simpl.
  destruct (wsClient st) as [i|] eqn:E; unfold open_client; rewrite E; simpl.
  - destruct (bool_decide (readyState_of i st = OPEN)); reflexivity.
  - reflexivity.
Qed.

Lemma all_closed_open_client st : all_closed st -> open_client st = None.
Proof.
  intros H. unfold open_client. destruct (wsClient st) as [i|]; [|reflexivity].
  by rewrite all_closed_readyState.
Qed.

Lemma all_closed_insert st i url :
  (forall j s, sockets st !! j = Some s -> j <> i -> ws_readyState s = CLOSED) ->
  Forall (fun s => ws_readyState s = CLOSED)
         (<[i := mkWebSocket url CLOSED]> (sockets st)).
Proof.
  intros Ho. apply Forall_lookup_2. intros j s Hj.
  destruct (decide (j = i)) as [->|Hne].
  - destruct (decide (i < length (sockets st))) as [Hlt|Hge].
    + rewrite list_lookup_insert_eq in Hj by exact Hlt. by inversion Hj.
    + rewrite list_insert_ge in Hj by lia.
      apply lookup_lt_Some in Hj. lia.
  - rewrite list_lookup_insert_ne in Hj by auto. eauto.
Qed.

Lemma drop_from_connected st i url :
  Connected P st i url ->
  exists st' out,
    step P (SocketClose i) st = Some (st', out) /\
    Reconnecting P st' url 1 /\
    length (sockets st') = length (sockets st) /\
    gives_up out = false /\
    scheduled_delays out = [RECONNECT_INTERVAL].
Proof.
  intros [Hc Hs Ho Ha Ht Hu].
  unfold step. rewrite Hs. simpl.
  rewrite on_close_handle. unfold set_readyState. rewrite Hs. simpl. rewrite Ha. simpl.
  eexists _, _. split; [reflexivity|].
  split; [|split; [|split]].
  - split; simpl; auto.
    + by apply all_closed_insert.
    + by rewrite Ht.
  - simpl. by rewrite length_insert.
  - unfold status_out. simpl. destruct (mainWindow st); reflexivity.
  - unfold status_out. simpl. destruct (mainWindow st); reflexivity.
Qed.


Lemma run_step ev evs st st1 out1 st2 out2 :
  step P ev st = Some (st1, out1) ->
  run P evs st1 = Some (st2, out2) ->
  run P (ev :: evs) st = Some (st2, out1 ++ out2).
Proof. intros H1 H2. cbn [run]. rewrite H1, H2. reflexivity. Qed.

Lemma timer_fires_reconnecting st url n :
  Reconnecting P st url n ->
  exists st1,
    step P (TimerFires 0) st =
      Some (st1, [Console LOG ("Connecting to WebSocket at " +:+ url +:+ "...") [];
                  WsNew (length (sockets st)) url]) /\
    length (sockets st1) = S (length (sockets st)) /\
    Attempting P st1 (length (sockets st)) url n.
Proof.
  intros [Hcl Ha Ht Hu].
  cbn [step]. rewrite Ht.
  change ([mkTimer url RECONNECT_INTERVAL] !! 0) with (Some (mkTimer url RECONNECT_INTERVAL)).
  cbn [timer_url delete list_delete].
  rewrite connect_handle by exact Hu. rewrite disconnect_handle.
  assert (Hcl' : all_closed (set_timers [] st)) by exact Hcl.
  rewrite (all_closed_open_client _ Hcl').
  eexists. split; [reflexivity|]. simpl.
  split; [rewrite length_app; simpl; lia|].
  split; simpl; auto.
  - rewrite lookup_app_r by lia. by rewrite Nat.sub_diag.
  - intros j s Hj Hne.
    destruct (decide (j < length (sockets st))) as [Hlt|Hge].
    + rewrite lookup_app_l in Hj by exact Hlt.
      eapply Forall_lookup_1 in Hcl; eauto.
    + apply lookup_lt_Some in Hj as Hlen. rewrite length_app in Hlen. simpl in Hlen. lia.
Qed.

Lemma socket_error_attempting st i url n message :
  Attempting P st i url n ->
  step P (SocketError i message) st =
    Some (st, [Console ERROR "WebSocket error:" [ArgMessage message]]).
Proof.
  intros [Hc Hs Ho Ha Ht Hu]. cbn [step].
  unfold readyState_of. rewrite Hs. simpl.
  unfold handle, exec, output. simpl. reflexivity.
Qed.

Lemma socket_close_attempting st i url n :
  Attempting P st i url n ->
  exists st' out,
    step P (SocketClose i) st = Some (st', out) /\
    length (sockets st') = length (sockets st) /\
    constructed out = [] /\
    if Nat.ltb n MAX_RECONNECT_ATTEMPTS then
      Reconnecting P st' url (S n) /\ gives_up out = false /\
      scheduled_delays out = [RECONNECT_INTERVAL]
    else
      Quiescent st' /\ reconnectAttempts st' = n /\ gives_up out = true /\
      scheduled_delays out = [].
Proof.
  intros [Hc Hs Ho Ha Ht Hu]. cbn [step]. rewrite Hs.
  cbn [ws_readyState ws_url]. rewrite bool_decide_eq_false_2 by discriminate.
  rewrite on_close_handle. unfold set_readyState. rewrite Hs.
  cbn [reconnectAttempts set_sockets]. rewrite Ha.
  destruct (Nat.ltb n MAX_RECONNECT_ATTEMPTS) eqn:Hn.
  - eexists _, _. split; [reflexivity|]. simpl.
    split; [by rewrite length_insert|].
    split; [unfold status_out; simpl; destruct (mainWindow st); reflexivity|].
    split; [|split].
    + split; simpl; auto.
      * by apply all_closed_insert.
      * by rewrite Ht.
    + unfold status_out; simpl; destruct (mainWindow st); reflexivity.
    + unfold status_out; simpl; destruct (mainWindow st); reflexivity.
  - eexists _, _. split; [reflexivity|]. simpl.
    split; [by rewrite length_insert|].
    split; [unfold status_out; simpl; destruct (mainWindow st); reflexivity|].
    split; [|split; [|split]].
    + split; simpl; auto. by apply all_closed_insert.
    + exact Ha.
    + unfold status_out; simpl; destruct (mainWindow st); reflexivity.
    + unfold status_out; simpl; destruct (mainWindow st); reflexivity.
Qed.



Lemma constructed_app out1 out2 :
  constructed (out1 ++ out2) = constructed out1 ++ constructed out2.
Proof. apply omap_app. Qed.

Lemma scheduled_delays_app out1 out2 :
  scheduled_delays (out1 ++ out2) = scheduled_delays out1 ++ scheduled_delays out2.
Proof. apply omap_app. Qed.

Lemma delivered_app out1 out2 :
  delivered (out1 ++ out2) = delivered out1 ++ delivered out2.
Proof. apply omap_app. Qed.

Lemma gives_up_app out1 out2 :
  gives_up (out1 ++ out2) = gives_up out1 || gives_up out2.
Proof. apply existsb_app. Qed.

Lemma failed_attempt_run st url n :
  Reconnecting P st url n ->
  exists st' out,
    run P (failed_attempt (length (sockets st))) st = Some (st', out) /\
    length (sockets st') = S (length (sockets st)) /\
    constructed out = [url] /\
    if Nat.ltb n MAX_RECONNECT_ATTEMPTS then
      Reconnecting P st' url (S n) /\ gives_up out = false /\
      scheduled_delays out = [RECONNECT_INTERVAL]
    else
      Quiescent st' /\ reconnectAttempts st' = n /\ gives_up out = true /\
      scheduled_delays out = [].
Proof.
  intros HR.
  destruct (timer_fires_reconnecting _ _ _ HR) as (st1 & H1 & Hlen1 & HA).
  pose proof (socket_error_attempting _ _ _ _ "connect ECONNREFUSED" HA) as H2.
  destruct (socket_close_attempting _ _ _ _ HA) as (st3 & out3 & H3 & Hlen3 & Hc3 & Hrest).
  eexists st3, _. split.
  { unfold failed_attempt. eapply run_step; [exact H1|].
    eapply run_step; [exact H2|]. eapply run_step; [exact H3|]. reflexivity. }
  rewrite app_nil_r.
  rewrite !constructed_app, !gives_up_app, !scheduled_delays_app, Hc3.
  split; [lia|].
  split; [reflexivity|].
  destruct (Nat.ltb n MAX_RECONNECT_ATTEMPTS).
  - destruct Hrest as (HR' & -> & ->). auto.
  - destruct Hrest as (HQ & Ha' & -> & ->). auto.
Qed.


Section Never.
Context {S : Type} (bad : effect -> bool).

Lemma never_ret {A} (a : A) : never (S:=S) bad (ret a).
Proof. intros st. constructor. Qed.

Lemma never_throw {A} message : never (S:=S) (A:=A) bad (throw message).
Proof. intros st. constructor. Qed.

Lemma never_gets {A} (f : S -> A) : never bad (gets f).
Proof. intros st. constructor. Qed.

Lemma never_modify (f : S -> S) : never bad (modify f).
Proof. intros st. constructor. Qed.

Lemma never_emit e : bad e = false -> never (S:=S) bad (emit e).
Proof. intros H st. repeat constructor. exact H. Qed.

Lemma never_bind {A B} (m : JS S A) (k : A -> JS S B) :
  never bad m -> (forall a, never bad (k a)) -> never bad (bind m k).
Proof.
  intros Hm Hk st. specialize (Hm st). unfold output, bind in *.
  destruct (m st) as [[[a|msg] st1] out1]; simpl in *; [|exact Hm].
  specialize (Hk a st1). unfold output in Hk.
  destruct (k a st1) as [[r st2] out2]. simpl in *.
  apply Forall_app. auto.
Qed.

Lemma never_try_catch {A} (body : JS S A) handler :
  never bad body -> (forall msg, never bad (handler msg)) ->
  never bad (try_catch body handler).
Proof.
  intros Hm Hk st. specialize (Hm st). unfold output, try_catch in *.
  destruct (body st) as [[[a|msg] st1] out1]; simpl in *; [exact Hm|].
  specialize (Hk msg st1). unfold output in Hk.
  destruct (handler msg st1) as [[r st2] out2]. simpl in *.
  apply Forall_app. auto.
Qed.

Lemma never_when b (m : JS S unit) : never bad m -> never bad (when b m).
Proof. intros H. destruct b; [exact H|apply never_ret]. Qed.

End Never.

Ltac never_step :=
  first
    [ apply never_ret | apply never_throw | apply never_gets | apply never_modify
    | apply never_emit; reflexivity
    | apply never_when
    | apply never_bind; [|intros ?]
    | apply never_try_catch; [|intros ?]
    | match goal with
      | |- never _ (if ?b then _ else _) => destruct b
      | |- never _ (match ?x with _ => _ end) => destruct x
      end ].

Ltac never_unfold :=
  unfold on_open, on_error, on_message, disconnectFromContainer,
    connectToContainerWebSocket, new_WebSocket, ws_close, ws_send, setTimeout,
    showConnectionError, showDockerNotInstalledError, console_log, console_warn,
    console_error, window_closed, before_quit, showContainerSelectionDialog,
    checkContainerConnection, containerIntegration.showContainerSelectionDialog,
    containerIntegration.connectToContainer, containerIntegration.startContainer,
    containerIntegration.listContainers, containerIntegration.getContainerIP,
    containerIntegration.checkPort, containerIntegration.saveConfig.

Ltac never_tac := repeat (first [never_step | progress never_unfold]).


(** ** The reconnection cycle *)

Lemma failed_attempts_snoc i n :
  failed_attempts i (S n) = failed_attempts i n ++ failed_attempt (i + n).
Proof.
  revert i. induction n as [|n IH]; intros i.
  - simpl. rewrite Nat.add_0_r. reflexivity.
  - change (failed_attempts i (S (S n)))
      with (failed_attempt i ++ failed_attempts (S i) (S n)).
    rewrite IH. change (failed_attempts i (S n))
      with (failed_attempt i ++ failed_attempts (S i) n).
    rewrite <- app_assoc. do 3 f_equal. lia.
Qed.

Lemma failed_attempts_run url n :
  forall st a,
    Reconnecting P st url a ->
    a + n <= MAX_RECONNECT_ATTEMPTS ->
    exists st' out,
      run P (failed_attempts (length (sockets st)) n) st = Some (st', out) /\
      Reconnecting P st' url (a + n) /\
      length (sockets st') = length (sockets st) + n /\
      gives_up out = false /\
      scheduled_delays out = repeat RECONNECT_INTERVAL n /\
      constructed out = repeat url n.
Proof.
  induction n as [|n IH]; intros st a HR Hle.
  - exists st, []. rewrite !Nat.add_0_r. simpl. repeat split; auto; apply HR.
  - destruct (failed_attempt_run _ _ _ HR) as (st1 & out1 & H1 & Hlen1 & Hc1 & Hrest).
    assert (Hlt : Nat.ltb a MAX_RECONNECT_ATTEMPTS = true) by (apply Nat.ltb_lt; lia).
    rewrite Hlt in Hrest. destruct Hrest as (HR1 & Hg1 & Hd1).
    destruct (IH st1 (S a) HR1) as (st2 & out2 & H2 & HR2 & Hlen2 & Hg2 & Hd2 & Hc2); [lia|].
    exists st2, (out1 ++ out2).
    change (failed_attempts (length (sockets st)) (S n))
      with (failed_attempt (length (sockets st))
              ++ failed_attempts (S (length (sockets st))) n).
    rewrite run_app, H1. rewrite <- Hlen1, H2.
    rewrite gives_up_app, scheduled_delays_app, constructed_app, Hg1, Hg2, Hd1, Hd2, Hc1, Hc2.
    replace (a + S n) with (S a + n) by lia.
    split; [reflexivity|]. split; [exact HR2|]. split; [lia|]. auto.
Qed.

Lemma outage_run st i url n :
  Connected P st i url ->
  n < MAX_RECONNECT_ATTEMPTS ->
  exists st' out,
    run P (outage i (length (sockets st)) n) st = Some (st', out) /\
    Reconnecting P st' url (S n) /\
    length (sockets st') = length (sockets st) + n /\
    gives_up out = false /\
    scheduled_delays out = repeat RECONNECT_INTERVAL (S n).
Proof.
  intros HC Hn.
  destruct (drop_from_connected _ _ _ HC) as (st1 & out1 & H1 & HR1 & Hlen1 & Hg1 & Hd1).
  destruct (failed_attempts_run url n st1 1 HR1) as (st2 & out2 & H2 & HR2 & Hlen2 & Hg2 & Hd2 & _);
    [lia|].
  exists st2, (out1 ++ out2). unfold outage.
  rewrite Hlen1 in H2. split; [eapply run_step; eauto|].
  rewrite gives_up_app, scheduled_delays_app, Hg1, Hg2, Hd1, Hd2.
  split; [exact HR2|]. split; [lia|]. auto.
Qed.

Lemma outage_exhausted st i url :
  Connected P st i url ->
  exists st' out,
    run P (outage i (length (sockets st)) MAX_RECONNECT_ATTEMPTS) st = Some (st', out) /\
    Quiescent st' /\
    reconnectAttempts st' = MAX_RECONNECT_ATTEMPTS /\
    gives_up out = true /\
    scheduled_delays out = repeat RECONNECT_INTERVAL MAX_RECONNECT_ATTEMPTS.
Proof.
  intros HC.
  destruct (outage_run st i url 4 HC) as (st1 & out1 & H1 & HR1 & Hlen1 & Hg1 & Hd1);
    [unfold MAX_RECONNECT_ATTEMPTS; lia|].
  destruct (failed_attempt_run _ _ _ HR1) as (st2 & out2 & H2 & Hlen2 & _ & Hrest).
  change (Nat.ltb 5 MAX_RECONNECT_ATTEMPTS) with false in Hrest.
  destruct Hrest as (HQ & Ha & Hg2 & Hd2).
  exists st2, (out1 ++ out2).
  unfold outage in *. change MAX_RECONNECT_ATTEMPTS with 5 at 1.
  rewrite failed_attempts_snoc, app_comm_cons, run_app, H1.
  rewrite Hlen1 in H2. rewrite H2.
  rewrite gives_up_app, scheduled_delays_app, Hg1, Hg2, Hd1, Hd2.
  split; [reflexivity|]. split; [exact HQ|]. split; [exact Ha|]. auto.
Qed.

Lemma quiescent_stuck st ev :
  Quiescent st -> automatic ev = true -> step P ev st = None.
Proof.
  intros [Hcl Ht] Ha. destruct ev; try discriminate Ha; cbn [step].
  - rewrite all_closed_readyState by exact Hcl. reflexivity.
  - rewrite all_closed_readyState by exact Hcl. reflexivity.
  - rewrite all_closed_readyState by exact Hcl. reflexivity.
  - destruct (sockets st !! i) as [s|] eqn:E; [|reflexivity].
    eapply Forall_lookup_1 in Hcl; eauto. simpl in Hcl. rewrite Hcl. reflexivity.
  - rewrite Ht. reflexivity.
Qed.

(** ** Which handler puts out what *)

Lemma never_existsb {S A} bad (m : JS S A) st :
  never bad m -> existsb bad (output m st) = false.
Proof.
  intros H. specialize (H st). induction H as [|e out He _ IH]; simpl; [reflexivity|].
  by rewrite He, IH.
Qed.

Lemma no_timeout_delays out :
  Forall (fun e => is_timeout e = false) out -> scheduled_delays out = [].
Proof.
  induction 1 as [|e out He _ IH]; [reflexivity|].
  destruct e; try discriminate He; exact IH.
Qed.

Lemma no_send_delivered out :
  Forall (fun e => is_send e = false) out -> delivered out = [].
Proof.
  induction 1 as [|e out He _ IH]; [reflexivity|].
  destruct e; try discriminate He; exact IH.
Qed.

Lemma on_close_never_sends url : never is_send (on_close url).
Proof. unfold on_close. never_tac. Qed.

Section Quiet.

(** The handlers below put out neither a frame, nor a timer, nor the line of
    the terminal state. *)
Variable bad : effect -> bool.
Hypothesis bad_kind : bad = is_send \/ bad = is_timeout \/ bad = is_give_up.

Ltac quiet := destruct bad_kind as [->|[->| ->]]; never_tac.

Lemma on_open_quiet : never bad on_open.
Proof. quiet. Qed.

Lemma on_message_quiet frame : never bad (on_message P frame).
Proof. quiet. Qed.

Lemma on_error_quiet message : never bad (on_error message).
Proof. quiet. Qed.

Lemma connect_quiet url : never bad (connectToContainerWebSocket P url).
Proof. quiet. Qed.

Lemma select_quiet w : never bad (showContainerSelectionDialog P w).
Proof. quiet. Qed.

Lemma check_quiet w : never bad (checkContainerConnection P w).
Proof. quiet. Qed.

Lemma window_closed_quiet : never bad window_closed.
Proof. quiet. Qed.

Lemma before_quit_quiet : never bad before_quit.
Proof. quiet. Qed.

End Quiet.

Lemma to_backend_never_schedules data : never is_timeout (to_backend P data).
Proof. unfold to_backend. never_tac. Qed.

Lemma to_backend_never_gives_up data : never is_give_up (to_backend P data).
Proof. unfold to_backend. never_tac. Qed.

Ltac step_cases H :=
  cbn [step] in H;
  repeat match type of H with
         | context [match ?x with _ => _ end] => destruct x eqn:?
         end;
  try discriminate H;
  injection H as <- <-.

Lemma step_gives_up ev st st' out :
  step P ev st = Some (st', out) ->
  gives_up out = true ->
  (exists i, ev = SocketClose i) /\ MAX_RECONNECT_ATTEMPTS <= reconnectAttempts st.
Proof.
  intros H Hg. unfold gives_up in Hg.
  destruct ev; step_cases H;
    try (rewrite never_existsb in Hg;
         [discriminate Hg
         | first [ apply on_open_quiet | apply on_message_quiet | apply on_error_quiet
                 | apply connect_quiet | apply select_quiet | apply check_quiet
                 | apply window_closed_quiet | apply before_quit_quiet
                 | apply to_backend_never_gives_up ]; auto ]).
  split; [eauto|].
  change (output (on_close (ws_url w)) (set_readyState i CLOSED st))
    with (snd (handle (on_close (ws_url w)) (set_readyState i CLOSED st))) in Hg.
  rewrite on_close_handle in Hg.
  assert (Hr : reconnectAttempts (set_readyState i CLOSED st) = reconnectAttempts st).
  { unfold set_readyState. destruct (sockets st !! i); reflexivity. }
  rewrite Hr in Hg.
  destruct (Nat.ltb (reconnectAttempts st) MAX_RECONNECT_ATTEMPTS) eqn:E.
  - exfalso. cbn [snd] in Hg. unfold status_out in Hg.
    destruct (mainWindow _); simpl in Hg; discriminate Hg.
  - apply Nat.ltb_ge in E. exact E.
Qed.

Lemma step_delays ev st st' out :
  step P ev st = Some (st', out) ->
  Forall (fun d => d = RECONNECT_INTERVAL) (scheduled_delays out).
Proof.
  intros H.
  destruct ev; step_cases H;
    try (rewrite no_timeout_delays;
         [constructor
         | first [ apply on_open_quiet | apply on_message_quiet | apply on_error_quiet
                 | apply connect_quiet | apply select_quiet | apply check_quiet
                 | apply window_closed_quiet | apply before_quit_quiet
                 | apply to_backend_never_schedules ]; auto ]).
  change (output (on_close (ws_url w)) (set_readyState i CLOSED st))
    with (snd (handle (on_close (ws_url w)) (set_readyState i CLOSED st))).
  rewrite on_close_handle.
  destruct (Nat.ltb _ MAX_RECONNECT_ATTEMPTS); cbn [snd]; unfold status_out;
    destruct (mainWindow _); simpl; repeat constructor.
Qed.

Lemma run_delays evs :
  forall st st' out,
    run P evs st = Some (st', out) ->
    Forall (fun d => d = RECONNECT_INTERVAL) (scheduled_delays out).
Proof.
  induction evs as [|ev evs IH]; intros st st' out H; cbn [run] in H.
  - injection H as <- <-. constructor.
  - destruct (step P ev st) as [[st1 out1]|] eqn:E1; [|discriminate H].
    destruct (run P evs st1) as [[st2 out2]|] eqn:E2; [|discriminate H].
    injection H as <- <-. rewrite scheduled_delays_app. apply Forall_app. split.
    + eapply step_delays; eauto.
    + eapply IH; eauto.
Qed.

(** ** Which handler changes what *)

Section Preserves.
Context {S B : Type} (f : S -> B).

Lemma preserves_ret {A} (a : A) : preserves f (ret a).
Proof. intros st. reflexivity. Qed.

Lemma preserves_throw {A} message : preserves (A:=A) f (throw message).
Proof. intros st. reflexivity. Qed.

Lemma preserves_gets {A} (g : S -> A) : preserves f (gets g).
Proof. intros st. reflexivity. Qed.

Lemma preserves_emit e : preserves f (emit e).
Proof. intros st. reflexivity. Qed.

Lemma preserves_modify (g : S -> S) : (forall st, f (g st) = f st) -> preserves f (modify g).
Proof. intros H st. apply H. Qed.

Lemma preserves_bind {A C} (m : JS S A) (k : A -> JS S C) :
  preserves f m -> (forall a, preserves f (k a)) -> preserves f (bind m k).
Proof.
  intros Hm Hk st. specialize (Hm st). unfold exec, bind in *.
  destruct (m st) as [[[a|msg] st1] out1]; simpl in *; [|exact Hm].
  specialize (Hk a st1). unfold exec in Hk.
  destruct (k a st1) as [[r st2] out2]. simpl in *. congruence.
Qed.

Lemma preserves_try_catch {A} (body : JS S A) handler :
  preserves f body -> (forall msg, preserves f (handler msg)) ->
  preserves f (try_catch body handler).
Proof.
  intros Hm Hk st. specialize (Hm st). unfold exec, try_catch in *.
  destruct (body st) as [[[a|msg] st1] out1]; simpl in *; [exact Hm|].
  specialize (Hk msg st1). unfold exec in Hk.
  destruct (handler msg st1) as [[r st2] out2]. simpl in *. congruence.
Qed.

Lemma preserves_when b (m : JS S unit) : preserves f m -> preserves f (when b m).
Proof. intros H. destruct b; [exact H|apply preserves_ret]. Qed.

End Preserves.

Lemma set_readyState_attempts i r st :
  reconnectAttempts (set_readyState i r st) = reconnectAttempts st.
Proof. unfold set_readyState. destruct (sockets st !! i); reflexivity. Qed.

Lemma set_readyState_timers i r st : timers (set_readyState i r st) = timers st.
Proof. unfold set_readyState. destruct (sockets st !! i); reflexivity. Qed.

Ltac preserves_step :=
  first
    [ apply preserves_ret | apply preserves_throw | apply preserves_gets
    | apply preserves_emit
    | apply preserves_modify; intros ?;
      first [ reflexivity | apply set_readyState_attempts | apply set_readyState_timers ]
    | apply preserves_when
    | apply preserves_bind; [|intros ?]
    | apply preserves_try_catch; [|intros ?]
    | match goal with
      | |- preserves _ (if ?b then _ else _) => destruct b
      | |- preserves _ (match ?x with _ => _ end) => destruct x
      end ].

Ltac preserves_tac :=
  repeat (first [preserves_step | progress never_unfold | progress unfold to_backend]).

Lemma on_message_keeps_attempts frame : preserves reconnectAttempts (on_message P frame).
Proof. preserves_tac. Qed.

Lemma on_error_keeps_attempts message : preserves reconnectAttempts (on_error message).
Proof. preserves_tac. Qed.

Lemma connect_keeps_attempts url :
  preserves reconnectAttempts (connectToContainerWebSocket P url).
Proof. preserves_tac. Qed.

Lemma to_backend_keeps_attempts data : preserves reconnectAttempts (to_backend P data).
Proof. preserves_tac. Qed.

Lemma select_keeps_attempts w :
  preserves reconnectAttempts (showContainerSelectionDialog P w).
Proof. preserves_tac. Qed.

Lemma check_keeps_attempts w :
  preserves reconnectAttempts (checkContainerConnection P w).
Proof. preserves_tac. Qed.

Lemma window_closed_keeps_attempts : preserves reconnectAttempts window_closed.
Proof. preserves_tac. Qed.

Lemma before_quit_keeps_attempts : preserves reconnectAttempts before_quit.
Proof. preserves_tac. Qed.

(** The counter moves at two places only: an [open] resets it, a [close]
    below the maximum counts one more. *)
Lemma step_attempts ev st st' out :
  step P ev st = Some (st', out) ->
  reconnectAttempts st' =
  match ev with
  | SocketOpen _ => 0
  | SocketClose _ =>
      if Nat.ltb (reconnectAttempts st) MAX_RECONNECT_ATTEMPTS
      then S (reconnectAttempts st) else reconnectAttempts st
  | _ => reconnectAttempts st
  end.
Proof.
  intros H. destruct ev; step_cases H.
  - change (exec on_open (set_readyState i OPEN st))
      with (fst (handle on_open (set_readyState i OPEN st))).
    rewrite on_open_handle. reflexivity.
  - apply on_message_keeps_attempts.
  - apply on_error_keeps_attempts.
  - change (exec (on_close (ws_url w)) (set_readyState i CLOSED st))
      with (fst (handle (on_close (ws_url w)) (set_readyState i CLOSED st))).
    rewrite on_close_handle, set_readyState_attempts.
    destruct (Nat.ltb _ _);
      cbn [fst reconnectAttempts set_isConnected set_reconnectAttempts set_timers];
      rewrite ?set_readyState_attempts; reflexivity.
  - rewrite connect_keeps_attempts. reflexivity.
  - apply to_backend_keeps_attempts.
  - apply select_keeps_attempts.
  - apply check_keeps_attempts.
  - apply window_closed_keeps_attempts.
  - apply before_quit_keeps_attempts.
Qed.


(** ** The retry budget *)

(** C2, amended.  From a connected session whose every reconnection attempt
    fails, the close handler gives up when the fifth attempt fails
    ([MAX_RECONNECT_ATTEMPTS] is 5; counting the drop itself this is the
    sixth [close] event).  After fewer failures a timer for the next attempt
    is pending and nothing has been given up.  Once it has given up, no timer
    is pending and no socket is live, so none of the process's own events can
    occur: only the user can start a connection again.  The terminal branch is
    taken by a [close] event that finds the counter at the maximum and by
    nothing else, and the counter moves only by an [open] (to 0) and by a
    [close] that registers a timer (by one). *)
Theorem retry_budget_is_five_attempts st i url :
  Connected P st i url ->
  (forall n, n < MAX_RECONNECT_ATTEMPTS ->
     exists st' out,
       run P (outage i (length (sockets st)) n) st = Some (st', out) /\
       gives_up out = false /\
       Reconnecting P st' url (S n)) /\
  (exists st' out,
     run P (outage i (length (sockets st)) MAX_RECONNECT_ATTEMPTS) st = Some (st', out) /\
     gives_up out = true /\
     Quiescent st' /\
     length (scheduled_delays out) = MAX_RECONNECT_ATTEMPTS /\
     forall ev, automatic ev = true -> step P ev st' = None) /\
  (forall ev st1 st2 out,
     step P ev st1 = Some (st2, out) ->
     (gives_up out = true ->
      (exists j, ev = SocketClose j) /\
      MAX_RECONNECT_ATTEMPTS <= reconnectAttempts st1) /\
     reconnectAttempts st2 =
       match ev with
       | SocketOpen _ => 0
       | SocketClose _ =>
           if Nat.ltb (reconnectAttempts st1) MAX_RECONNECT_ATTEMPTS
           then S (reconnectAttempts st1) else reconnectAttempts st1
       | _ => reconnectAttempts st1
       end).
Proof.
  intros HC. split; [|split].
  - intros n Hn.
    destruct (outage_run st i url n HC Hn) as (st' & out & H & HR & _ & Hg & _).
    exists st', out. auto.
  - destruct (outage_exhausted st i url HC) as (st' & out & H & HQ & _ & Hg & Hd).
    exists st', out. split; [exact H|]. split; [exact Hg|]. split; [exact HQ|].
    split; [by rewrite Hd, repeat_length|].
    intros ev Hev. by apply quiescent_stuck.
  - intros ev st1 st2 out H. split.
    + intros Hg. eapply step_gives_up; eauto.
    + eapply step_attempts; eauto.
Qed.

(** C3, amended.  Every reconnection timer the main process registers, in any
    sequence of events, has the one delay [RECONNECT_INTERVAL] of 2000 ms: the
    delay before a later attempt equals the delay before the earlier one.
    There is no growth and no ceiling.  The web client likewise registers
    each of its reconnection timers with the one delay of 5000 ms. *)
Theorem reconnect_delay_is_constant evs st st' out :
  run P evs st = Some (st', out) ->
  RECONNECT_INTERVAL = 2000%N /\
  Forall (fun d => d = RECONNECT_INTERVAL) (scheduled_delays out) /\
  (forall k a b,
     scheduled_delays out !! k = Some a ->
     scheduled_delays out !! (S k) = Some b ->
     b = a) /\
  (forall websocketUrl wst,
     scheduled_delays (output (Web.onclose websocketUrl) wst) = [5000%N]).
Proof.
  intros H. pose proof (run_delays _ _ _ _ H) as HF.
  split; [reflexivity|]. split; [exact HF|]. split.
  - intros k a b Ha Hb.
    eapply Forall_lookup_1 in Ha; [|exact HF].
    eapply Forall_lookup_1 in Hb; [|exact HF].
    simpl in *. congruence.
  - intros websocketUrl wst.
    unfold Web.onclose, Web.updateConnectionStatus, Web.addMessage. js_unfold. simpl.
    destruct (Web.socketConnected wst); reflexivity.
Qed.


(** ** Closing from this side *)

(** C4, amended.  [disconnectFromContainer] is idempotent: from every store
    it leaves [wsClient] empty and [isConnected] false, a second call changes
    nothing and puts out nothing, and neither call sends a status message to
    the renderer.  It does not cancel reconnection timers: the pending timers
    are the same after it as before, and each of them still comes due and
    constructs a socket for its address. *)
Theorem disconnect_is_idempotent_and_keeps_timers st :
  let st1 := exec disconnectFromContainer st in
  Disconnected st1 /\
  exec disconnectFromContainer st1 = st1 /\
  output disconnectFromContainer st1 = [] /\
  status_events (output disconnectFromContainer st) = [] /\
  timers st1 = timers st /\
  forall k t,
    timers st !! k = Some t ->
    ws_accepts P (timer_url t) = true ->
    exists st2 out,
      step P (TimerFires k) st1 = Some (st2, out) /\
      constructed out = [timer_url t].
Proof.
  intros st1.
  assert (H1 : handle disconnectFromContainer st = (st1, output disconnectFromContainer st))
    by reflexivity.
  rewrite disconnect_handle in H1.
  assert (Hd : Disconnected st1 /\ timers st1 = timers st /\
               status_events (output disconnectFromContainer st) = []).
  { destruct (open_client st) as [i|]; injection H1 as <- <-.
    - repeat split. simpl. apply set_readyState_timers.
    - repeat split. }
  destruct Hd as (HD & Ht & Hs).
  assert (Ho : open_client st1 = None).
  { unfold open_client. destruct HD as [-> _]. reflexivity. }
  assert (H2 : handle disconnectFromContainer st1 = (st1, [])).
  { rewrite disconnect_handle, Ho. destruct HD as [Hc Hi].
    f_equal. destruct st1; simpl in *. subst. reflexivity. }
  split; [exact HD|].
  split; [exact (f_equal fst H2)|].
  split; [exact (f_equal snd H2)|].
  split; [exact Hs|]. split; [exact Ht|].
  intros k t Hk Hu. cbn [step]. rewrite Ht, Hk.
  eexists _, _. split; [reflexivity|].
  match goal with
  | |- constructed (output ?m ?s) = _ => change (output m s) with (snd (handle m s))
  end.
  rewrite connect_handle by exact Hu. rewrite disconnect_handle.
  assert (Ho' : open_client (set_timers (delete k (timers st)) st1) = None).
  { unfold open_client. simpl. destruct HD as [-> _]. reflexivity. }
  rewrite Ho'. reflexivity.
Qed.

(** ** Frames in and out *)

Lemma to_backend_handle data st :
  handle (to_backend P data) st =
  match open_client st with
  | Some i =>
      (st, [Console LOG "Sending to backend:" [ArgJson data];
            WsSend i (JSON_stringify P data)])
  | None =>
      (st, [Console LOG "Sending to backend:" [ArgJson data];
            Console WARN "Cannot send message: WebSocket not connected" []]
           ++ (if Nat.eqb (reconnectAttempts st) 0
               then [ShowErrorBox "Connection Error" default_connection_error]
               else []))
  end.
Proof.
  unfold to_backend. js_unfold. simpl.
  destruct (open_client st); [reflexivity|].
  destruct (Nat.eqb (reconnectAttempts st) 0); reflexivity.
Qed.

Lemma step_delivered ev st st' out :
  step P ev st = Some (st', out) ->
  delivered out =
  match ev with
  | ToBackend data =>
      match open_client st with
      | Some _ => [JSON_stringify P data]
      | None => []
      end
  | _ => []
  end.
Proof.
  intros H.
  destruct ev; step_cases H;
    try (apply no_send_delivered;
         first [ apply on_open_quiet | apply on_message_quiet | apply on_error_quiet
               | apply connect_quiet | apply select_quiet | apply check_quiet
               | apply window_closed_quiet | apply before_quit_quiet
               | apply on_close_never_sends ]; auto).
  change (output (to_backend P data) st) with (snd (handle (to_backend P data) st)).
  rewrite to_backend_handle.
  destruct (open_client st); [reflexivity|].
  destruct (Nat.eqb (reconnectAttempts st) 0); reflexivity.
Qed.

Lemma on_message_malformed frame st :
  JSON_parse P frame = None ->
  on_message P frame st =
  (Return tt, st, [Console ERROR "Error parsing message:" [ArgError "SyntaxError"]]).
Proof. intros H. unfold on_message. js_unfold. rewrite H. reflexivity. Qed.

(** C1, amended.  A message sent while no open socket is held is not
    buffered.  The [to-backend] handler leaves the store as it is, hands no
    frame to any transport, logs and warns (and shows the connection error
    when the attempt counter is 0); the rest of the run goes on exactly as if
    the message had never been sent.  In every turn of the event loop the only
    frame handed to a transport is that of a [to-backend] message arriving in
    that turn while an open socket is held; an [open] event hands over none.
    The web client does the same: with neither transport connected,
    [sendMessage] shows the typed text and the line that it is not connected,
    sends nothing and keeps nothing, and [onopen] sends nothing. *)
Theorem send_while_not_open_is_dropped st data :
  open_client st = None ->
  exec (to_backend P data) st = st /\
  output (to_backend P data) st =
    [Console LOG "Sending to backend:" [ArgJson data];
     Console WARN "Cannot send message: WebSocket not connected" []]
    ++ (if Nat.eqb (reconnectAttempts st) 0
        then [ShowErrorBox "Connection Error" default_connection_error]
        else []) /\
  delivered (output (to_backend P data) st) = [] /\
  (forall evs,
     run P (ToBackend data :: evs) st =
     match run P evs st with
     | Some (st', out) => Some (st', output (to_backend P data) st ++ out)
     | None => None
     end) /\
  (forall ev st1 st2 out,
     step P ev st1 = Some (st2, out) ->
     delivered out =
     match ev with
     | ToBackend d =>
         match open_client st1 with
         | Some _ => [JSON_stringify P d]
         | None => []
         end
     | _ => []
     end) /\
  (forall String_trim now wst,
     Web.socketConnected wst = false ->
     Web.websocketConnected wst = false ->
     String_trim (Web.messageInput wst) <> "" ->
     let wst' := exec (Web.sendMessage P String_trim now) wst in
     output (Web.sendMessage P String_trim now) wst = [] /\
     Web.messages wst' =
       Web.messages wst ++
       [Web.mkElement "message user-message" (String_trim (Web.messageInput wst));
        Web.mkElement "message system-message"
                      "Not connected to server. Please try again later."] /\
     Web.messageInput wst' = "" /\
     Web.sockets wst' = Web.sockets wst /\
     Web.ws wst' = Web.ws wst /\
     Web.timers wst' = Web.timers wst) /\
  (forall wst,
     output Web.onopen wst = [Console LOG "Connected to WebSocket server" []]).
Proof.
  intros Ho.
  pose proof (to_backend_handle data st) as Hh. rewrite Ho in Hh.
  assert (He : exec (to_backend P data) st = st) by exact (f_equal fst Hh).
  assert (Hout := f_equal snd Hh). cbn [snd] in Hout.
  change (snd (handle (to_backend P data) st)) with (output (to_backend P data) st) in Hout.
  split; [exact He|]. split; [exact Hout|]. split.
  { rewrite Hout. destruct (Nat.eqb _ 0); reflexivity. }
  split.
  { intros evs. cbn [run step]. unfold handle. rewrite He.
    destruct (run P evs st) as [[st' out]|]; reflexivity. }
  split; [exact step_delivered|]. split.
  - intros String_trim now wst Ha Hb Hc wst'. subst wst'.
    apply String.eqb_neq in Hc.
    unfold Web.sendMessage, Web.addMessage. js_unfold. simpl.
    rewrite Hc, Ha, Hb. simpl. rewrite <- app_assoc. repeat split.
  - intros wst. unfold Web.onopen, Web.updateConnectionStatus, Web.addMessage.
    js_unfold. simpl. rewrite orb_true_r. reflexivity.
Qed.

(** C6.  A frame that [JSON.parse] rejects is logged and dropped, and nothing
    else happens: the [message] handler completes normally, leaves the store
    (the socket and the reference to it included) as it is, puts out the one
    error line and nothing to the renderer; the turn is taken and the run
    goes on from the same store, so later frames are handled as they would
    have been.  The web client's [onmessage] does the same. *)
Theorem malformed_frame_is_dropped frame :
  JSON_parse P frame = None ->
  (forall st,
     outcome (on_message P frame) st = Return tt /\
     exec (on_message P frame) st = st /\
     output (on_message P frame) st =
       [Console ERROR "Error parsing message:" [ArgError "SyntaxError"]]) /\
  (forall st i evs,
     readyState_of i st = OPEN ->
     run P (SocketMessage i frame :: evs) st =
     match run P evs st with
     | Some (st', out) =>
         Some (st', Console ERROR "Error parsing message:" [ArgError "SyntaxError"] :: out)
     | None => None
     end) /\
  (forall handleMessage wst,
     outcome (Web.onmessage P handleMessage frame) wst = Return tt /\
     exec (Web.onmessage P handleMessage frame) wst = wst /\
     output (Web.onmessage P handleMessage frame) wst =
       [Console LOG "Received message from WebSocket:" [ArgMessage frame];
        Console ERROR "Error parsing WebSocket message:" [ArgError "SyntaxError"]]).
Proof.
  intros H. split; [|split].
  - intros st. unfold outcome, exec, output. rewrite on_message_malformed by exact H.
    repeat split.
  - intros st i evs Hi. cbn [run step]. rewrite Hi.
    rewrite bool_decide_eq_true_2 by reflexivity.
    unfold handle, exec, output. rewrite on_message_malformed by exact H. cbn [fst snd].
    destruct (run P evs st) as [[st' out]|]; reflexivity.
  - intros handleMessage wst. unfold outcome, exec, output, Web.onmessage.
    js_unfold. rewrite H. repeat split.
Qed.

(** ** Discovery *)

Lemma bind_run {S A B} (m : JS S A) (k : A -> JS S B) st a st1 out1 :
  m st = (Return a, st1, out1) ->
  bind m k st = (let '(r, st2, out2) := k a st1 in (r, st2, out1 ++ out2)).
Proof. intros H. unfold bind. rewrite H. reflexivity. Qed.

Lemma bind_throw {S A B} (m : JS S A) (k : A -> JS S B) st message st1 out1 :
  m st = (Throw message, st1, out1) ->
  bind m k st = (Throw message, st1, out1).
Proof. intros H. unfold bind. rewrite H. reflexivity. Qed.

Lemma port_open_accepts w host port :
  port_open w host port = true <-> port_accepts w host port.
Proof.
  unfold port_open, port_accepts. rewrite andb_true_iff, N.leb_le. split.
  - intros [Hp Ht]. split; [exact Hp|].
    destruct (tcp_connect w host port) as [ms|ms|]; try discriminate Ht.
    exists ms. split; [reflexivity|]. by apply N.ltb_lt.
  - intros [Hp (ms & -> & Hms)]. split; [exact Hp|]. by apply N.ltb_lt.
Qed.

(** The probe resolves to [true] exactly when the port is open; otherwise it
    resolves to [false] or rejects.  It changes nothing. *)
Lemma checkPort_run w host port st :
  exists r,
    containerIntegration.checkPort w host port st = (r, st, [TcpProbe host port]) /\
    (r = Return true <-> port_open w host port = true).
Proof.
  unfold containerIntegration.checkPort, port_open. js_unfold. simpl.
  rewrite N.ltb_antisym. destruct (port <=? 65535)%N; simpl.
  - destruct (tcp_connect w host port) as [ms|ms|]; simpl.
    + eexists. split; [reflexivity|].
      destruct (ms <? containerIntegration.PROBE_TIMEOUT)%N; split; congruence.
    + eexists. split; [reflexivity|]. split; congruence.
    + eexists. split; [reflexivity|]. split; congruence.
  - eexists. split; [reflexivity|]. split; congruence.
Qed.

Lemma healthy_inv w cfg containerId :
  healthy w cfg containerId = true ->
  exists ip,
    docker_inspect w containerId = Some ip /\ String.eqb ip "" = false /\
    port_open w ip (containerPort cfg) = true /\
    port_open w ip (websocketPort cfg) = true.
Proof.
  unfold healthy. destruct (docker_inspect w containerId) as [ip|]; [|discriminate].
  rewrite !andb_true_iff, negb_true_iff. intros [[H1 H2] H3]. eauto.
Qed.

Lemma connect_healthy w containerId st :
  healthy w (containerConfig st) containerId = true ->
  exists ip,
    docker_inspect w containerId = Some ip /\ ip <> "" /\
    let cfg' := selected ip containerId (containerConfig st) in
    let st1 := set_containerConfig cfg' st in
    containerIntegration.connectToContainer w containerId st =
      (Return (resolved ip (containerConfig st)),
       exec (containerIntegration.saveConfig w cfg') st1,
       [TcpProbe ip (containerPort (containerConfig st));
        TcpProbe ip (websocketPort (containerConfig st))]
       ++ output (containerIntegration.saveConfig w cfg') st1).
Proof.
  intros H. destruct (healthy_inv _ _ _ H) as (ip & Hi & Hne & Hp1 & Hp2).
  exists ip. split; [exact Hi|]. split; [by apply String.eqb_neq|].
  intros cfg' st1.
  destruct (checkPort_run w ip (containerPort (containerConfig st)) st) as (r1 & E1 & R1).
  destruct (checkPort_run w ip (websocketPort (containerConfig st)) st) as (r2 & E2 & R2).
  apply R1 in Hp1. apply R2 in Hp2. subst r1 r2.
  unfold containerIntegration.connectToContainer, containerIntegration.getContainerIP.
  rewrite Hi.
  unfold bind at 1. unfold ret at 1. cbn [truthy]. rewrite Hne. cbn [negb default].
  unfold bind at 1. unfold gets at 1.
  rewrite (bind_run _ _ _ _ _ _ E1). cbn [negb].
  rewrite (bind_run _ _ _ _ _ _ E2). cbn [negb].
  unfold containerIntegration.saveConfig. subst cfg' st1. unfold selected, resolved.
  destruct (fs_writable w); js_unfold; reflexivity.
Qed.

Lemma connect_unhealthy w containerId st :
  healthy w (containerConfig st) containerId = false ->
  exists message out,
    containerIntegration.connectToContainer w containerId st = (Throw message, st, out) /\
    save_calls out = [] /\ hand_overs out = [] /\ prompts out = [] /\ constructed out = [].
Proof.
  unfold healthy. intros H.
  unfold containerIntegration.connectToContainer, containerIntegration.getContainerIP.
  destruct (docker_inspect w containerId) as [ip|].
  - unfold bind at 1. unfold ret at 1. cbn [truthy].
    destruct (String.eqb ip "") eqn:Hne; cbn [negb default].
    + eexists _, _. split; [reflexivity|]. repeat split.
    + unfold bind at 1. unfold gets at 1.
      destruct (checkPort_run w ip (containerPort (containerConfig st)) st) as (r1 & E1 & R1).
      destruct (checkPort_run w ip (websocketPort (containerConfig st)) st) as (r2 & E2 & R2).
      destruct r1 as [[|]|m1].
      * rewrite (bind_run _ _ _ _ _ _ E1). cbn [negb].
        assert (Hp1 : port_open w ip (containerPort (containerConfig st)) = true)
          by (apply R1; reflexivity).
        rewrite Hp1 in H. simpl in H.
        destruct r2 as [[|]|m2].
        -- assert (port_open w ip (websocketPort (containerConfig st)) = true)
             by (apply R2; reflexivity). congruence.
        -- rewrite (bind_run _ _ _ _ _ _ E2). cbn [negb].
           eexists _, _. split; [reflexivity|]. repeat split.
        -- rewrite (bind_throw _ _ _ _ _ _ E2).
           eexists _, _. split; [reflexivity|]. repeat split.
      * rewrite (bind_run _ _ _ _ _ _ E1). cbn [negb].
        eexists _, _. split; [reflexivity|]. repeat split.
      * rewrite (bind_throw _ _ _ _ _ _ E1).
        eexists _, _. split; [reflexivity|]. repeat split.
  - js_unfold. simpl. eexists _, _. split; [reflexivity|]. repeat split.
Qed.

Lemma healthy_accepts w cfg containerId :
  healthy w cfg containerId = true <->
  exists ip,
    docker_inspect w containerId = Some ip /\ ip <> "" /\
    port_accepts w ip (containerPort cfg) /\
    port_accepts w ip (websocketPort cfg).
Proof.
  split.
  - intros H. destruct (healthy_inv _ _ _ H) as (ip & Hi & Hne & Hp1 & Hp2).
    exists ip. rewrite <- !port_open_accepts. apply String.eqb_neq in Hne. auto.
  - intros (ip & Hi & Hne & Hp1 & Hp2). unfold healthy. rewrite Hi.
    apply port_open_accepts in Hp1, Hp2. apply String.eqb_neq in Hne.
    by rewrite Hne, Hp1, Hp2.
Qed.

(** C7.  [connectToContainer] resolves to an address exactly when Docker
    reports an address for the container and both required ports, the web
    server port and the WebSocket port, accept a TCP connect before the probe's
    timer of 1000 ms comes due.  The address it resolves to names that host
    with the two ports.  In every other case (no address, or a port that does
    not answer in time) it throws, and no address is produced. *)
Theorem connect_resolves_iff_both_ports_accept w containerId st :
  let cfg := containerConfig st in
  let reachable :=
    exists ip,
      docker_inspect w containerId = Some ip /\ ip <> "" /\
      port_accepts w ip (containerPort cfg) /\
      port_accepts w ip (websocketPort cfg) in
  containerIntegration.PROBE_TIMEOUT = 1000%N /\
  ((exists info,
      outcome (containerIntegration.connectToContainer w containerId) st = Return info)
   <-> reachable) /\
  ((exists message,
      outcome (containerIntegration.connectToContainer w containerId) st = Throw message)
   <-> ~ reachable) /\
  (forall info,
     outcome (containerIntegration.connectToContainer w containerId) st = Return info ->
     exists ip,
       docker_inspect w containerId = Some ip /\
       info = {| webUrl := "http://" +:+ ip +:+ ":" +:+ pretty (containerPort cfg);
                 websocketUrl := "ws://" +:+ ip +:+ ":" +:+ pretty (websocketPort cfg) |}).
Proof.
  intros cfg reachable. subst reachable. rewrite <- healthy_accepts. subst cfg.
  split; [reflexivity|].
  destruct (healthy w (containerConfig st) containerId) eqn:H.
  - destruct (connect_healthy _ _ _ H) as (ip & Hi & Hne & E). cbn zeta in E.
    unfold outcome. rewrite E. cbn [fst].
    split; [split; eauto|]. split.
    + split; [intros [m Hm]; discriminate Hm|intros Hn; by destruct Hn].
    + intros info Hinfo. injection Hinfo as <-. eauto.
  - destruct (connect_unhealthy _ _ _ H) as (m & out & E & _).
    unfold outcome. rewrite E. cbn [fst].
    split; [split; [intros [info Hi]; discriminate Hi|discriminate]|]. split.
    + split; [discriminate|eauto].
    + intros info Hinfo. discriminate Hinfo.
Qed.

Lemma save_calls_nil_writes out : save_calls out = [] -> writes out = [].
Proof.
  induction out as [|e out IH]; [reflexivity|].
  unfold save_calls. cbn [List.filter].
  destruct (is_save e) eqn:He; [discriminate|].
  intros Hs. destruct e; try discriminate He; apply IH; exact Hs.
Qed.

(** C10.  When [connectToContainer] fails, whatever the reason, it leaves the
    store as it found it: neither the configuration object nor the
    configuration file has changed, and [saveConfig] has not been called.
    When it succeeds, the one call of [saveConfig] comes after the two probes,
    both of which found their port open. *)
Theorem failed_connect_leaves_config_unchanged w containerId st message :
  outcome (containerIntegration.connectToContainer w containerId) st = Throw message ->
  let st' := exec (containerIntegration.connectToContainer w containerId) st in
  let out := output (containerIntegration.connectToContainer w containerId) st in
  st' = st /\
  containerConfig st' = containerConfig st /\
  configFile st' = configFile st /\
  save_calls out = [] /\
  writes out = [] /\
  forall st0 info,
    outcome (containerIntegration.connectToContainer w containerId) st0 = Return info ->
    exists ip save,
      output (containerIntegration.connectToContainer w containerId) st0 =
        [TcpProbe ip (containerPort (containerConfig st0));
         TcpProbe ip (websocketPort (containerConfig st0))] ++ [save] /\
      is_save save = true /\
      port_open w ip (containerPort (containerConfig st0)) = true /\
      port_open w ip (websocketPort (containerConfig st0)) = true.
Proof.
  intros Hthrow st' out. subst st' out.
  assert (Hfail : exists m out,
             containerIntegration.connectToContainer w containerId st = (Throw m, st, out) /\
             save_calls out = []).
  { destruct (healthy w (containerConfig st) containerId) eqn:H.
    - destruct (connect_healthy _ _ _ H) as (ip & _ & _ & E). cbn zeta in E.
      unfold outcome in Hthrow. rewrite E in Hthrow. discriminate Hthrow.
    - destruct (connect_unhealthy _ _ _ H) as (m & out & E & Hs & _). eauto. }
  destruct Hfail as (m & out & E & Hs).
  unfold exec, output. rewrite E. cbn [fst snd].
  split; [reflexivity|]. split; [reflexivity|]. split; [reflexivity|].
  split; [exact Hs|]. split.
  { by apply save_calls_nil_writes. }
  intros st0 info Hinfo.
  destruct (healthy w (containerConfig st0) containerId) eqn:H.
  - destruct (healthy_inv _ _ _ H) as (ip0 & Hi0 & _ & Hp1 & Hp2).
    destruct (connect_healthy _ _ _ H) as (ip & Hi & _ & E0). cbn zeta in E0.
    assert (ip0 = ip) by congruence. subst ip0.
    unfold output. rewrite E0. cbn [snd].
    unfold containerIntegration.saveConfig.
    destruct (fs_writable w); js_unfold; simpl; eexists ip, _;
      (split; [reflexivity|]); auto.
  - destruct (connect_unhealthy _ _ _ H) as (m0 & out0 & E0 & _).
    unfold outcome in Hinfo. rewrite E0 in Hinfo. discriminate Hinfo.
Qed.

Lemma prompts_app out1 out2 : prompts (out1 ++ out2) = prompts out1 ++ prompts out2.
Proof. apply omap_app. Qed.

Lemma hand_overs_app out1 out2 :
  hand_overs (out1 ++ out2) = hand_overs out1 ++ hand_overs out2.
Proof. apply List.filter_app. Qed.

Lemma save_calls_app out1 out2 :
  save_calls (out1 ++ out2) = save_calls out1 ++ save_calls out2.
Proof. apply List.filter_app. Qed.

Lemma listContainers_run w st :
  exists out,
    containerIntegration.listContainers w st = (Return (running w), st, out) /\
    prompts out = [] /\ hand_overs out = [] /\ save_calls out = [].
Proof.
  unfold containerIntegration.listContainers, running.
  destruct (docker_ps w); js_unfold; simpl; eexists; split; try reflexivity; auto.
Qed.

(** The dialog of the integration module opens one message box, changes
    nothing and does not throw. *)
Lemma dialog_run w st :
  exists r out,
    containerIntegration.showContainerSelectionDialog w st = (Return r, st, out) /\
    prompts out = box_title (selection_box w) /\
    hand_overs out = [] /\ save_calls out = [] /\
    In (selection_box w) out.
Proof.
  destruct (listContainers_run w st) as (out0 & E0 & Hp0 & Hh0 & Hs0).
  unfold containerIntegration.showContainerSelectionDialog.
  rewrite (bind_run _ _ _ _ _ _ E0). unfold selection_box.
  destruct (Nat.eqb (length (running w)) 0).
  - unfold containerIntegration.startContainer. js_unfold. simpl.
    destruct (Nat.eqb (box_response w) 0).
    + destruct (docker_images w "exo:latest") as [images|]; simpl.
      * destruct (String.eqb images ""); simpl.
        -- eexists _, _. split; [reflexivity|].
           rewrite prompts_app, hand_overs_app, save_calls_app, Hp0, Hh0, Hs0.
           repeat split. apply in_or_app. right. left. reflexivity.
        -- destruct (docker_run w "exo:latest"); simpl;
             (eexists _, _; split; [reflexivity|]);
             rewrite prompts_app, hand_overs_app, save_calls_app, Hp0, Hh0, Hs0;
             repeat split; apply in_or_app; right; left; reflexivity.
      * eexists _, _. split; [reflexivity|].
        rewrite prompts_app, hand_overs_app, save_calls_app, Hp0, Hh0, Hs0.
        repeat split. apply in_or_app. right. left. reflexivity.
    + eexists _, _. split; [reflexivity|].
      rewrite prompts_app, hand_overs_app, save_calls_app, Hp0, Hh0, Hs0.
      repeat split. apply in_or_app. right. left. reflexivity.
  - js_unfold. simpl. rewrite map_map. simpl.
    destruct (Nat.ltb (box_response w) _); simpl;
      (eexists _, _; split; [reflexivity|]);
      rewrite prompts_app, hand_overs_app, save_calls_app, Hp0, Hh0, Hs0;
      repeat split; apply in_or_app; right; left; reflexivity.
Qed.

(** [connectToContainerWebSocket] starts with its line, opens no message box,
    does not touch the configuration and does not throw. *)
Lemma connect_ws_run url st :
  exists b st' out,
    connectToContainerWebSocket P url st = (Return b, st', out) /\
    prompts out = [] /\ hand_overs out = [hand_over url] /\ save_calls out = [] /\
    containerConfig st' = containerConfig st /\ configFile st' = configFile st.
Proof.
  unfold connectToContainerWebSocket, hand_over. js_unfold. simpl.
  destruct (wsClient st) as [i|]; simpl.
  - destruct (bool_decide (readyState_of i st = OPEN)); simpl;
      destruct (ws_accepts P url); simpl;
      (eexists _, _, _; split; [reflexivity|]); repeat split;
      unfold set_readyState; destruct (sockets st !! i); reflexivity.
  - destruct (ws_accepts P url); simpl;
      (eexists _, _, _; split; [reflexivity|]); repeat split.
Qed.

Lemma connect_observed w containerId st :
  prompts (output (containerIntegration.connectToContainer w containerId) st) = [] /\
  hand_overs (output (containerIntegration.connectToContainer w containerId) st) = [] /\
  constructed (output (containerIntegration.connectToContainer w containerId) st) = [].
Proof.
  destruct (healthy w (containerConfig st) containerId) eqn:H.
  - destruct (connect_healthy _ _ _ H) as (ip & _ & _ & E). cbn zeta in E.
    unfold output. rewrite E. cbn [snd]. unfold containerIntegration.saveConfig.
    destruct (fs_writable w); js_unfold; simpl; auto.
  - destruct (connect_unhealthy _ _ _ H) as (m & out & E & _ & Hh & Hp & Hc).
    unfold output. rewrite E. auto.
Qed.

(** [showContainerSelectionDialog] of [main.js], by what the user chose. *)
Lemma select_run w st :
  exists r out0,
    containerIntegration.showContainerSelectionDialog w st = (Return r, st, out0) /\
    prompts out0 = box_title (selection_box w) /\ hand_overs out0 = [] /\
    In (selection_box w) out0 /\
    showContainerSelectionDialog P w st =
    if truthy r then
      match containerIntegration.connectToContainer w (default "" r) st with
      | (Return info, st1, out1) =>
          let '(_, st2, out2) := connectToContainerWebSocket P (websocketUrl info) st1 in
          (Return tt, st2, out0 ++ out1 ++ out2)
      | (Throw message, st1, out1) =>
          (Return tt, st1,
           out0 ++ out1 ++
           [Console ERROR "Error connecting to container:" [ArgMessage message];
            ShowErrorBox "Connection Error"
              (if String.eqb message "" then default_connection_error else message)])
      end
    else (Return tt, st, out0).
Proof.
  destruct (dialog_run w st) as (r & out0 & E0 & Hp0 & Hh0 & _ & Hin).
  exists r, out0. split; [exact E0|]. split; [exact Hp0|]. split; [exact Hh0|].
  split; [exact Hin|].
  unfold showContainerSelectionDialog. unfold try_catch.
  rewrite (bind_run _ _ _ _ _ _ E0).
  destruct (truthy r).
  - destruct (containerIntegration.connectToContainer w (default "" r) st)
      as [[[info|message] st1] out1] eqn:E1.
    + rewrite (bind_run _ _ _ _ _ _ E1).
      destruct (connect_ws_run (websocketUrl info) st1) as (b & st2 & out2 & E2 & _).
      rewrite (bind_run _ _ _ _ _ _ E2), E2. js_unfold. simpl.
      rewrite app_nil_r. reflexivity.
    + rewrite (bind_throw _ _ _ _ _ _ E1). js_unfold. simpl. rewrite <- app_assoc.
      reflexivity.
  - js_unfold. simpl. rewrite app_nil_r. reflexivity.
Qed.

Lemma select_prompts w st :
  prompts (output (showContainerSelectionDialog P w) st) = box_title (selection_box w) /\
  In (selection_box w) (output (showContainerSelectionDialog P w) st).
Proof.
  destruct (select_run w st) as (r & out0 & E0 & Hp0 & Hh0 & Hin & E).
  unfold output. rewrite E.
  destruct (truthy r).
  - pose proof (connect_observed w (default "" r) st) as (Hp1 & _ & _).
    unfold output in Hp1.
    destruct (containerIntegration.connectToContainer w (default "" r) st)
      as [[[info|message] st1] out1].
    + destruct (connect_ws_run (websocketUrl info) st1) as (b & st2 & out2 & E2 & Hp2 & _).
      rewrite E2. cbn [snd] in *. rewrite !prompts_app, Hp0, Hp1, Hp2, app_nil_r.
      split; [reflexivity|]. apply in_or_app. by left.
    + cbn [snd] in *. rewrite !prompts_app, Hp0, Hp1. simpl. rewrite app_nil_r.
      split; [reflexivity|]. apply in_or_app. by left.
  - cbn [snd]. auto.
Qed.

(** [checkContainerConnection] when it connects on its own. *)
Lemma check_auto w st :
  docker_version w = true ->
  reconnects_to_last w (containerConfig st) = true ->
  exists ip out0,
    docker_inspect w (default "" (lastContainer (containerConfig st))) = Some ip /\
    outcome (containerIntegration.connectToContainer w
               (default "" (lastContainer (containerConfig st)))) st
      = Return (resolved ip (containerConfig st)) /\
    prompts out0 = [] /\ hand_overs out0 = [] /\
    output (checkContainerConnection P w) st =
      out0 ++
      output (containerIntegration.connectToContainer w
                (default "" (lastContainer (containerConfig st)))) st ++
      output (connectToContainerWebSocket P (websocketUrl (resolved ip (containerConfig st))))
             (exec (containerIntegration.connectToContainer w
                      (default "" (lastContainer (containerConfig st)))) st).
Proof.
  intros Hd Hr. unfold reconnects_to_last in Hr.
  apply andb_prop in Hr as [Hr Hh]. apply andb_prop in Hr as [Hauto Hex].
  destruct (connect_healthy _ _ _ Hh) as (ip & Hi & _ & E1). cbn zeta in E1.
  destruct (listContainers_run w st) as (out0 & E0 & Hp0 & Hh0 & _).
  exists ip, out0. split; [exact Hi|].
  split; [unfold outcome; rewrite E1; reflexivity|].
  split; [exact Hp0|]. split; [exact Hh0|].
  remember (exec (containerIntegration.saveConfig w _) _) as st1 eqn:Hst1 in E1.
  remember (_ ++ output (containerIntegration.saveConfig w _) _) as out1 eqn:Hout1 in E1.
  assert (He1 : exec (containerIntegration.connectToContainer w
                        (default "" (lastContainer (containerConfig st)))) st = st1)
    by (unfold exec; rewrite E1; reflexivity).
  assert (Ho1 : output (containerIntegration.connectToContainer w
                          (default "" (lastContainer (containerConfig st)))) st = out1)
    by (unfold output; rewrite E1; reflexivity).
  rewrite He1, Ho1.
  destruct (connect_ws_run (websocketUrl (resolved ip (containerConfig st))) st1)
    as (b & st2 & out2 & E2 & _).
  assert (Ho2 : output (connectToContainerWebSocket P
                          (websocketUrl (resolved ip (containerConfig st)))) st1 = out2)
    by (unfold output; rewrite E2; reflexivity).
  rewrite Ho2.
  unfold output. unfold checkContainerConnection, containerIntegration.checkDocker.
  rewrite Hd. cbn [negb].
  unfold bind at 1. unfold gets at 1. rewrite Hauto.
  unfold bind at 1. unfold try_catch.
  rewrite (bind_run _ _ _ _ _ _ E0). rewrite Hex.
  rewrite (bind_run _ _ _ _ _ _ E1).
  rewrite (bind_run _ _ _ _ _ _ E2).
  js_unfold. simpl. rewrite !app_nil_r. reflexivity.
Qed.

(** [checkContainerConnection] when it does not: it ends in the dialog, from
    the store it started in. *)
Lemma check_manual w st :
  docker_version w = true ->
  reconnects_to_last w (containerConfig st) = false ->
  exists out0,
    prompts out0 = [] /\ hand_overs out0 = [] /\
    output (checkContainerConnection P w) st =
      out0 ++ output (showContainerSelectionDialog P w) st.
Proof.
  intros Hd Hr. unfold output at 1.
  unfold checkContainerConnection, containerIntegration.checkDocker.
  rewrite Hd. cbn [negb].
  unfold bind at 1. unfold gets at 1.
  unfold reconnects_to_last in Hr.
  destruct (autoConnect (containerConfig st) && truthy (lastContainer (containerConfig st)))
    eqn:Hauto.
  - unfold bind at 1. unfold try_catch.
    destruct (listContainers_run w st) as (out0 & E0 & Hp0 & Hh0 & _).
    rewrite (bind_run _ _ _ _ _ _ E0).
    simpl in Hr.
    destruct (existsb _ (running w)) eqn:Hex.
    + simpl in Hr.
      destruct (connect_unhealthy _ _ _ Hr) as (m & out1 & E1 & _ & Hh1 & Hp1 & _).
      rewrite (bind_throw _ _ _ _ _ _ E1).
      exists (out0 ++ out1 ++
              [Console ERROR "Error auto-connecting to container:" [ArgMessage m]]).
      rewrite !prompts_app, !hand_overs_app, Hp0, Hh0, Hp1, Hh1.
      split; [reflexivity|]. split; [reflexivity|].
      js_unfold. simpl. unfold output.
      destruct (showContainerSelectionDialog P w st) as [[r st2] out2]. simpl.
      rewrite <- !app_assoc. reflexivity.
    + exists out0. split; [exact Hp0|]. split; [exact Hh0|].
      js_unfold. simpl. unfold output.
      destruct (showContainerSelectionDialog P w st) as [[r st2] out2]. simpl.
      rewrite app_nil_r. reflexivity.
  - exists []. split; [reflexivity|]. split; [reflexivity|].
    js_unfold. simpl. unfold output.
    destruct (showContainerSelectionDialog P w st) as [[r st2] out2]. reflexivity.
Qed.

Lemma String_split_nonempty sep s : String_split sep s <> [].
Proof.
  induction s as [|c s IH]; simpl; [discriminate|].
  destruct (Ascii.eqb c sep); [discriminate|].
  destruct (String_split sep s); discriminate.
Qed.


(** ** The session across handlers *)

Lemma set_readyState_urls i r st :
  map ws_url (sockets (set_readyState i r st)) = map ws_url (sockets st).
Proof.
  unfold set_readyState. destruct (sockets st !! i) as [s|] eqn:E; [|reflexivity].
  simpl. apply list_eq. intros j. rewrite !list_lookup_fmap.
  destruct (decide (j = i)) as [->|Hne].
  - rewrite list_lookup_insert_eq by (eapply lookup_lt_Some; eauto).
    rewrite E. reflexivity.
  - rewrite list_lookup_insert_ne by auto. reflexivity.
Qed.

Lemma set_readyState_length i r st :
  length (sockets (set_readyState i r st)) = length (sockets st).
Proof.
  pose proof (f_equal length (set_readyState_urls i r st)) as H.
  by rewrite !length_map in H.
Qed.

Lemma set_readyState_client i r st : wsClient (set_readyState i r st) = wsClient st.
Proof. unfold set_readyState. destruct (sockets st !! i); reflexivity. Qed.

Lemma set_readyState_window i r st : mainWindow (set_readyState i r st) = mainWindow st.
Proof. unfold set_readyState. destruct (sockets st !! i); reflexivity. Qed.

Lemma extends_refl st : extends st st.
Proof. split; [exists []; by rewrite app_nil_r|auto]. Qed.

Lemma extends_length st st' : extends st st' -> length (sockets st) <= length (sockets st').
Proof.
  intros [[added H] _]. apply (f_equal length) in H.
  rewrite length_app, !length_map in H. lia.
Qed.

Lemma extends_trans st1 st2 st3 : extends st1 st2 -> extends st2 st3 -> extends st1 st3.
Proof.
  intros H12 H23. pose proof (extends_length _ _ H12). pose proof (extends_length _ _ H23).
  destruct H12 as [[a1 H1] C1], H23 as [[a2 H2] C2]. split.
  - exists (a1 ++ a2). by rewrite H2, H1, app_assoc.
  - intros i Hi. destruct (C2 i Hi) as [Hc|Hr]; [|right; lia].
    destruct (C1 i Hc) as [Hc'|Hr']; [by left|right; lia].
Qed.

(** Same sockets up to [readyState], same client or none. *)
Lemma extends_same st st' :
  map ws_url (sockets st') = map ws_url (sockets st) ->
  (forall i, wsClient st' = Some i -> wsClient st = Some i) ->
  extends st st'.
Proof. intros Hu Hc. split; [exists []; by rewrite app_nil_r|auto]. Qed.

(** [connectToContainerWebSocket] in full: it lets go of the client, closing
    it when it is open, and then holds either a new socket or none. *)
Lemma connect_exec url st :
  let st0 := match open_client st with
             | Some i => set_readyState i CLOSING st
             | None => st
             end in
  connectToContainerWebSocket P url st =
  if ws_accepts P url then
    (Return true,
     set_wsClient (Some (length (sockets st)))
       (set_sockets (sockets st0 ++ [mkWebSocket url CONNECTING])
          (set_isConnected false (set_wsClient None st0))),
     match open_client st with Some i => [WsClose i] | None => [] end
     ++ [hand_over url; WsNew (length (sockets st)) url])
  else
    (Return false,
     set_isConnected false (set_wsClient None st0),
     match open_client st with Some i => [WsClose i] | None => [] end
     ++ [hand_over url;
         Console ERROR "Error connecting to WebSocket:"
                 [ArgMessage ("Invalid URL: " +:+ url)]]).
Proof.
  unfold connectToContainerWebSocket, open_client, hand_over. js_unfold. simpl.
  destruct (wsClient st) as [i|] eqn:E; simpl.
  - destruct (bool_decide (readyState_of i st = OPEN)); simpl;
      destruct (ws_accepts P url); simpl; rewrite ?set_readyState_length; reflexivity.
  - destruct (ws_accepts P url); simpl; [reflexivity|].
    unfold set_wsClient. rewrite <- E. reflexivity.
Qed.

Lemma open_client_client st i : open_client st = Some i -> wsClient st = Some i.
Proof.
  unfold open_client. destruct (wsClient st) as [j|]; [|discriminate].
  destruct (bool_decide _); [|discriminate]. congruence.
Qed.

Lemma connect_extends url st :
  extends st (exec (connectToContainerWebSocket P url) st) /\
  (forall j, In j (closed_by_us (output (connectToContainerWebSocket P url) st)) ->
     open_client st = Some j) /\
  mainWindow (exec (connectToContainerWebSocket P url) st) = mainWindow st.
Proof.
  unfold exec, output. rewrite connect_exec. cbv zeta.
  destruct (ws_accepts P url); cbn [fst snd].
  - split; [|split].
    + split.
      * exists [url]. simpl. rewrite map_app. simpl. f_equal.
        destruct (open_client st); [apply set_readyState_urls|reflexivity].
      * intros i Hi. simpl in Hi. injection Hi as <-. right.
        cbn [sockets set_wsClient set_sockets]. rewrite length_app. simpl.
        destruct (open_client st); rewrite ?set_readyState_length; lia.
    + intros j Hj. destruct (open_client st) as [i|]; simpl in Hj.
      * destruct Hj as [<-|[]]. reflexivity.
      * destruct Hj.
    + simpl. destruct (open_client st); [apply set_readyState_window|reflexivity].
  - split; [|split].
    + apply extends_same.
      * simpl. destruct (open_client st); [apply set_readyState_urls|reflexivity].
      * intros i Hi. simpl in Hi. discriminate Hi.
    + intros j Hj. destruct (open_client st) as [i|]; simpl in Hj.
      * destruct Hj as [<-|[]]. reflexivity.
      * destruct Hj.
    + simpl. destruct (open_client st); [apply set_readyState_window|reflexivity].
Qed.

Ltac js_unfold_in H :=
  unfold handle, exec, output, outcome, on_open, on_close, on_error, on_message,
    connectToContainerWebSocket, disconnectFromContainer, new_WebSocket, ws_close,
    ws_send, setTimeout, showConnectionError, console_log, console_warn,
    console_error, when, try_catch, bind, ret, throw, gets, modify, emit in H.

Lemma connectToContainer_session w containerId :
  preserves session (containerIntegration.connectToContainer w containerId).
Proof. preserves_tac. Qed.

Lemma connectToContainer_quiet w containerId :
  never is_session_effect (containerIntegration.connectToContainer w containerId).
Proof. never_tac. Qed.

Lemma dialog_quiet w :
  never is_session_effect (containerIntegration.showContainerSelectionDialog w).
Proof. never_tac. Qed.

Lemma listContainers_quiet w :
  never is_session_effect (containerIntegration.listContainers w).
Proof. never_tac. Qed.

Lemma select_through_connect w : through_connect P (showContainerSelectionDialog P w).
Proof.
  intros st.
  destruct (select_run w st) as (r & out0 & E0 & _ & _ & _ & E).
  pose proof (dialog_quiet w st) as Hq0. unfold output in Hq0. rewrite E0 in Hq0.
  cbn [snd] in Hq0.
  pose proof (connectToContainer_quiet w (default "" r) st) as Hq1.
  pose proof (connectToContainer_session w (default "" r) st) as Hs1.
  unfold output in Hq1. unfold exec in Hs1.
  unfold exec, output. rewrite E. clear E.
  destruct (truthy r).
  - destruct (containerIntegration.connectToContainer w (default "" r) st)
      as [[[info|message] st1] out1] eqn:E1; cbn [fst snd] in *.
    + exists (out0 ++ out1). split; [by apply Forall_app|]. right.
      exists (websocketUrl info), st1. split; [exact Hs1|].
      destruct (connectToContainerWebSocket P (websocketUrl info) st1) as [[b st2] out2].
      cbn [fst snd]. by rewrite app_assoc.
    + assert (Hst : st1 = st).
      { destruct (healthy w (containerConfig st) (default "" r)) eqn:H.
        - destruct (connect_healthy _ _ _ H) as (ip & _ & _ & E'). cbn zeta in E'.
          rewrite E' in E1. discriminate E1.
        - destruct (connect_unhealthy _ _ _ H) as (m & out & E' & _).
          rewrite E' in E1. congruence. }
      eexists. split; [|left; split; [exact Hst|reflexivity]].
      apply Forall_app. split; [exact Hq0|]. apply Forall_app. split; [exact Hq1|].
      repeat constructor.
  - exists out0. split; [exact Hq0|]. left. split; reflexivity.
Qed.

Lemma check_through_connect w : through_connect P (checkContainerConnection P w).
Proof.
  intros st.
  destruct (select_through_connect w st) as (preS & HqS & HS).
  assert (Hselect : forall pre,
             Forall (fun e => is_session_effect e = false) pre ->
             exists pre',
               Forall (fun e => is_session_effect e = false) pre' /\
               ((exec (showContainerSelectionDialog P w) st = st /\
                 pre ++ output (showContainerSelectionDialog P w) st = pre') \/
                exists url st1,
                  session st1 = session st /\
                  exec (showContainerSelectionDialog P w) st
                    = exec (connectToContainerWebSocket P url) st1 /\
                  pre ++ output (showContainerSelectionDialog P w) st
                    = pre' ++ output (connectToContainerWebSocket P url) st1)).
  { intros pre Hpre. destruct HS as [[He Ho]|(url & st1 & Hs & He & Ho)].
    - exists (pre ++ preS). split; [by apply Forall_app|]. left. by rewrite Ho.
    - exists (pre ++ preS). split; [by apply Forall_app|]. right.
      exists url, st1. rewrite Ho, app_assoc. auto. }
  clear HS HqS preS.
  unfold through_connect. unfold exec at 1 2, output at 1 2.
  destruct (checkContainerConnection P w st) as [[r st'] out] eqn:E.
  cbn [fst snd].
  unfold checkContainerConnection, containerIntegration.checkDocker in E.
  destruct (docker_version w); cbn [negb] in E.
  2:{ injection E as <- <- <-. eexists. split; [|left; split; reflexivity].
      repeat constructor. }
  unfold bind at 1 in E. unfold gets at 1 in E.
  destruct (autoConnect (containerConfig st) && truthy (lastContainer (containerConfig st))).
  - unfold bind at 1 in E. unfold try_catch in E.
    destruct (listContainers_run w st) as (out0 & E0 & _).
    pose proof (listContainers_quiet w st) as Hq0. unfold output in Hq0.
    rewrite E0 in Hq0. cbn [snd] in Hq0.
    rewrite (bind_run _ _ _ _ _ _ E0) in E.
    destruct (existsb _ (running w)).
    + pose proof (connectToContainer_quiet w
                    (default "" (lastContainer (containerConfig st))) st) as Hq1.
      pose proof (connectToContainer_session w
                    (default "" (lastContainer (containerConfig st))) st) as Hs1.
      unfold output in Hq1. unfold exec in Hs1.
      destruct (containerIntegration.connectToContainer w
                  (default "" (lastContainer (containerConfig st))) st)
        as [[[info|message] st1] out1] eqn:E1; cbn [fst snd] in *.
      * rewrite (bind_run _ _ _ _ _ _ E1) in E.
        destruct (connect_ws_run (websocketUrl info) st1) as (b & st2 & out2 & E2 & _).
        rewrite (bind_run _ _ _ _ _ _ E2) in E.
        js_unfold_in E. simpl in E. rewrite ?app_nil_r in E.
        injection E as <- <- <-.
        exists (out0 ++ out1). split; [by apply Forall_app|]. right.
        exists (websocketUrl info), st1. split; [exact Hs1|].
        unfold exec, output. rewrite E2. cbn [fst snd]. rewrite <- ?app_assoc. auto.
      * assert (Hst : st1 = st).
        { destruct (healthy w (containerConfig st)
                      (default "" (lastContainer (containerConfig st)))) eqn:H.
          - destruct (connect_healthy _ _ _ H) as (ip & _ & _ & E'). cbn zeta in E'.
            rewrite E' in E1. discriminate E1.
          - destruct (connect_unhealthy _ _ _ H) as (m & out' & E' & _).
            rewrite E' in E1. congruence. }
        subst st1. rewrite (bind_throw _ _ _ _ _ _ E1) in E.
        destruct (Hselect (out0 ++ out1 ++
                    [Console ERROR "Error auto-connecting to container:"
                             [ArgMessage message]])) as (pre' & Hq' & H').
        { apply Forall_app. split; [exact Hq0|]. apply Forall_app. split; [exact Hq1|].
          repeat constructor. }
        exists pre'. split; [exact Hq'|].
        unfold exec, output in H'. js_unfold_in E. simpl in E.
        destruct (showContainerSelectionDialog P w st) as [[r2 st2] out2].
        simpl in *. injection E as <- <- <-.
        rewrite <- !app_assoc in *. simpl in *. exact H'.
    + destruct (Hselect out0 Hq0) as (pre' & Hq' & H').
      exists pre'. split; [exact Hq'|].
      unfold exec, output in H'. js_unfold_in E. simpl in E.
      destruct (showContainerSelectionDialog P w st) as [[r2 st2] out2].
      simpl in *. rewrite app_nil_r in E. injection E as <- <- <-. exact H'.
  - destruct (Hselect [] (List.Forall_nil _)) as (pre' & Hq' & H').
    exists pre'. split; [exact Hq'|].
    unfold exec, output in H'. js_unfold_in E. simpl in E.
    destruct (showContainerSelectionDialog P w st) as [[r2 st2] out2].
    simpl in *. injection E as <- <- <-. exact H'.
Qed.

Lemma quiet_observed out :
  Forall (fun e => is_session_effect e = false) out ->
  closed_by_us out = [] /\ constructed out = [] /\
  Forall (fun e => is_renderer_send e = false) out.
Proof.
  induction 1 as [|e out He _ (IH1 & IH2 & IH3)]; [repeat split; constructor|].
  destruct e; try discriminate He; repeat split; auto.
Qed.

Lemma closed_by_us_app out1 out2 :
  closed_by_us (out1 ++ out2) = closed_by_us out1 ++ closed_by_us out2.
Proof. apply omap_app. Qed.

Lemma on_message_exec frame : preserves (fun st : store => st) (on_message P frame).
Proof. preserves_tac. Qed.

Lemma on_message_no_close frame : never is_ws_close (on_message P frame).
Proof. never_tac. Qed.

Lemma no_close_closed_by_us out :
  Forall (fun e => is_ws_close e = false) out -> closed_by_us out = [].
Proof.
  induction 1 as [|e out He _ IH]; [reflexivity|].
  destruct e; try discriminate He; exact IH.
Qed.

Lemma open_client_session st st1 : session st1 = session st -> open_client st1 = open_client st.
Proof.
  unfold session. intros H. injection H as _ Hs Hc _ _ _.
  unfold open_client, readyState_of. by rewrite Hs, Hc.
Qed.

Lemma extends_session st st1 st' : session st1 = session st -> extends st1 st' -> extends st st'.
Proof.
  unfold session. intros H. injection H as _ Hs Hc _ _ _.
  unfold extends. by rewrite Hs, Hc.
Qed.

(** What one turn does to the sockets and the client, and which sockets it
    closes. *)
Lemma step_extends ev st st' out :
  step P ev st = Some (st', out) ->
  extends st st' /\
  (forall j, In j (closed_by_us out) -> open_client st = Some j).
Proof.
  intros H. destruct ev; step_cases H.
  - change (exec on_open ?s) with (fst (handle on_open s)).
    change (output on_open ?s) with (snd (handle on_open s)).
    rewrite on_open_handle. cbn [fst snd]. split.
    + apply extends_same; simpl; [apply set_readyState_urls|].
      intros j. by rewrite set_readyState_client.
    + unfold status_out. destruct (mainWindow _); intros j [].
  - rewrite on_message_exec. split; [apply extends_refl|].
    rewrite no_close_closed_by_us by apply on_message_no_close. intros j [].
  - split; [apply extends_refl|]. intros j [].
  - change (exec (on_close ?u) ?s) with (fst (handle (on_close u) s)).
    change (output (on_close ?u) ?s) with (snd (handle (on_close u) s)).
    rewrite on_close_handle.
    destruct (Nat.ltb _ _); cbn [fst snd]; (split;
      [ apply extends_same; simpl; [apply set_readyState_urls|];
        intros j; by rewrite set_readyState_client
      | unfold status_out; destruct (mainWindow _); intros j [] ]).
  - destruct (connect_extends (timer_url t) (set_timers (delete k (timers st)) st))
      as (He & Hc & _).
    split; [exact He|exact Hc].
  - change (exec (to_backend P data) st) with (fst (handle (to_backend P data) st)).
    change (output (to_backend P data) st) with (snd (handle (to_backend P data) st)).
    rewrite to_backend_handle.
    destruct (open_client st); cbn [fst snd]; (split; [apply extends_refl|]).
    + intros j [].
    + destruct (Nat.eqb _ 0); intros j [].
  - destruct (select_through_connect w st) as (pre & Hq & [[-> ->]|(url & st1 & Hs & -> & ->)]).
    + split; [apply extends_refl|].
      destruct (quiet_observed _ Hq) as (-> & _). intros j [].
    + destruct (connect_extends url st1) as (He & Hc & _).
      split; [eapply extends_session; eauto|].
      rewrite closed_by_us_app. destruct (quiet_observed _ Hq) as (-> & _).
      intros j Hj. rewrite <- (open_client_session _ _ Hs). by apply Hc.
  - destruct (check_through_connect w st) as (pre & Hq & [[-> ->]|(url & st1 & Hs & -> & ->)]).
    + split; [apply extends_refl|].
      destruct (quiet_observed _ Hq) as (-> & _). intros j [].
    + destruct (connect_extends url st1) as (He & Hc & _).
      split; [eapply extends_session; eauto|].
      rewrite closed_by_us_app. destruct (quiet_observed _ Hq) as (-> & _).
      intros j Hj. rewrite <- (open_client_session _ _ Hs). by apply Hc.
  - unfold window_closed.
    assert (Hh : handle disconnectFromContainer st
                 = (exec disconnectFromContainer st, output disconnectFromContainer st))
      by reflexivity.
    rewrite disconnect_handle in Hh.
    assert (He : exec (disconnectFromContainer;; modify (set_mainWindow false)) st
                 = set_mainWindow false (exec disconnectFromContainer st)).
    { unfold exec, bind, modify.
      destruct (disconnectFromContainer st) as [[[[]|m] st1] out1] eqn:Ed; [reflexivity|].
      exfalso. revert Ed. js_unfold. simpl.
      destruct (wsClient st); simpl; [destruct (bool_decide _)|]; discriminate. }
    assert (Ho : output (disconnectFromContainer;; modify (set_mainWindow false)) st
                 = output disconnectFromContainer st).
    { unfold output, bind, modify.
      destruct (disconnectFromContainer st) as [[[[]|m] st1] out1]; simpl;
        [by rewrite app_nil_r|reflexivity]. }
    rewrite He, Ho.
    destruct (open_client st) as [i|]; injection Hh as <- <-.
    + split; [|intros j [<-|[]]; reflexivity].
      apply extends_same; simpl; [apply set_readyState_urls|discriminate].
    + split; [|intros j []].
      apply extends_same; simpl; [reflexivity|discriminate].
  - unfold before_quit.
    assert (Hh : handle disconnectFromContainer st
                 = (exec disconnectFromContainer st, output disconnectFromContainer st))
      by reflexivity.
    rewrite disconnect_handle in Hh.
    destruct (open_client st) as [i|]; injection Hh as <- <-.
    + split; [|intros j [<-|[]]; reflexivity].
      apply extends_same; simpl; [apply set_readyState_urls|discriminate].
    + split; [|intros j []].
      apply extends_same; simpl; [reflexivity|discriminate].
Qed.

Lemma run_extends evs :
  forall st st' out, run P evs st = Some (st', out) -> extends st st'.
Proof.
  induction evs as [|ev evs IH]; intros st st' out H; cbn [run] in H.
  - injection H as <- <-. apply extends_refl.
  - destruct (step P ev st) as [[st1 out1]|] eqn:E1; [|discriminate H].
    destruct (run P evs st1) as [[st2 out2]|] eqn:E2; [|discriminate H].
    injection H as <- <-. eapply extends_trans.
    + eapply step_extends; eauto.
    + eapply IH; eauto.
Qed.

(** ** Invariants of the main process *)

(** X1.  The attempt counter never passes the maximum: whatever happens, a
    store that starts within [MAX_RECONNECT_ATTEMPTS] stays within it. *)
Theorem attempts_stay_bounded evs :
  forall st st' out,
    run P evs st = Some (st', out) ->
    reconnectAttempts st <= MAX_RECONNECT_ATTEMPTS ->
    reconnectAttempts st' <= MAX_RECONNECT_ATTEMPTS.
Proof.
  induction evs as [|ev evs IH]; intros st st' out H Hle; cbn [run] in H.
  - by injection H as <- <-.
  - destruct (step P ev st) as [[st1 out1]|] eqn:E1; [|discriminate H].
    destruct (run P evs st1) as [[st2 out2]|] eqn:E2; [|discriminate H].
    injection H as <- <-. apply (IH st1 st2 out2 E2).
    rewrite (step_attempts _ _ _ _ E1).
    destruct ev; try exact Hle; try (unfold MAX_RECONNECT_ATTEMPTS; lia).
    destruct (Nat.ltb _ _) eqn:El; [|exact Hle]. apply Nat.ltb_lt in El. lia.
Qed.

(** X2.  The client is always one of the sockets the process has constructed,
    so reading its [readyState] never misses. *)
Theorem client_stays_a_socket evs st st' out :
  run P evs st = Some (st', out) ->
  client_is_a_socket st ->
  client_is_a_socket st'.
Proof.
  intros H Hc i Hi.
  pose proof (run_extends _ _ _ _ H) as He.
  pose proof (extends_length _ _ He) as Hl.
  destruct He as [_ C]. destruct (C i Hi) as [Hi'|Hr]; [|lia].
  specialize (Hc i Hi'). lia.
Qed.

(** X3.  Sockets are never forgotten and never re-addressed: a socket
    constructed for an address is, after any sequence of events, still at its
    place and still for that address. A reconnection therefore always goes to
    the address the dropped socket was opened for. *)
Theorem sockets_keep_their_address evs st st' out i s :
  run P evs st = Some (st', out) ->
  sockets st !! i = Some s ->
  exists s', sockets st' !! i = Some s' /\ ws_url s' = ws_url s.
Proof.
  intros H Hs. destruct (run_extends _ _ _ _ H) as [[added Hu] _].
  assert (Hl : map ws_url (sockets st') !! i = Some (ws_url s)).
  { rewrite Hu. rewrite lookup_app_l by (rewrite length_map; eapply lookup_lt_Some; eauto).
    by rewrite list_lookup_fmap, Hs. }
  rewrite list_lookup_fmap in Hl.
  destruct (sockets st' !! i) as [s'|]; [|discriminate Hl].
  exists s'. split; [reflexivity|]. simpl in Hl. congruence.
Qed.

Lemma step_abandoned ev st st' out i :
  step P ev st = Some (st', out) ->
  i < length (sockets st) ->
  wsClient st <> Some i ->
  i < length (sockets st') /\ wsClient st' <> Some i /\ ~ In i (closed_by_us out).
Proof.
  intros E Hi Hc.
  destruct (step_extends _ _ _ _ E) as (He & Hcl).
  pose proof (extends_length _ _ He) as Hl.
  split; [lia|]. split.
  - intros Hi1. destruct He as [_ C]. destruct (C i Hi1) as [?|?]; [contradiction|lia].
  - intros Hin. apply Hcl, open_client_client in Hin. contradiction.
Qed.

Lemma run_abandoned evs :
  forall st st' out i,
    run P evs st = Some (st', out) ->
    i < length (sockets st) ->
    wsClient st <> Some i ->
    wsClient st' <> Some i /\ ~ In i (closed_by_us out).
Proof.
  induction evs as [|ev evs IH]; intros st st' out i H Hi Hc; cbn [run] in H.
  - injection H as <- <-. split; [exact Hc|intros []].
  - destruct (step P ev st) as [[st1 out1]|] eqn:E1; [|discriminate H].
    destruct (run P evs st1) as [[st2 out2]|] eqn:E2; [|discriminate H].
    injection H as <- <-.
    destruct (step_abandoned _ _ _ _ _ E1 Hi Hc) as (Hi1 & Hc1 & Hn1).
    destruct (IH st1 st2 out2 i E2 Hi1 Hc1) as (Hc2 & Hn2).
    split; [exact Hc2|]. rewrite closed_by_us_app. intros Hin.
    apply in_app_or in Hin as [Hin|Hin]; contradiction.
Qed.

(** X4.  A socket the process has let go of is out of its reach: after any
    sequence of events it is not the client again and [close()] has not been
    called on it. *)
Theorem abandoned_socket_is_never_closed evs st st' out i :
  run P evs st = Some (st', out) ->
  i < length (sockets st) ->
  wsClient st <> Some i ->
  wsClient st' <> Some i /\ ~ In i (closed_by_us out).
Proof.
  revert st st' out. induction evs as [|ev evs IH]; intros st st' out H Hi Hc.
  - injection H as <- <-. split; [exact Hc|intros []].
  - cbn [run] in H.
    destruct (step P ev st) as [[st1 out1]|] eqn:E1; [|discriminate H].
    destruct (run P evs st1) as [[st2 out2]|] eqn:E2; [|discriminate H].
    injection H as <- <-.
    destruct (step_abandoned _ _ _ _ _ E1 Hi Hc) as (Hi1 & Hc1 & Hn1).
    destruct (IH st1 st2 out2 E2 Hi1 Hc1) as (Hc2 & Hn2).
    split; [exact Hc2|]. rewrite closed_by_us_app. intros Hin.
    apply in_app_or in Hin as [Hin|Hin]; contradiction.
Qed.

Lemma disconnect_while_connecting st i :
  wsClient st = Some i ->
  readyState_of i st = CONNECTING ->
  handle disconnectFromContainer st = (set_isConnected false (set_wsClient None st), []).
Proof.
  intros Hc Hr. rewrite disconnect_handle. unfold open_client. rewrite Hc, Hr. reflexivity.
Qed.

Lemma session_window st st1 : session st1 = session st -> mainWindow st1 = mainWindow st.
Proof. unfold session. intros H. by injection H. Qed.

Lemma connect_no_renderer url st :
  Forall (fun e => is_renderer_send e = false)
         (output (connectToContainerWebSocket P url) st).
Proof.
  unfold output. rewrite connect_exec. cbv zeta.
  destruct (ws_accepts P url), (open_client st); cbn [snd]; repeat constructor.
Qed.

Lemma to_backend_no_renderer data : never is_renderer_send (to_backend P data).
Proof. unfold to_backend. never_tac. Qed.

Lemma on_message_windowless frame st :
  mainWindow st = false ->
  Forall (fun e => is_renderer_send e = false) (output (on_message P frame) st).
Proof.
  intros Hw. unfold on_message. js_unfold. simpl.
  destruct (JSON_parse P frame); simpl; rewrite ?Hw; repeat constructor.
Qed.

Lemma step_windowless ev st st' out :
  step P ev st = Some (st', out) ->
  mainWindow st = false ->
  mainWindow st' = false /\ Forall (fun e => is_renderer_send e = false) out.
Proof.
  intros H Hw. destruct ev; step_cases H.
  - change (exec on_open ?s) with (fst (handle on_open s)).
    change (output on_open ?s) with (snd (handle on_open s)).
    rewrite on_open_handle. cbn [fst snd]. unfold status_out. simpl.
    rewrite set_readyState_window, Hw. split; [reflexivity|repeat constructor].
  - rewrite on_message_exec. split; [exact Hw|by apply on_message_windowless].
  - split; [exact Hw|repeat constructor].
  - change (exec (on_close ?u) ?s) with (fst (handle (on_close u) s)).
    change (output (on_close ?u) ?s) with (snd (handle (on_close u) s)).
    rewrite on_close_handle. unfold status_out. rewrite set_readyState_window, Hw.
    destruct (Nat.ltb _ _); cbn [fst snd]; simpl; rewrite set_readyState_window;
      (split; [exact Hw|repeat constructor]).
  - destruct (connect_extends (timer_url t) (set_timers (delete k (timers st)) st))
      as (_ & _ & Hm).
    rewrite Hm. split; [exact Hw|apply connect_no_renderer].
  - change (exec (to_backend P data) st) with (fst (handle (to_backend P data) st)).
    rewrite to_backend_handle.
    split; [destruct (open_client st); exact Hw|apply to_backend_no_renderer].
  - destruct (select_through_connect w st) as (pre & Hq & [[-> ->]|(url & st1 & Hs & -> & ->)]).
    + split; [exact Hw|]. apply (quiet_observed _ Hq).
    + destruct (connect_extends url st1) as (_ & _ & Hm).
      rewrite Hm, (session_window _ _ Hs). split; [exact Hw|].
      apply Forall_app. split; [apply (quiet_observed _ Hq)|apply connect_no_renderer].
  - destruct (check_through_connect w st) as (pre & Hq & [[-> ->]|(url & st1 & Hs & -> & ->)]).
    + split; [exact Hw|]. apply (quiet_observed _ Hq).
    + destruct (connect_extends url st1) as (_ & _ & Hm).
      rewrite Hm, (session_window _ _ Hs). split; [exact Hw|].
      apply Forall_app. split; [apply (quiet_observed _ Hq)|apply connect_no_renderer].
  - split.
    + unfold window_closed, exec, bind, modify.
      destruct (disconnectFromContainer st) as [[[[]|m] st1] out1] eqn:Ed; [reflexivity|].
      exfalso. revert Ed. js_unfold. simpl.
      destruct (wsClient st); simpl; [destruct (bool_decide _)|]; discriminate.
    + assert (Hn : never is_renderer_send window_closed) by (unfold window_closed; never_tac).
      apply Hn.
  - unfold before_quit.
    assert (Hh : handle disconnectFromContainer st
                 = (exec disconnectFromContainer st, output disconnectFromContainer st))
      by reflexivity.
    rewrite disconnect_handle in Hh.
    destruct (open_client st) as [i|]; injection Hh as <- <-; simpl;
      rewrite ?set_readyState_window; (split; [exact Hw|repeat constructor]).
Qed.

(** X6.  Messages sent while the client is open go out one frame each, on that
    socket, in the order they were sent, and change nothing in the store. *)
Theorem sends_while_open_go_out_in_order st i (messages : list json) :
  open_client st = Some i ->
  exists out,
    run P (map ToBackend messages) st = Some (st, out) /\
    delivered out = map (JSON_stringify P) messages /\
    omap (fun e => match e with WsSend j _ => Some j | _ => None end) out
      = repeat i (length messages).
Proof.
  intros Ho. induction messages as [|data messages (out & Hrun & Hd & Hi)].
  - exists []. repeat split.
  - eexists. cbn [map run step]. rewrite to_backend_handle, Ho, Hrun.
    split; [reflexivity|]. cbn [app].
    split; simpl; [by rewrite <- Hd|by rewrite <- Hi].
Qed.

(** ** Letting go of a socket *)

Lemma window_closed_handle st :
  handle window_closed st =
  (set_mainWindow false (fst (handle disconnectFromContainer st)),
   snd (handle disconnectFromContainer st)).
Proof.
  rewrite disconnect_handle. unfold window_closed. js_unfold. unfold open_client. simpl.
  destruct (wsClient st) as [i|] eqn:E; simpl.
  - destruct (bool_decide (readyState_of i st = OPEN)); reflexivity.
  - unfold set_wsClient. rewrite <- E. reflexivity.
Qed.

(** X7.  Closing an open session from this side is taken for a drop. The
    window is closed while the session is up: the socket is asked to close,
    and when it has closed, its [close] handler counts an attempt and
    registers a reconnection timer for the same address, which then comes due
    and constructs a new socket. *)
Theorem closing_from_this_side_reconnects st i url :
  Connected P st i url ->
  exists st' out,
    run P [WindowClosed; SocketClose i] st = Some (st', out) /\
    closed_by_us out = [i] /\
    wsClient st' = None /\
    reconnectAttempts st' = 1 /\
    timers st' = [mkTimer url RECONNECT_INTERVAL] /\
    exists st'' out',
      step P (TimerFires 0) st' = Some (st'', out') /\
      constructed out' = [url] /\
      wsClient st'' = Some (length (sockets st)).
Proof.
  intros [Hc Hs Ho Ha Ht Hu].
  assert (Hopen : open_client st = Some i).
  { unfold open_client, readyState_of. rewrite Hc, Hs. reflexivity. }
  assert (Hlt : i < length (sockets st)) by (eapply lookup_lt_Some; eauto).
  remember (set_mainWindow false
              (set_isConnected false (set_wsClient None (set_readyState i CLOSING st))))
    as st1 eqn:Est1.
  assert (H1 : step P WindowClosed st = Some (st1, [WsClose i])).
  { cbn [step]. rewrite window_closed_handle, disconnect_handle, Hopen. by subst st1. }
  assert (Hs1 : sockets st1 !! i = Some (mkWebSocket url CLOSING)).
  { subst st1. unfold set_readyState. rewrite Hs. simpl.
    by rewrite list_lookup_insert_eq. }
  assert (Ha1 : reconnectAttempts st1 = 0).
  { subst st1. simpl. by rewrite set_readyState_attempts. }
  assert (Ht1 : timers st1 = []).
  { subst st1. simpl. by rewrite set_readyState_timers. }
  assert (Hc1 : wsClient st1 = None) by (by subst st1).
  assert (Hl1 : length (sockets st1) = length (sockets st)).
  { subst st1. simpl. apply set_readyState_length. }
  clear Est1.
  destruct (step P (SocketClose i) st1) as [[st2 out2]|] eqn:H2.
  2:{ exfalso. cbn [step] in H2. rewrite Hs1 in H2. discriminate H2. }
  assert (H2' := H2). cbn [step] in H2'. rewrite Hs1 in H2'. cbn [ws_readyState ws_url] in H2'.
  rewrite bool_decide_eq_false_2 in H2' by discriminate.
  rewrite on_close_handle, set_readyState_attempts, Ha1 in H2'.
  change (Nat.ltb 0 MAX_RECONNECT_ATTEMPTS) with true in H2'. cbn iota in H2'.
  injection H2' as <- <-.
  eexists _, _. split; [eapply run_step; [exact H1|]; eapply run_step; [exact H2|reflexivity]|].
  split; [unfold status_out; destruct (mainWindow _); reflexivity|].
  split; [simpl; by rewrite set_readyState_client|].
  split; [reflexivity|].
  split; [simpl; by rewrite set_readyState_timers, Ht1|].
  cbn [step]. simpl timers. rewrite set_readyState_timers, Ht1. simpl.
  eexists _, _. split; [reflexivity|].
  unfold exec, output. rewrite connect_exec, Hu. cbv zeta. cbn [fst snd].
  match goal with
  | |- context [open_client ?s] =>
      assert (Ho2 : open_client s = None)
        by (unfold open_client; simpl; by rewrite set_readyState_client, Hc1)
  end.
  rewrite Ho2. split; [reflexivity|].
  simpl. by rewrite set_readyState_length, Hl1.
Qed.

(** X8.  A socket let go of while it is still connecting is not closed, and
    when it opens its [open] handler runs all the same: [isConnected] is set
    and the renderer is told the session is connected, though no client is
    held, so that messages sent then are dropped; and nothing ever closes that
    socket. *)
Theorem socket_dropped_while_connecting_still_opens st i :
  wsClient st = Some i ->
  readyState_of i st = CONNECTING ->
  let st1 := exec disconnectFromContainer st in
  output disconnectFromContainer st = [] /\
  readyState_of i st1 = CONNECTING /\
  exists st2,
    step P (SocketOpen i) st1 =
      Some (st2, Console LOG "Connected to container WebSocket" [] :: status_out st true) /\
    isConnected st2 = true /\
    readyState_of i st2 = OPEN /\
    open_client st2 = None /\
    (forall data, delivered (output (to_backend P data) st2) = []) /\
    forall evs st3 out3,
      run P evs st2 = Some (st3, out3) -> ~ In i (closed_by_us out3).
Proof.
  intros Hc Hr st1.
  pose proof (disconnect_while_connecting st i Hc Hr) as Hh.
  assert (He : st1 = set_isConnected false (set_wsClient None st)) by exact (f_equal fst Hh).
  assert (Hs : exists s, sockets st !! i = Some s /\ ws_readyState s = CONNECTING).
  { unfold readyState_of in Hr. destruct (sockets st !! i) as [s|]; [eauto|discriminate]. }
  destruct Hs as (s & Hs & Hrs).
  assert (Hlt : i < length (sockets st)) by (eapply lookup_lt_Some; eauto).
  split; [exact (f_equal snd Hh)|]. rewrite He.
  split; [exact Hr|].
  cbn [step].
  change (readyState_of i (set_isConnected false (set_wsClient None st)))
    with (readyState_of i st).
  rewrite Hr. rewrite bool_decide_eq_true_2 by reflexivity.
  rewrite on_open_handle.
  eexists. split.
  { f_equal. f_equal. unfold status_out. by rewrite set_readyState_window. }
  assert (Hr2 : readyState_of i
                  (set_reconnectAttempts 0 (set_isConnected true
                     (set_readyState i OPEN (set_isConnected false (set_wsClient None st)))))
                = OPEN).
  { unfold readyState_of, set_readyState. simpl. rewrite Hs. simpl.
    by rewrite list_lookup_insert_eq. }
  assert (Hc2 : wsClient
                  (set_reconnectAttempts 0 (set_isConnected true
                     (set_readyState i OPEN (set_isConnected false (set_wsClient None st)))))
                = None).
  { simpl. by rewrite set_readyState_client. }
  split; [reflexivity|]. split; [exact Hr2|].
  assert (Ho2 : open_client
                  (set_reconnectAttempts 0 (set_isConnected true
                     (set_readyState i OPEN (set_isConnected false (set_wsClient None st)))))
                = None).
  { unfold open_client. by rewrite Hc2. }
  split; [exact Ho2|]. split.
  - intros data.
    match goal with
    | |- delivered (output ?m ?s) = _ => change (output m s) with (snd (handle m s))
    end.
    rewrite to_backend_handle, Ho2. cbn [snd].
    destruct (Nat.eqb _ 0); reflexivity.
  - intros evs st3 out3 Hrun.
    eapply (run_abandoned evs); [exact Hrun| |by rewrite Hc2].
    simpl. by rewrite set_readyState_length.
Qed.


(** ** The selection dialog *)


Lemma saveConfig_run w cfg st :
  containerIntegration.saveConfig w cfg st =
  if fs_writable w then (Return tt, set_configFile (Some cfg) st, [FsWrite cfg])
  else (Return tt, st, [Console ERROR "Error saving configuration:" [ArgError "Error"]]).
Proof. unfold containerIntegration.saveConfig. destruct (fs_writable w); reflexivity. Qed.

Lemma dialog_pick w st c :
  running w !! box_response w = Some c ->
  containerIntegration.showContainerSelectionDialog w st =
    (Return (Some (container_id c)), st,
     [ShowMessageBox "Select Container"
        (map containerIntegration.option_label (running w) ++ ["Cancel"])]).
Proof.
  intros Hc. unfold running in *.
  unfold containerIntegration.showContainerSelectionDialog, containerIntegration.listContainers.
  destruct (docker_ps w) as [rows|];
    [change (default [] (Some rows)) with rows in *
    |change (default [] None) with (@nil container) in Hc; by rewrite lookup_nil in Hc].
  assert (Hlt : box_response w < length rows) by (eapply lookup_lt_Some; eauto).
  unfold bind at 1. unfold ret at 1.
  destruct rows as [|r rows']; [simpl in Hlt; lia|].
  cbn [length Nat.eqb].
  unfold bind, emit, ret. rewrite length_map.
  destruct (Nat.ltb_spec (box_response w) (length (r :: rows'))) as [_|H]; [|lia].
  rewrite list_lookup_fmap, Hc. rewrite map_map. reflexivity.
Qed.

Lemma dialog_cancel w st :
  cancels w = true ->
  exists out0,
    containerIntegration.showContainerSelectionDialog w st = (Return None, st, out0) /\
    error_boxes out0 = [].
Proof.
  unfold cancels, running. intros Hc.
  unfold containerIntegration.showContainerSelectionDialog, containerIntegration.listContainers.
  destruct (docker_ps w) as [rows|];
    [change (default [] (Some rows)) with rows in Hc
    |change (default [] None) with (@nil container) in Hc].
  - unfold bind at 1. unfold ret at 1.
    destruct (Nat.eqb (length rows) 0).
    + unfold bind, emit, ret. destruct (Nat.eqb (box_response w) 0); [discriminate|].
      eexists. split; reflexivity.
    + unfold bind, emit, ret. rewrite length_map.
      apply Nat.leb_le in Hc.
      destruct (Nat.ltb_spec (box_response w) (length rows)) as [H|_]; [lia|].
      eexists. split; reflexivity.
  - cbn [length Nat.eqb] in Hc.
    unfold bind, console_error, emit, ret. cbn [length Nat.eqb].
    destruct (Nat.eqb (box_response w) 0); [discriminate|].
    eexists. split; reflexivity.
Qed.

Lemma select_picked w st c :
  running w !! box_response w = Some c ->
  container_id c <> "" ->
  showContainerSelectionDialog P w st =
  let box := ShowMessageBox "Select Container"
               (map containerIntegration.option_label (running w) ++ ["Cancel"]) in
  match containerIntegration.connectToContainer w (container_id c) st with
  | (Return info, st1, out1) =>
      let '(_, st2, out2) := connectToContainerWebSocket P (websocketUrl info) st1 in
      (Return tt, st2, [box] ++ out1 ++ out2)
  | (Throw message, st1, out1) =>
      (Return tt, st1,
       [box] ++ out1 ++
       [Console ERROR "Error connecting to container:" [ArgMessage message];
        ShowErrorBox "Connection Error"
          (if String.eqb message "" then default_connection_error else message)])
  end.
Proof.
  intros Hc Hne.
  destruct (select_run w st) as (r & out0 & Hd & _ & _ & _ & Hm).
  rewrite (dialog_pick w st c Hc) in Hd. injection Hd as <- <-.
  rewrite Hm. cbn [truthy default].
  apply String.eqb_neq in Hne. rewrite Hne. reflexivity.
Qed.

Lemma error_boxes_app out1 out2 :
  error_boxes (out1 ++ out2) = error_boxes out1 ++ error_boxes out2.
Proof. apply omap_app. Qed.

Lemma relayed_app out1 out2 : relayed (out1 ++ out2) = relayed out1 ++ relayed out2.
Proof. apply omap_app. Qed.


(** X10.  The user closes the selection box with [Cancel]: the store is what
    it was, no error box follows and nothing reaches a socket, a timer or the
    renderer. *)
Theorem cancelled_selection_changes_nothing w st :
  cancels w = true ->
  exec (showContainerSelectionDialog P w) st = st /\
  prompts (output (showContainerSelectionDialog P w) st) = box_title (selection_box w) /\
  error_boxes (output (showContainerSelectionDialog P w) st) = [] /\
  Forall (fun e => is_session_effect e = false) (output (showContainerSelectionDialog P w) st).
Proof.
  intros Hc.
  destruct (dialog_cancel w st Hc) as (out0 & Hd0 & He0).
  destruct (select_run w st) as (r & out & Hd & _ & _ & _ & Hm).
  rewrite Hd0 in Hd. injection Hd as <- <-.
  cbn [truthy] in Hm.
  split; [unfold exec; by rewrite Hm|].
  split; [apply select_prompts|].
  split; [unfold output; by rewrite Hm|].
  unfold output. rewrite Hm. cbn [snd].
  pose proof (dialog_quiet w st) as Hq. unfold output in Hq. by rewrite Hd0 in Hq.
Qed.

(** X11.  The container picked fails the health check: the store is what it
    was, so the session that was up stays up; the user is shown one error box,
    with the reason; nothing reaches a socket, a timer or the renderer. *)
Theorem failed_selection_keeps_the_session w st c :
  running w !! box_response w = Some c ->
  container_id c <> "" ->
  healthy w (containerConfig st) (container_id c) = false ->
  exec (showContainerSelectionDialog P w) st = st /\
  (exists message,
     outcome (containerIntegration.connectToContainer w (container_id c)) st = Throw message /\
     message <> "" /\
     error_boxes (output (showContainerSelectionDialog P w) st)
       = [("Connection Error", message)]) /\
  Forall (fun e => is_session_effect e = false) (output (showContainerSelectionDialog P w) st).
Proof.
  intros Hc Hne Hh. unfold exec, output, outcome.
  rewrite (select_picked w st c Hc Hne). cbv zeta.
  pose proof (connectToContainer_quiet w (container_id c) st) as Hq.
  unfold output in Hq.
  assert (Hm : forall message st1 out1,
             containerIntegration.connectToContainer w (container_id c) st
               = (Throw message, st1, out1) ->
             message <> "" /\ error_boxes out1 = []).
  { clear Hq. intros message st1 out1.
    unfold containerIntegration.connectToContainer, containerIntegration.getContainerIP,
      containerIntegration.checkPort, containerIntegration.saveConfig.
    destruct (docker_inspect w (container_id c)) as [ip|];
      js_unfold; cbn [truthy];
      repeat match goal with
             | |- context [if ?b then _ else _] => destruct b
             | |- context [match tcp_connect ?a ?b ?c with _ => _ end] =>
                 destruct (tcp_connect a b c)
             end; cbn [negb]; intros E; try discriminate E;
      injection E as <- <- <-; split; try reflexivity; discriminate. }
  destruct (connect_unhealthy w (container_id c) st Hh) as (message & out1 & E & _).
  rewrite E in Hq |- *. cbn [fst snd] in Hq |- *.
  destruct (Hm _ _ _ E) as [Hm1 Hm2].
  split; [reflexivity|]. split.
  - exists message. split; [reflexivity|]. split; [exact Hm1|].
    rewrite (proj2 (String.eqb_neq _ _) Hm1).
    rewrite !error_boxes_app, Hm2. reflexivity.
  - constructor; [reflexivity|]. apply Forall_app. split; [exact Hq|].
    repeat constructor.
Qed.

(** X12.  The id the dialog of [container-integration.js] answers with is the
    id of the row whose button was clicked, or, when no row was listed and the
    user asked for it, the id of the container just started from an image that
    exists; the dialog leaves the store alone. *)
Theorem dialog_answers_with_a_listed_container w st containerId st' out :
  containerIntegration.showContainerSelectionDialog w st
    = (Return (Some containerId), st', out) ->
  st' = st /\
  ((exists c, running w !! box_response w = Some c /\ container_id c = containerId) \/
   (running w = [] /\ box_response w = 0 /\
    docker_run w "exo:latest" = Some containerId /\
    exists images, docker_images w "exo:latest" = Some images /\ images <> "")).
Proof.
  unfold running.
  unfold containerIntegration.showContainerSelectionDialog, containerIntegration.listContainers,
    containerIntegration.startContainer.
  assert (Hstart : forall s out0,
    (if Nat.eqb (box_response w) 0 then
       try_catch
         (containerId0 <-
            try_catch
              (match docker_images w "exo:latest" with
               | Some images =>
                   if String.eqb images "" then throw ("Image " +:+ "exo:latest" +:+ " not found")
                   else match docker_run w "exo:latest" with
                        | Some containerId1 => ret containerId1
                        | None => throw "Command failed"
                        end
               | None => throw "Command failed"
               end)
              (fun message =>
                 console_error "Error starting container:" [ArgMessage message] ;;
                 throw message) ;;
          ret (Some containerId0))
         (fun message =>
            emit (ShowErrorBox "Error" ("Failed to start container: " +:+ message)) ;;
            ret None)
     else ret None) s = (Return (Some containerId), st', out0) ->
    st' = s /\ box_response w = 0 /\ docker_run w "exo:latest" = Some containerId /\
    exists images, docker_images w "exo:latest" = Some images /\ images <> "").
  { intros s out0.
    destruct (Nat.eqb_spec (box_response w) 0) as [H0|_]; [|discriminate].
    destruct (docker_images w "exo:latest") as [images|]; [|discriminate].
    js_unfold.
    destruct (String.eqb_spec images "") as [|Hi]; [discriminate|].
    destruct (docker_run w "exo:latest") as [cid|]; [|discriminate].
    intros E. injection E as <- <- <-. repeat split; eauto. }
  destruct (docker_ps w) as [rows|];
    [change (default [] (Some rows)) with rows
    |change (default [] None) with (@nil container)].
  - unfold bind at 1. unfold ret at 1.
    destruct rows as [|r rows'].
    + cbn [length Nat.eqb]. unfold bind at 1. unfold emit at 1.
      destruct (_ st) as [[r0 s0] o0] eqn:E0. intros E. injection E as -> -> <-.
      apply Hstart in E0 as (-> & ? & ? & ?). split; [reflexivity|]. right. eauto.
    + cbn [length Nat.eqb]. unfold bind, emit, ret. rewrite length_map.
      destruct (Nat.ltb (box_response w) (length (r :: rows'))); [|discriminate].
      rewrite list_lookup_fmap.
      destruct ((r :: rows') !! box_response w) as [c|] eqn:Hc; [|discriminate].
      intros E. injection E as <- <- <-. split; [reflexivity|]. left. eauto.
  - unfold bind at 1. unfold bind at 1. unfold console_error, emit at 1. unfold ret at 1.
    cbn [length Nat.eqb]. unfold bind at 1. unfold emit at 1.
    destruct (_ st) as [[r0 s0] o0] eqn:E0. intros E. injection E as -> -> <-.
    apply Hstart in E0 as (-> & ? & ? & ?). split; [reflexivity|]. right. eauto.
Qed.


(** ** What [checkContainerConnection] shows *)

Lemma check_auto_observed w st :
  docker_version w = true ->
  reconnects_to_last w (containerConfig st) = true ->
  prompts (output (checkContainerConnection P w) st) = [] /\
  exists ip,
    docker_inspect w (default "" (lastContainer (containerConfig st))) = Some ip /\
    hand_overs (output (checkContainerConnection P w) st) =
      [hand_over (websocketUrl (resolved ip (containerConfig st)))].
Proof.
  intros Hd Hr.
  destruct (check_auto w st Hd Hr) as (ip & out0 & Hi & _ & Hp0 & Hh0 & Ec).
  pose proof (connect_observed w (default "" (lastContainer (containerConfig st))) st)
    as (Hp1 & Hh1 & _).
  match type of Ec with
  | _ = _ ++ _ ++ output (connectToContainerWebSocket P ?u) ?s =>
      destruct (connect_ws_run u s) as (b & st2 & out2 & E2 & Hp2 & Hh2 & _);
      assert (Ho2 : output (connectToContainerWebSocket P u) s = out2)
        by (unfold output; rewrite E2; reflexivity)
  end.
  rewrite Ho2 in Ec. rewrite Ec.
  rewrite !prompts_app, !hand_overs_app, Hp0, Hp1, Hp2, Hh0, Hh1, Hh2.
  split; [reflexivity|]. exists ip. auto.
Qed.

Lemma check_manual_observed w st :
  docker_version w = true ->
  reconnects_to_last w (containerConfig st) = false ->
  prompts (output (checkContainerConnection P w) st) = box_title (selection_box w).
Proof.
  intros Hd Hr.
  destruct (check_manual w st Hd Hr) as (out0 & Hp0 & _ & Ec).
  destruct (select_prompts w st) as (Hp & Hin).
  by rewrite Ec, prompts_app, Hp0, Hp.
Qed.

(** ** The rows of [docker ps] *)

Lemma String_split_free sep s : free_of sep s = true -> String_split sep s = [s].
Proof.
  induction s as [|c s IH]; simpl; [reflexivity|].
  intros [H1 H2]%andb_prop. apply negb_true_iff in H1. by rewrite H1, (IH H2).
Qed.

Lemma String_split_sep sep a b :
  free_of sep a = true ->
  String_split sep (a +:+ String sep b) = a :: String_split sep b.
Proof.
  induction a as [|c a IH]; simpl.
  - by rewrite Ascii.eqb_refl.
  - intros [H1 H2]%andb_prop. apply negb_true_iff in H1. by rewrite H1, (IH H2).
Qed.

Lemma free_of_app sep a b : free_of sep (a +:+ b) = free_of sep a && free_of sep b.
Proof. induction a as [|c a IH]; simpl; [reflexivity|]. by rewrite IH, andb_assoc. Qed.

Lemma ps_line_eq c :
  ps_line c =
  container_id c +:+ String "|" (container_name c +:+ String "|"
    (container_image c +:+ String "|" (container_status c))).
Proof. reflexivity. Qed.

Lemma container_of_ps_line c : printable c = true -> container_of_line (ps_line c) = c.
Proof.
  unfold printable. intros H.
  repeat (apply andb_prop in H as [H ?]).
  unfold container_of_line. rewrite ps_line_eq.
  rewrite !String_split_sep, String_split_free by assumption.
  destruct c; reflexivity.
Qed.

Lemma ps_line_one_line c : printable c = true -> free_of newline (ps_line c) = true.
Proof.
  unfold printable. intros H.
  repeat (apply andb_prop in H as [H ?]).
  rewrite ps_line_eq.
  assert (Hbar : forall s, free_of newline (String "|" s) = free_of newline s)
    by reflexivity.
  repeat first [rewrite free_of_app | rewrite Hbar].
  repeat (apply andb_true_intro; split); assumption.
Qed.

Lemma ps_lines_split rows :
  rows <> [] ->
  Forall (fun c => printable c = true) rows ->
  String_split newline (ps_lines rows) = map ps_line rows.
Proof.
  induction rows as [|c rows IH]; [done|]. intros _ Hp.
  apply Forall_cons in Hp as [Hc Hp].
  destruct rows as [|c' rows'].
  - simpl. by rewrite String_split_free by by apply ps_line_one_line.
  - change (ps_lines (c :: c' :: rows'))
      with (ps_line c +:+ String newline (ps_lines (c' :: rows'))).
    rewrite String_split_sep by by apply ps_line_one_line.
    rewrite IH by done. reflexivity.
Qed.

(** X13.  [listContainers] reads back what it asked [docker ps] to print: when
    the trimmed output is the rows in the format of the command, one per line,
    and no field holds a [|] or a line break, it returns those rows, in order. *)
Theorem printed_rows_are_read_back String_trim printed rows :
  rows <> [] ->
  Forall (fun c => printable c = true) rows ->
  String_trim printed = ps_lines rows ->
  containers_of String_trim printed = rows.
Proof.
  intros Hne Hp Ht. unfold containers_of. rewrite Ht, ps_lines_split by assumption.
  rewrite map_map. clear Hne Ht.
  induction Hp as [|c rows Hc Hp IH]; [reflexivity|].
  simpl. by rewrite container_of_ps_line, IH.
Qed.

(** X14.  When [docker ps] runs, [listContainers] never comes back with no
    rows, whatever was printed: the box that offers to start a container is
    not shown. With nothing running the one row has an empty id and no name;
    the selection box then offers it, and whichever button is clicked nothing
    follows. *)
Theorem docker_ps_output_is_never_no_rows w String_trim printed st :
  docker_ps w = Some (containers_of String_trim printed) ->
  prompts (output (containerIntegration.showContainerSelectionDialog w) st)
    = ["Select Container"] /\
  (String_trim printed = "" ->
   running w = [mkContainer "" "undefined" "undefined" "undefined"] /\
   exec (showContainerSelectionDialog P w) st = st /\
   output (showContainerSelectionDialog P w) st
     = [ShowMessageBox "Select Container" ["undefined (undefined)"; "Cancel"]]).
Proof.
  intros Hps.
  assert (Hne : containers_of String_trim printed <> []).
  { unfold containers_of. intros H%map_eq_nil. by apply String_split_nonempty in H. }
  split.
  - destruct (dialog_run w st) as (r & out & E & Hp & _).
    unfold output. rewrite E. cbn [snd]. rewrite Hp.
    unfold selection_box, running. rewrite Hps. cbn [default].
    destruct (containers_of String_trim printed); [done|reflexivity].
  - intros Hb.
    assert (Hr : running w = [mkContainer "" "undefined" "undefined" "undefined"]).
    { unfold running. rewrite Hps. unfold containers_of. rewrite Hb. reflexivity. }
    split; [exact Hr|].
    destruct (select_run w st) as (r & out0 & Hd & _ & _ & _ & Hm).
    assert (Hd' : containerIntegration.showContainerSelectionDialog w st =
                  (Return (if Nat.eqb (box_response w) 0 then Some "" else None), st,
                   [ShowMessageBox "Select Container" ["undefined (undefined)"; "Cancel"]])).
    { unfold containerIntegration.showContainerSelectionDialog,
        containerIntegration.listContainers.
      fold (running w) in Hr. unfold running in Hr.
      destruct (docker_ps w) as [rows|]; [|discriminate].
      change (default [] (Some rows)) with rows in Hr. subst rows.
      destruct (box_response w) as [|[|k]]; reflexivity. }
    rewrite Hd' in Hd. injection Hd as <- <-.
    unfold exec, output. rewrite Hm.
    destruct (Nat.eqb (box_response w) 0); split; reflexivity.
Qed.

(** ** Settings and the next start *)



(** X16.  A container selected while the configuration file can be written is
    the one the next run of the application connects to by itself, as long as
    it is still running and healthy: the file [connectToContainer] saved is
    what [loadConfig] starts from. *)
Theorem selected_container_is_reconnected_next_run w w' st containerId :
  healthy w (containerConfig st) containerId = true ->
  containerId <> "" ->
  autoConnect (containerConfig st) = true ->
  fs_writable w = true ->
  let st1 := exec (containerIntegration.connectToContainer w containerId) st in
  let next := Startup.start (configFile st1) in
  docker_version w' = true ->
  In containerId (running_ids w') ->
  healthy w' (containerConfig next) containerId = true ->
  lastContainer (containerConfig next) = Some containerId /\
  prompts (output (checkContainerConnection P w') next) = [] /\
  exists ip,
    docker_inspect w' containerId = Some ip /\
    hand_overs (output (checkContainerConnection P w') next)
      = [hand_over (websocketUrl (resolved ip (containerConfig next)))].
Proof.
  intros Hh Hne Ha Hw st1 next Hd Hin Hh'.
  destruct (connect_healthy w containerId st Hh) as (ip & Hi & _ & E).
  cbv zeta in E.
  assert (Hf : configFile st1 = Some (selected ip containerId (containerConfig st))).
  { subst st1. unfold exec. rewrite E. cbn [fst snd]. unfold exec.
    rewrite saveConfig_run, Hw. reflexivity. }
  assert (Hn : containerConfig next = selected ip containerId (containerConfig st)).
  { subst next. by rewrite Hf. }
  assert (Hl : lastContainer (containerConfig next) = Some containerId) by by rewrite Hn.
  clearbody next st1.
  split; [exact Hl|].
  assert (Hr : reconnects_to_last w' (containerConfig next) = true).
  { unfold reconnects_to_last. rewrite Hl.
    change (default "" (Some containerId)) with containerId. cbn [truthy].
    rewrite Hh'. rewrite Hn at 1. cbn [autoConnect selected]. rewrite Ha.
    apply String.eqb_neq in Hne. rewrite Hne. cbn [negb andb]. rewrite andb_true_r.
    apply existsb_exists. unfold running_ids in Hin.
    apply in_map_iff in Hin as (c & Hc & Hin). exists c. split; [exact Hin|].
    by apply String.eqb_eq. }
  destruct (check_auto_observed w' next Hd Hr) as (Hp & ip' & Hi' & Hho).
  rewrite Hl in Hi'. change (default "" (Some containerId)) with containerId in Hi'.
  split; [exact Hp|]. exists ip'. split; [exact Hi'|exact Hho].
Qed.

(** X17.  A container selected while the configuration file cannot be written,
    and no file was there before, is forgotten: the next run starts from
    [DEFAULT_CONFIG] and asks the user. *)
Theorem unsaved_selection_is_forgotten_next_run w w' st containerId :
  fs_writable w = false ->
  configFile st = None ->
  let st1 := exec (containerIntegration.connectToContainer w containerId) st in
  let next := Startup.start (configFile st1) in
  docker_version w' = true ->
  containerConfig next = DEFAULT_CONFIG /\
  prompts (output (checkContainerConnection P w') next) = box_title (selection_box w').
Proof.
  intros Hw Hf st1 next Hd.
  assert (Hf1 : configFile st1 = None).
  { subst st1.
    destruct (healthy w (containerConfig st) containerId) eqn:Hh.
    - destruct (connect_healthy w containerId st Hh) as (ip & Hi & _ & E).
      cbv zeta in E. unfold exec. rewrite E. cbn [fst snd]. unfold exec.
      rewrite saveConfig_run, Hw. exact Hf.
    - destruct (connect_unhealthy w containerId st Hh) as (m & out & E & _).
      unfold exec. rewrite E. exact Hf. }
  assert (Hn : containerConfig next = DEFAULT_CONFIG) by (subst next; by rewrite Hf1).
  clearbody next st1.
  split; [exact Hn|].
  apply check_manual_observed; [exact Hd|].
  unfold reconnects_to_last. rewrite Hn. reflexivity.
Qed.

(** ** Frames from the backend *)

(** X18.  The frames an open socket delivers reach the renderer decoded and in
    the order they came, the malformed ones left out, and leave the store as
    it was; the socket need not be the client the process holds. *)
Theorem inbound_frames_are_relayed_in_order st i frames :
  readyState_of i st = OPEN ->
  mainWindow st = true ->
  exists out,
    run P (map (SocketMessage i) frames) st = Some (st, out) /\
    relayed out = omap (JSON_parse P) frames.
Proof.
  intros Ho Hw. induction frames as [|frame frames (out & IH & Hr)].
  - exists []. split; reflexivity.
  - eexists. split.
    + eapply run_step; [|exact IH].
      cbn [step]. rewrite Ho, bool_decide_eq_true_2 by reflexivity.
      unfold handle. rewrite on_message_exec. reflexivity.
    + rewrite relayed_app, Hr. cbn [omap list_omap].
      unfold on_message. js_unfold.
      destruct (JSON_parse P frame); cbv beta; rewrite ?Hw; reflexivity.
Qed.


(** ** What the renderer is told *)

Lemma no_renderer_no_status out :
  Forall (fun e => is_renderer_send e = false) out -> status_events out = [].
Proof.
  induction 1 as [|e out He _ IH]; [reflexivity|].
  unfold status_events in *. cbn [omap list_omap]. rewrite IH.
  destruct e; try discriminate He; reflexivity.
Qed.

Lemma status_events_app out1 out2 :
  status_events (out1 ++ out2) = status_events out1 ++ status_events out2.
Proof. apply omap_app. Qed.

Lemma through_connect_no_status m st :
  through_connect P m -> status_events (output m st) = [].
Proof.
  intros H. destruct (H st) as (pre & Hq & [[_ ->]|(url & st1 & _ & _ & ->)]).
  - apply no_renderer_no_status, (quiet_observed _ Hq).
  - rewrite status_events_app.
    rewrite (no_renderer_no_status pre) by apply (quiet_observed _ Hq).
    apply no_renderer_no_status, connect_no_renderer.
Qed.

(** X19.  The renderer hears of the connection from the [open] and [close]
    events of sockets and from nothing else: no other turn of the event loop
    sends a [connection-status] message, so a session that is closed from this
    side is reported down only once its socket has closed. *)
Theorem renderer_hears_only_of_opens_and_closes ev st st' out :
  step P ev st = Some (st', out) ->
  status_events out =
    match ev with
    | SocketOpen _ => if mainWindow st then [connection_status true] else []
    | SocketClose _ => if mainWindow st then [connection_status false] else []
    | _ => []
    end.
Proof.
  intros H. destruct ev; step_cases H.
  - change (output on_open ?s) with (snd (handle on_open s)).
    rewrite on_open_handle. cbn [snd]. unfold status_out.
    rewrite set_readyState_window. destruct (mainWindow st); reflexivity.
  - unfold on_message. js_unfold.
    destruct (JSON_parse P frame); cbv beta; [destruct (mainWindow st)|]; reflexivity.
  - reflexivity.
  - change (output (on_close ?u) ?s) with (snd (handle (on_close u) s)).
    rewrite on_close_handle. unfold status_out. rewrite set_readyState_window.
    destruct (Nat.ltb _ _), (mainWindow st); reflexivity.
  - apply no_renderer_no_status, connect_no_renderer.
  - apply no_renderer_no_status, to_backend_no_renderer.
  - apply through_connect_no_status, select_through_connect.
  - apply through_connect_no_status, check_through_connect.
  - apply no_renderer_no_status.
    assert (Hn : never is_renderer_send window_closed) by (unfold window_closed; never_tac).
    apply Hn.
  - apply no_renderer_no_status.
    assert (Hn : never is_renderer_send before_quit) by (unfold before_quit; never_tac).
    apply Hn.
Qed.

(** ** Switching to another address *)

(** X20.  The new address does not last. While a session is up, connecting to
    another address closes the old socket and opens a new one; the [close]
    event of the old socket then runs the handler that was attached to it,
    which reports the connection down and registers a timer for the old
    address; and when that timer comes due the new session is closed in turn
    and a socket to the old address is constructed. *)
Theorem switching_is_undone_by_the_old_socket st i url url' :
  Connected P st i url ->
  ws_accepts P url' = true ->
  let j := length (sockets st) in
  let st0 := exec (connectToContainerWebSocket P url') st in
  closed_by_us (output (connectToContainerWebSocket P url') st) = [i] /\
  constructed (output (connectToContainerWebSocket P url') st) = [url'] /\
  exists st' out,
    run P [SocketOpen j; SocketClose i; TimerFires 0] st0 = Some (st', out) /\
    status_events out =
      (if mainWindow st then [connection_status true; connection_status false] else []) /\
    closed_by_us out = [j] /\
    constructed out = [url] /\
    wsClient st' = Some (S j) /\
    sockets st' !! S j = Some (mkWebSocket url CONNECTING) /\
    readyState_of j st' = CLOSING.
Proof.
  intros [Hc Hs Ho Ha Ht Hu] Hu' j st0. subst j st0.
  destruct st as [mw socks c cfg ic n tms cf].
  cbn [wsClient sockets reconnectAttempts timers mainWindow] in *. subst c n tms.
  assert (Hlt : i < length socks) by (eapply lookup_lt_Some; eauto).
  assert (Hne : i <> length socks) by lia.
  unfold exec, output.
  rewrite connect_exec, Hu'.
  assert (Hopen : forall a b c d e,
             open_client (mkStore a socks (Some i) b c d e cf) = Some i).
  { intros. unfold open_client, readyState_of. cbn [wsClient sockets]. by rewrite Hs. }
  rewrite Hopen. cbn [fst snd].
  split; [reflexivity|]. split; [reflexivity|].
  unfold set_readyState at 1 2. cbn [sockets]. rewrite Hs.
  cbn [set_wsClient set_sockets set_isConnected mainWindow sockets wsClient
       containerConfig isConnected reconnectAttempts timers configFile ws_url].
  set (socks0 := <[i := mkWebSocket url CLOSING]> socks ++ [mkWebSocket url' CONNECTING]).
  assert (Hl0 : length socks0 = S (length socks))
    by (subst socks0; rewrite length_app, length_insert; simpl; lia).
  assert (F1 : socks0 !! length socks = Some (mkWebSocket url' CONNECTING)).
  { subst socks0. rewrite lookup_app_r by (rewrite length_insert; lia).
    by rewrite length_insert, Nat.sub_diag. }
  set (socks1 := <[length socks := mkWebSocket url' OPEN]> socks0).
  assert (F2 : socks1 !! i = Some (mkWebSocket url CLOSING)).
  { subst socks1 socks0. rewrite list_lookup_insert_ne by lia.
    rewrite lookup_app_l by (rewrite length_insert; lia).
    by rewrite list_lookup_insert_eq. }
  set (socks2 := <[i := mkWebSocket url CLOSED]> socks1).
  assert (Hl2 : length socks2 = S (length socks))
    by (subst socks2 socks1; by rewrite !length_insert).
  assert (F3 : socks2 !! length socks = Some (mkWebSocket url' OPEN)).
  { subst socks2 socks1. rewrite list_lookup_insert_ne by lia.
    rewrite list_lookup_insert_eq by lia. reflexivity. }
  assert (H1 : step P (SocketOpen (length socks))
                 (mkStore mw socks0 (Some (length socks)) cfg false 0 [] cf)
               = Some (mkStore mw socks1 (Some (length socks)) cfg true 0 [] cf,
                       Console LOG "Connected to container WebSocket" []
                       :: (if mw then [WebContentsSend "connection-status"
                                         (connection_status true)] else []))).
  { cbn [step].
    assert (Hr : readyState_of (length socks)
                   (mkStore mw socks0 (Some (length socks)) cfg false 0 [] cf) = CONNECTING)
      by (unfold readyState_of; cbn [sockets]; by rewrite F1).
    rewrite bool_decide_eq_true_2 by exact Hr.
    rewrite on_open_handle. unfold set_readyState. cbn [sockets]. rewrite F1.
    reflexivity. }
  assert (H2 : step P (SocketClose i)
                 (mkStore mw socks1 (Some (length socks)) cfg true 0 [] cf)
               = Some (mkStore mw socks2 (Some (length socks)) cfg false 1
                         [mkTimer url RECONNECT_INTERVAL] cf,
                       Console LOG "WebSocket connection closed" []
                       :: (if mw then [WebContentsSend "connection-status"
                                         (connection_status false)] else [])
                       ++ [Console LOG ("Reconnecting (attempt " +:+ pretty 1 +:+ "/"
                                        +:+ pretty MAX_RECONNECT_ATTEMPTS +:+ ")...") [];
                           SetTimeout url RECONNECT_INTERVAL])).
  { cbn [step sockets]. rewrite F2. cbn [ws_readyState ws_url].
    rewrite bool_decide_eq_false_2 by discriminate.
    rewrite on_close_handle. unfold set_readyState. cbn [sockets]. rewrite F2.
    reflexivity. }
  assert (H3 : exists out3,
             step P (TimerFires 0)
               (mkStore mw socks2 (Some (length socks)) cfg false 1
                  [mkTimer url RECONNECT_INTERVAL] cf)
             = Some (mkStore mw (<[length socks := mkWebSocket url' CLOSING]> socks2
                                 ++ [mkWebSocket url CONNECTING])
                       (Some (S (length socks))) cfg false 1 [] cf,
                     out3) /\
             closed_by_us out3 = [length socks] /\ constructed out3 = [url] /\
             status_events out3 = []).
  { cbn [step timers]. cbn [lookup list_lookup timer_url delete list_delete].
    unfold handle, exec, output. rewrite connect_exec, Hu.
    assert (Hopen2 : open_client
                       (set_timers []
                          (mkStore mw socks2 (Some (length socks)) cfg false 1
                             [mkTimer url RECONNECT_INTERVAL] cf)) = Some (length socks)).
    { unfold open_client, readyState_of. cbn [wsClient sockets set_timers]. by rewrite F3. }
    rewrite Hopen2. cbn [fst snd].
    unfold set_readyState. cbn [sockets set_timers]. rewrite F3.
    cbn [set_wsClient set_sockets set_isConnected set_timers mainWindow sockets wsClient
         containerConfig isConnected reconnectAttempts timers configFile ws_url].
    rewrite Hl2. eexists. split; [reflexivity|]. repeat split. }
  destruct H3 as (out3 & H3 & Hc3 & Hn3 & Hs3).
  eexists _, _. split.
  { eapply run_step; [exact H1|]. eapply run_step; [exact H2|].
    eapply run_step; [exact H3|reflexivity]. }
  rewrite app_nil_r.
  rewrite !status_events_app, !closed_by_us_app, !constructed_app, Hc3, Hn3, Hs3.
  split; [destruct mw; reflexivity|].
  split; [destruct mw; reflexivity|].
  split; [destruct mw; reflexivity|].
  split; [reflexivity|].
  split.
  - cbn [sockets]. rewrite lookup_app_r by (rewrite length_insert; lia).
    by rewrite length_insert, Hl2, Nat.sub_diag.
  - unfold readyState_of. cbn [sockets].
    rewrite lookup_app_l by (rewrite length_insert; lia).
    by rewrite list_lookup_insert_eq by lia.
Qed.

(** ** One connection per discovery *)

Lemma connect_counts url st :
  let out := output (connectToContainerWebSocket P url) st in
  length (constructed out) <= 1 /\
  length (closed_by_us out) <= 1 /\
  scheduled_delays out = [] /\
  delivered out = [].
Proof.
  cbv zeta. unfold output. rewrite connect_exec. cbv zeta.
  destruct (ws_accepts P url), (open_client st) as [k|]; cbn [fst snd app];
    (split; [simpl; lia|]); (split; [simpl; lia|]); split; reflexivity.
Qed.

Lemma through_connect_counts m st :
  through_connect P m ->
  let out := output m st in
  length (constructed out) <= 1 /\
  length (closed_by_us out) <= 1 /\
  scheduled_delays out = [] /\
  delivered out = [] /\
  status_events out = [].
Proof.
  intros H. cbv zeta.
  assert (Hpre : forall pre,
             Forall (fun e => is_session_effect e = false) pre ->
             constructed pre = [] /\ closed_by_us pre = [] /\
             scheduled_delays pre = [] /\ delivered pre = []).
  { induction 1 as [|e pre He _ (I1 & I2 & I3 & I4)]; [repeat split|].
    unfold constructed, closed_by_us, scheduled_delays, delivered in *.
    cbn [omap list_omap]. rewrite I1, I2, I3, I4.
    destruct e; try discriminate He; repeat split. }
  split; [|split; [|split; [|split; [|by apply through_connect_no_status]]]];
    destruct (H st) as (pre & Hq & [[_ ->]|(url & st1 & _ & _ & ->)]);
    destruct (Hpre pre Hq) as (H1 & H2 & H3 & H4);
    rewrite ?constructed_app, ?closed_by_us_app, ?scheduled_delays_app, ?delivered_app,
      ?H1, ?H2, ?H3, ?H4; cbn [app length]; try lia; try reflexivity;
    apply (connect_counts url st1).
Qed.

(** X21.  Discovery connects at most once.  Whether it was started by
    [ready-to-show] or from the selection dialog, whatever Docker, the network
    and the user answer, it constructs at most one socket and calls [close()]
    on at most one, registers no timer, sends no frame and tells the renderer
    nothing. *)
Theorem discovery_connects_at_most_once w st :
  (let out := output (checkContainerConnection P w) st in
   length (constructed out) <= 1 /\ length (closed_by_us out) <= 1 /\
   scheduled_delays out = [] /\ delivered out = [] /\ status_events out = []) /\
  (let out := output (showContainerSelectionDialog P w) st in
   length (constructed out) <= 1 /\ length (closed_by_us out) <= 1 /\
   scheduled_delays out = [] /\ delivered out = [] /\ status_events out = []).
Proof.
  split.
  - apply through_connect_counts, check_through_connect.
  - apply through_connect_counts, select_through_connect.
Qed.

(** ** Frames and the page *)

(** X22.  No frame makes a socket's [message] handler throw: in the main
    process and in the web client the handler completes normally on every
    frame, malformed or not, and in the web client also when the page's
    [handleMessage] throws, what that had done before staying done.  The
    Socket.IO handler of the web client has no such guard: it completes as
    [handleMessage] does, so it throws exactly when that throws. *)
Theorem frame_handlers_never_throw frame :
  (forall st, outcome (on_message P frame) st = Return tt) /\
  (forall (handleMessage : json -> JS Web.state unit) st,
     outcome (Web.onmessage P handleMessage frame) st = Return tt /\
     forall decoded,
       JSON_parse P frame = Some decoded ->
       exec (Web.onmessage P handleMessage frame) st = exec (handleMessage decoded) st /\
       forall message,
         outcome (handleMessage decoded) st = Throw message ->
         output (Web.onmessage P handleMessage frame) st =
           Console LOG "Received message from WebSocket:" [ArgMessage frame]
           :: output (handleMessage decoded) st
           ++ [Console ERROR "Error parsing WebSocket message:" [ArgError message]]) /\
  (forall (handleMessage : json -> JS Web.state unit) data st,
     outcome (WebEvents.on_message handleMessage data) st
       = outcome (handleMessage data) st /\
     exec (WebEvents.on_message handleMessage data) st = exec (handleMessage data) st).
Proof.
  split; [|split].
  - intros st. unfold on_message. js_unfold.
    destruct (JSON_parse P frame); cbv beta; [destruct (mainWindow st)|]; reflexivity.
  - intros handleMessage st.
    unfold Web.onmessage. js_unfold.
    destruct (JSON_parse P frame) as [decoded|]; cbv beta.
    + destruct (handleMessage decoded st) as [[[[]|m] s1] o1] eqn:E; cbn [fst snd].
      * split; [reflexivity|]. intros d Hd. injection Hd as <-. rewrite E. cbn [fst snd].
        split; [reflexivity|]. intros message Hm. discriminate Hm.
      * split; [reflexivity|]. intros d Hd. injection Hd as <-. rewrite E. cbn [fst snd].
        split; [reflexivity|]. intros message Hm. injection Hm as <-. reflexivity.
    + split; [reflexivity|]. intros d Hd. discriminate Hd.
  - intros handleMessage data st. unfold WebEvents.on_message. js_unfold.
    destruct (handleMessage data st) as [[[[]|m] s1] o1]; split; reflexivity.
Qed.

(** ** Nothing multiplies *)

Lemma live_insert socks i s s' :
  socks !! i = Some s ->
  live (<[i := s']> socks) + (if is_live s then 1 else 0)
  = live socks + (if is_live s' then 1 else 0).
Proof.
  intros Hs. assert (Hlt : i < length socks) by (eapply lookup_lt_Some; eauto).
  rewrite insert_take_drop by exact Hlt.
  rewrite <- (take_drop_middle socks i s Hs) at 3.
  unfold live. rewrite !List.filter_app, !length_app. cbn [List.filter].
  destruct (is_live s), (is_live s'); cbn [length]; lia.
Qed.

Lemma live_set_same i r st :
  r <> CLOSED ->
  readyState_of i st <> CLOSED ->
  live (sockets (set_readyState i r st)) = live (sockets st).
Proof.
  unfold readyState_of, set_readyState. intros Hr Hs.
  destruct (sockets st !! i) as [s|] eqn:E; [|reflexivity]. cbn [sockets set_sockets].
  pose proof (live_insert _ _ _ (mkWebSocket (ws_url s) r) E) as H.
  unfold is_live in H. cbn [ws_readyState] in H.
  rewrite !bool_decide_eq_false_2 in H by assumption. cbn [negb] in H. lia.
Qed.

Lemma live_set_closed i st s :
  sockets st !! i = Some s ->
  ws_readyState s <> CLOSED ->
  live (sockets (set_readyState i CLOSED st)) + 1 = live (sockets st).
Proof.
  unfold set_readyState. intros E Hs. rewrite E. cbn [sockets set_sockets].
  pose proof (live_insert _ _ _ (mkWebSocket (ws_url s) CLOSED) E) as H.
  unfold is_live in H. cbn [ws_readyState] in H.
  rewrite bool_decide_eq_false_2 in H by assumption.
  rewrite bool_decide_eq_true_2 in H by reflexivity. cbn [negb] in H. lia.
Qed.

Lemma live_new socks url :
  live (socks ++ [mkWebSocket url CONNECTING]) = live socks + 1.
Proof. unfold live. rewrite List.filter_app, length_app. reflexivity. Qed.

Lemma open_client_open st i : open_client st = Some i -> readyState_of i st = OPEN.
Proof.
  unfold open_client. destruct (wsClient st) as [j|]; [|discriminate].
  destruct (bool_decide (readyState_of j st = OPEN)) eqn:E; [|discriminate].
  intros H. injection H as <-. by apply bool_decide_eq_true in E.
Qed.

Lemma step_pending ev st st' out :
  automatic ev = true ->
  step P ev st = Some (st', out) ->
  pending st' <= pending st.
Proof.
  intros Ha H. unfold pending. destruct ev; try discriminate Ha; cbn [step] in H.
  - destruct (bool_decide (readyState_of i st = CONNECTING)) eqn:Hr; [|discriminate H].
    apply bool_decide_eq_true in Hr. rewrite on_open_handle in H. injection H as <- _.
    cbn [sockets timers set_reconnectAttempts set_isConnected].
    rewrite set_readyState_timers, live_set_same; [lia|discriminate|by rewrite Hr].
  - destruct (bool_decide _); [|discriminate H]. injection H as <- _.
    rewrite on_message_exec. lia.
  - destruct (bool_decide _); [discriminate H|]. injection H as <- _.
    cbn. lia.
  - destruct (sockets st !! i) as [s|] eqn:Es; [|discriminate H].
    destruct (bool_decide (ws_readyState s = CLOSED)) eqn:Hr; [discriminate H|].
    apply bool_decide_eq_false in Hr. rewrite on_close_handle in H.
    pose proof (live_set_closed i st s Es Hr) as Hl.
    destruct (Nat.ltb _ _); injection H as <- _;
      cbn [sockets timers set_timers set_reconnectAttempts set_isConnected];
      rewrite ?length_app, set_readyState_timers; cbn [length]; lia.
  - destruct (timers st !! k) as [t|] eqn:Et; [|discriminate H].
    injection H as <- _. unfold exec. rewrite connect_exec. cbv zeta.
    assert (Hd : S (length (delete k (timers st))) = length (timers st)).
    { rewrite length_delete by eauto.
      apply lookup_lt_Some in Et. lia. }
    assert (Ho : open_client (set_timers (delete k (timers st)) st) = open_client st)
      by reflexivity.
    rewrite Ho.
    assert (Hl : live (sockets match open_client st with
                                | Some i => set_readyState i CLOSING
                                              (set_timers (delete k (timers st)) st)
                                | None => set_timers (delete k (timers st)) st
                                end) = live (sockets st)).
    { destruct (open_client st) as [i|] eqn:Hoc; [|reflexivity].
      rewrite live_set_same; [reflexivity|discriminate|].
      change (readyState_of i (set_timers (delete k (timers st)) st))
        with (readyState_of i st).
      by rewrite (open_client_open _ _ Hoc). }
    assert (Ht : timers match open_client st with
                        | Some i => set_readyState i CLOSING
                                      (set_timers (delete k (timers st)) st)
                        | None => set_timers (delete k (timers st)) st
                        end = delete k (timers st)).
    { destruct (open_client st) as [i|]; [|reflexivity].
      by rewrite set_readyState_timers. }
    destruct (ws_accepts P (timer_url t)); cbn [fst snd];
      cbn [sockets timers set_wsClient set_sockets set_isConnected];
      rewrite ?live_new, Hl, Ht; lia.
Qed.

(** X23.  Left to itself the main process does not multiply what it has
    coming: over any sequence of socket and timer events the number of live
    sockets plus pending timers never grows.  A socket that closes is
    replaced by at most one timer, and a timer by at most one socket. *)
Theorem nothing_multiplies_by_itself evs :
  forall st st' out,
    Forall (fun ev => automatic ev = true) evs ->
    run P evs st = Some (st', out) ->
    pending st' <= pending st.
Proof.
  induction evs as [|ev evs IH]; intros st st' out Ha H; cbn [run] in H.
  - injection H as <- _. reflexivity.
  - apply Forall_cons in Ha as [Hev Ha].
    destruct (step P ev st) as [[st1 out1]|] eqn:E1; [|discriminate H].
    destruct (run P evs st1) as [[st2 out2]|] eqn:E2; [|discriminate H].
    injection H as <- _.
    pose proof (step_pending _ _ _ _ Hev E1). pose proof (IH _ _ _ Ha E2). lia.
Qed.

(** ** A variable nobody reads *)

Section Blind.

Lemma blind_ret {A} (a : A) : blind (ret a).
Proof. intros st1 st2 H. repeat split. exact H. Qed.

Lemma blind_throw {A} message : blind (A:=A) (throw message).
Proof. intros st1 st2 H. repeat split. exact H. Qed.

Lemma blind_emit e : blind (emit e).
Proof. intros st1 st2 H. repeat split. exact H. Qed.

Lemma blind_gets {A} (f : store -> A) :
  (forall st, f st = f (set_isConnected false st)) -> blind (gets f).
Proof.
  intros Hf st1 st2 H. unfold outcome, output, exec, gets. cbn [fst snd].
  split; [|split; [reflexivity|exact H]].
  f_equal. rewrite (Hf st1), (Hf st2). unfold same_but_isConnected in H. by rewrite H.
Qed.

Lemma blind_modify (g : store -> store) :
  (forall st, set_isConnected false (g st) = set_isConnected false (g (set_isConnected false st))) ->
  blind (modify g).
Proof.
  intros Hg st1 st2 H. unfold outcome, output, exec, modify. cbn [fst snd].
  split; [reflexivity|]. split; [reflexivity|].
  unfold same_but_isConnected in *. by rewrite (Hg st1), (Hg st2), H.
Qed.

Lemma blind_bind {A B} (m : M A) (k : A -> M B) :
  blind m -> (forall a, blind (k a)) -> blind (bind m k).
Proof.
  intros Hm Hk st1 st2 H. destruct (Hm st1 st2 H) as (Hr & Ho & Hs).
  unfold outcome, output, exec, bind in *.
  destruct (m st1) as [[[a1|m1] s1] o1], (m st2) as [[[a2|m2] s2] o2];
    cbn [fst snd] in *; try discriminate Hr; subst o2.
  - injection Hr as <-. destruct (Hk a1 s1 s2 Hs) as (Hr' & Ho' & Hs').
    unfold outcome, output, exec in *.
    destruct (k a1 s1) as [[r1 t1] p1], (k a1 s2) as [[r2 t2] p2].
    cbn [fst snd] in *. subst. repeat split. exact Hs'.
  - injection Hr as <-. repeat split. exact Hs.
Qed.

Lemma blind_try_catch {A} (body : M A) handler :
  blind body -> (forall msg, blind (handler msg)) -> blind (try_catch body handler).
Proof.
  intros Hm Hk st1 st2 H. destruct (Hm st1 st2 H) as (Hr & Ho & Hs).
  unfold outcome, output, exec, try_catch in *.
  destruct (body st1) as [[[a1|m1] s1] o1], (body st2) as [[[a2|m2] s2] o2];
    cbn [fst snd] in *; try discriminate Hr; subst o2.
  - injection Hr as <-. repeat split. exact Hs.
  - injection Hr as <-. destruct (Hk m1 s1 s2 Hs) as (Hr' & Ho' & Hs').
    unfold outcome, output, exec in *.
    destruct (handler m1 s1) as [[r1 t1] p1], (handler m1 s2) as [[r2 t2] p2].
    cbn [fst snd] in *. subst. repeat split. exact Hs'.
Qed.

Lemma blind_when b (m : M unit) : blind m -> blind (when b m).
Proof. intros H. destruct b; [exact H|apply blind_ret]. Qed.

Lemma set_readyState_blind i r st :
  set_isConnected false (set_readyState i r st)
  = set_isConnected false (set_readyState i r (set_isConnected false st)).
Proof.
  unfold set_readyState. cbn [sockets set_isConnected].
  destruct (sockets st !! i); reflexivity.
Qed.

Lemma readyState_of_blind i st : readyState_of i st = readyState_of i (set_isConnected false st).
Proof. reflexivity. Qed.

Lemma open_client_blind st : open_client st = open_client (set_isConnected false st).
Proof. reflexivity. Qed.

Ltac blind_step :=
  first
    [ apply blind_ret | apply blind_throw | apply blind_emit
    | apply blind_gets; intros ?; reflexivity
    | apply blind_modify; intros ?; first [reflexivity | apply set_readyState_blind]
    | apply blind_when
    | apply blind_bind; [|intros ?]
    | apply blind_try_catch; [|intros ?]
    | match goal with
      | |- blind (if ?b then _ else _) => destruct b
      | |- blind (match ?x with _ => _ end) => destruct x
      end ].

Ltac blind_tac :=
  repeat (first [blind_step | progress never_unfold
                | progress unfold to_backend, on_close]).

Lemma on_open_blind : blind on_open.
Proof. blind_tac. Qed.

Lemma on_message_blind frame : blind (on_message P frame).
Proof. blind_tac. Qed.

Lemma on_error_blind message : blind (on_error message).
Proof. blind_tac. Qed.

Lemma on_close_blind url : blind (on_close url).
Proof. blind_tac. Qed.

Lemma connect_blind url : blind (connectToContainerWebSocket P url).
Proof. blind_tac. Qed.

Lemma to_backend_blind data : blind (to_backend P data).
Proof. blind_tac. Qed.

Lemma select_blind w : blind (showContainerSelectionDialog P w).
Proof. blind_tac. Qed.

Lemma check_blind w : blind (checkContainerConnection P w).
Proof. blind_tac. Qed.

Lemma window_closed_blind : blind window_closed.
Proof. blind_tac. Qed.

Lemma before_quit_blind : blind before_quit.
Proof. blind_tac. Qed.

Lemma handle_blind {A} (m : M A) st1 st2 :
  blind m -> same_but_isConnected st1 st2 ->
  alike (Some (handle m st1)) (Some (handle m st2)).
Proof.
  intros Hm H. destruct (Hm st1 st2 H) as (_ & Ho & Hs).
  unfold alike, handle. split; [exact Ho|exact Hs].
Qed.

Lemma step_blind ev st1 st2 :
  same_but_isConnected st1 st2 -> alike (step P ev st1) (step P ev st2).
Proof.
  intros H.
  assert (Hsock : sockets st1 = sockets st2)
    by exact (f_equal sockets H).
  assert (Htim : timers st1 = timers st2)
    by exact (f_equal timers H).
  assert (Hrs : forall i, readyState_of i st1 = readyState_of i st2)
    by (intros i; unfold readyState_of; by rewrite Hsock).
  assert (Hset : forall i r, same_but_isConnected (set_readyState i r st1)
                                                  (set_readyState i r st2)).
  { intros i r. unfold same_but_isConnected in *.
    by rewrite (set_readyState_blind i r st1), (set_readyState_blind i r st2), H. }
  destruct ev; cbn [step].
  - rewrite (Hrs i). destruct (bool_decide _); [|exact I].
    apply handle_blind; [apply on_open_blind|apply Hset].
  - rewrite (Hrs i). destruct (bool_decide _); [|exact I].
    apply handle_blind; [apply on_message_blind|exact H].
  - rewrite (Hrs i). destruct (bool_decide _); [exact I|].
    apply handle_blind; [apply on_error_blind|exact H].
  - rewrite Hsock. destruct (sockets st2 !! i) as [s|]; [|exact I].
    destruct (bool_decide _); [exact I|].
    apply handle_blind; [apply on_close_blind|apply Hset].
  - rewrite Htim. destruct (timers st2 !! k) as [t|]; [|exact I].
    apply handle_blind; [apply connect_blind|].
    unfold same_but_isConnected in *.
    change (set_isConnected false (set_timers ?v ?s))
      with (set_timers v (set_isConnected false s)).
    by rewrite H.
  - apply handle_blind; [apply to_backend_blind|exact H].
  - apply handle_blind; [apply select_blind|exact H].
  - apply handle_blind; [apply check_blind|exact H].
  - apply handle_blind; [apply window_closed_blind|exact H].
  - apply handle_blind; [apply before_quit_blind|exact H].
Qed.

(** X24.  The main process writes [isConnected] and never reads it: two
    stores that differ at most in [isConnected] allow the same sequences of
    events, put out the same effects under any of them, and end in stores
    that again differ at most in [isConnected].  What the process does is
    decided by [wsClient] and its [readyState] alone. *)
Theorem isConnected_is_never_read evs :
  forall st1 st2,
    same_but_isConnected st1 st2 ->
    alike (run P evs st1) (run P evs st2).
Proof.
  induction evs as [|ev evs IH]; intros st1 st2 H; cbn [run].
  - split; [reflexivity|exact H].
  - pose proof (step_blind ev st1 st2 H) as Hs. unfold alike in Hs.
    destruct (step P ev st1) as [[s1 o1]|], (step P ev st2) as [[s2 o2]|];
      try contradiction; [|exact I].
    destruct Hs as [-> Hs].
    pose proof (IH s1 s2 Hs) as Hr. unfold alike in Hr |- *.
    destruct (run P evs s1) as [[t1 p1]|], (run P evs s2) as [[t2 p2]|];
      try contradiction; [|exact I].
    destruct Hr as [-> Hr]. split; [reflexivity|exact Hr].
Qed.

End Blind.

(** ** The web client *)

Section WebClient.

Variable String_trim : string -> string.
Variable websocketUrl : string.
Variable handleMessage : json -> JS Web.state unit.

Local Abbreviation web_step := (WebEvents.step P String_trim websocketUrl handleMessage).
Local Abbreviation web_run := (WebEvents.run P String_trim websocketUrl handleMessage).

Ltac web_unfold :=
  unfold WebEvents.handle, WebEvents.on_connect, WebEvents.on_disconnect,
    WebEvents.on_message, WebEvents.on_keypress, Web.onopen, Web.onclose, Web.onerror,
    Web.onmessage, Web.sendMessage, Web.initWebSocket, Web.updateConnectionStatus,
    Web.addMessage, Web.ws_send, Web.ws_close, console_log, console_error, console_warn.

Lemma web_run_step ev evs st st1 out1 st2 out2 :
  web_step ev st = Some (st1, out1) ->
  web_run evs st1 = Some (st2, out2) ->
  web_run (ev :: evs) st = Some (st2, out1 ++ out2).
Proof. intros H1 H2. cbn [WebEvents.run]. by rewrite H1, H2. Qed.

Lemma web_run_app evs1 evs2 st st1 out1 st2 out2 :
  web_run evs1 st = Some (st1, out1) ->
  web_run evs2 st1 = Some (st2, out2) ->
  web_run (evs1 ++ evs2) st = Some (st2, out1 ++ out2).
Proof.
  revert st out1. induction evs1 as [|ev evs1 IH]; intros st out1 H1 H2.
  - injection H1 as <- <-. exact H2.
  - cbn [WebEvents.run app] in *.
    destruct (web_step ev st) as [[sa oa]|]; [|discriminate].
    destruct (web_run evs1 sa) as [[sb ob]|] eqn:E; [|discriminate].
    injection H1 as <- <-.
    rewrite (IH _ _ E H2). by rewrite app_assoc.
Qed.

(** *** The status dot *)

Lemma classList_add_In c l x : In x (Web.classList_add c l) <-> x = c \/ In x l.
Proof.
  unfold Web.classList_add. destruct (existsb (String.eqb c) l) eqn:E.
  - split; [auto|]. intros [->|H]; [|exact H].
    apply existsb_exists in E as (y & Hy & ->%String.eqb_eq). exact Hy.
  - rewrite in_app_iff. simpl. split.
    + intros [H|[<-|[]]]; auto.
    + intros [->|H]; auto.
Qed.

Lemma classList_remove_In c l x : In x (Web.classList_remove c l) <-> x <> c /\ In x l.
Proof.
  unfold Web.classList_remove.
  rewrite <- !list_elem_of_In, list_elem_of_filter. reflexivity.
Qed.

Lemma updateConnectionStatus_run st :
  Web.updateConnectionStatus st =
  if Web.socketConnected st || Web.websocketConnected st then
    (Return tt,
     Web.set_statusDot
       (Web.classList_add "idle" (Web.classList_remove "error" (Web.statusDot st))) st,
     [])
  else
    (Return tt,
     Web.set_messages (Web.messages st ++ [WebEvents.connection_lost])
       (Web.set_statusDot
          (Web.classList_add "error" (Web.classList_remove "idle" (Web.statusDot st))) st),
     []).
Proof.
  unfold Web.updateConnectionStatus, Web.addMessage. js_unfold.
  destruct (Web.socketConnected st || Web.websocketConnected st); reflexivity.
Qed.

Lemma updateConnectionStatus_dot st :
  dot_shows (exec Web.updateConnectionStatus st)
            (Web.socketConnected st || Web.websocketConnected st).
Proof.
  unfold exec, dot_shows. rewrite updateConnectionStatus_run.
  destruct (Web.socketConnected st || Web.websocketConnected st); cbn [fst snd];
    cbn [Web.statusDot Web.set_statusDot Web.set_messages];
    rewrite !classList_add_In, !classList_remove_In; split; auto;
    intros [H|[H _]]; [discriminate H|exact (H eq_refl)|discriminate H|exact (H eq_refl)].
Qed.

Ltac dot_case Hu S :=
  let E := fresh "E" in
  pose proof (Hu S) as Hd; unfold exec in Hd;
  destruct (Web.updateConnectionStatus S) as [[[[]|?] ?] ?] eqn:E;
  [|rewrite updateConnectionStatus_run in E; destruct (_ || _) in E; discriminate E];
  cbn [fst snd] in Hd.

(** X25.  After every event that reports on a transport the status dot shows
    whether one is up: it has the class [idle] and not [error] when Socket.IO
    or the WebSocket is connected, and [error] and not [idle] when neither is. *)
Theorem status_dot_shows_the_connection ev st st' out :
  reports_connection ev = true ->
  web_step ev st = Some (st', out) ->
  dot_shows st' (Web.socketConnected st' || Web.websocketConnected st').
Proof.
  intros Hev H.
  assert (Hu : forall s,
             dot_shows (exec Web.updateConnectionStatus s)
               (Web.socketConnected (exec Web.updateConnectionStatus s)
                || Web.websocketConnected (exec Web.updateConnectionStatus s))).
  { intros s. pose proof (updateConnectionStatus_dot s) as Hd.
    unfold exec in *. rewrite updateConnectionStatus_run in *.
    destruct (Web.socketConnected s || Web.websocketConnected s) eqn:E;
      cbn [fst snd] in *;
      cbn [Web.socketConnected Web.websocketConnected Web.set_statusDot Web.set_messages];
      rewrite E; exact Hd. }
  destruct ev; try discriminate Hev; cbn [WebEvents.step] in H;
    repeat match type of H with
           | context [if ?b then _ else _] => destruct b
           end;
    try discriminate H; injection H as <- <-.
  - unfold WebEvents.handle, WebEvents.on_connect, exec. js_unfold.
    dot_case Hu (Web.set_socketConnected true st). exact Hd.
  - unfold WebEvents.handle, WebEvents.on_disconnect, exec. js_unfold.
    dot_case Hu (Web.set_socketConnected false st). exact Hd.
  - unfold WebEvents.handle, Web.onopen, exec. js_unfold.
    dot_case Hu (Web.set_websocketConnected true (Web.set_readyState i OPEN st)).
    exact Hd.
  - unfold WebEvents.handle, Web.onerror, Web.onclose, exec. js_unfold.
    dot_case Hu (Web.set_websocketConnected false (Web.set_readyState i CLOSED st)).
    clear Hd.
    match goal with
    | |- context [Web.updateConnectionStatus ?s] => dot_case Hu s
    end.
    exact Hd.
  - unfold WebEvents.handle, Web.onclose, exec. js_unfold.
    dot_case Hu (Web.set_websocketConnected false (Web.set_readyState i CLOSED st)).
    exact Hd.
Qed.

(** *** Sending *)

Ltac sent Hb :=
  (split; [simpl; lia|]); (split; [intros H; by destruct (Hb H)|]); intros _;
  (split; [reflexivity|]);
  (split; [first [eexists; reflexivity|eexists; rewrite <- app_assoc; reflexivity]|]);
  (split; [intros Ha; first [discriminate Ha|split; reflexivity]|]);
  intros Ha; first [discriminate Ha|idtac];
  (split; [reflexivity|]); intros H;
  first [by destruct H|split; reflexivity].

(** X26.  One click sends over at most one transport, Socket.IO when it is up
    and the WebSocket only when it is not; blank input does nothing at all;
    and whatever was typed is shown as sent and the input cleared before any
    transport is looked at. *)
Theorem message_goes_over_one_transport now st :
  let content := String_trim (Web.messageInput st) in
  let st' := exec (Web.sendMessage P String_trim now) st in
  let out := output (Web.sendMessage P String_trim now) st in
  length (emitted out) + length (delivered out) <= 1 /\
  (content = "" -> st' = st /\ out = []) /\
  (content <> "" ->
   Web.messageInput st' = "" /\
   (exists rest,
      Web.messages st' =
        Web.messages st ++ Web.mkElement "message user-message" content :: rest) /\
   (Web.socketConnected st = true ->
    emitted out = [outgoing content now] /\ delivered out = []) /\
   (Web.socketConnected st = false ->
    emitted out = [] /\
    (delivered out <> [] ->
     Web.websocketConnected st = true /\
     delivered out = [JSON_stringify P (outgoing content now)]))).
Proof.
  intros content st' out. subst content st' out.
  destruct st as [a b socks c msgs input dot tm].
  unfold exec, output, Web.sendMessage, Web.addMessage, Web.ws_send, Web.readyState_of.
  js_unfold. cbn -[String.eqb String.append].
  destruct (String.eqb_spec (String_trim input) "") as [Hb|Hb];
    cbn -[String.eqb String.append].
  - split; [lia|]. split; [done|]. intros H. by destruct H.
  - destruct a; cbn -[String.eqb String.append]; [sent Hb|].
    destruct b; cbn -[String.eqb String.append]; [|sent Hb].
    destruct c as [i|]; cbn -[String.eqb String.append]; [|sent Hb].
    destruct (socks !! i) as [[u []]|]; cbn -[String.eqb String.append]; sent Hb.
Qed.

(** *** Retrying *)

Ltac web_cbn :=
  cbn [Web.socketConnected Web.websocketConnected Web.sockets Web.ws Web.timers
       Web.messages Web.statusDot Web.messageInput Web.set_socketConnected
       Web.set_websocketConnected Web.set_sockets Web.set_ws Web.set_messages
       Web.set_statusDot Web.set_timers Web.set_messageInput fst snd orb app ws_url].

Lemma web_failed_attempt_run st i :
  ws_accepts P websocketUrl = true ->
  WebEvents.Trying websocketUrl st i ->
  exists st' out,
    web_run [WebEvents.Fail i; WebEvents.TimerFires] st = Some (st', out) /\
    WebEvents.Trying websocketUrl st' (S i) /\
    scheduled_delays out = [Web.RECONNECT_DELAY] /\
    constructed out = [websocketUrl] /\
    Web.messages st' =
      Web.messages st ++ [WebEvents.connection_lost; WebEvents.connection_lost].
Proof.
  intros Hacc [Hc Hn Hs Ha Ht].
  destruct st as [a b socks c msgs input dot tm].
  cbn [Web.socketConnected Web.websocketConnected Web.sockets Web.ws Web.timers] in *.
  subst a c tm.
  assert (Hlt : i < length socks) by lia.
  cbn [WebEvents.run WebEvents.step].
  assert (Hr : forall x y z u v w k,
             Web.readyState_of i (Web.mkState x y socks z u v w k) = CONNECTING)
    by (intros; unfold Web.readyState_of; cbn [Web.sockets]; by rewrite Hs).
  rewrite bool_decide_eq_false_2 by (rewrite Hr; discriminate).
  unfold Web.set_readyState. cbn [Web.sockets]. rewrite Hs.
  unfold WebEvents.handle, exec, output, Web.onerror, Web.onclose,
    Web.updateConnectionStatus, Web.addMessage. js_unfold.
  web_cbn.
  unfold Web.initWebSocket, Web.ws_close, Web.readyState_of. js_unfold.
  web_cbn.
  rewrite list_lookup_insert_eq by exact Hlt. cbn [ws_readyState]. rewrite Hacc.
  web_cbn.
  eexists _, _. split; [reflexivity|].
  split; [|split; [reflexivity|split; [reflexivity|]]].
  - split; web_cbn.
    + by rewrite length_insert, Hn.
    + by rewrite length_app, length_insert, Hn, Nat.add_1_r.
    + rewrite lookup_app_r by (rewrite length_insert; lia).
      rewrite length_insert, Hn, Nat.sub_diag. reflexivity.
    + reflexivity.
    + reflexivity.
  - web_cbn. by rewrite <- app_assoc.
Qed.

(** X27.  The fallback never gives up. However many attempts fail one after
    the other, each failure registers one more timer of 5000 ms and each timer
    constructs one more socket, so the client is trying again after every one
    of them; and each failure has told the user twice that the connection was
    lost. *)
Theorem web_client_never_gives_up n :
  forall st i,
    ws_accepts P websocketUrl = true ->
    WebEvents.Trying websocketUrl st i ->
    exists st' out,
      web_run (WebEvents.failed_attempts i n) st = Some (st', out) /\
      WebEvents.Trying websocketUrl st' (i + n) /\
      scheduled_delays out = repeat Web.RECONNECT_DELAY n /\
      constructed out = repeat websocketUrl n /\
      Web.messages st' = Web.messages st ++ repeat WebEvents.connection_lost (2 * n).
Proof.
  induction n as [|n IH]; intros st i Hacc Ht.
  - exists st, []. rewrite Nat.add_0_r. cbn [Nat.mul repeat]. rewrite app_nil_r.
    split; [reflexivity|]. split; [exact Ht|]. repeat split.
  - destruct (web_failed_attempt_run st i Hacc Ht)
      as (st1 & out1 & H1 & Ht1 & Hd1 & Hc1 & Hm1).
    destruct (IH st1 (S i) Hacc Ht1) as (st2 & out2 & H2 & Ht2 & Hd2 & Hc2 & Hm2).
    exists st2, (out1 ++ out2).
    split; [exact (web_run_app _ _ _ _ _ _ _ H1 H2)|].
    split; [by rewrite Nat.add_succ_r|].
    rewrite scheduled_delays_app, constructed_app, Hd1, Hd2, Hc1, Hc2, Hm2, Hm1.
    split; [reflexivity|]. split; [reflexivity|].
    rewrite <- app_assoc. f_equal.
    replace (2 * S n) with (2 + 2 * n) by lia. reflexivity.
Qed.

(** *** The fallback and Socket.IO *)

Lemma closed_readyState st i :
  Forall (fun s => ws_readyState s = CLOSED) (Web.sockets st) ->
  Web.readyState_of i st = CLOSED.
Proof.
  intros H. unfold Web.readyState_of.
  destruct (Web.sockets st !! i) as [s|] eqn:E; [|reflexivity].
  exact (Forall_lookup_1 _ _ _ _ H E).
Qed.

Lemma retry_free out :
  Forall (fun e => is_retry_effect e = false) out ->
  constructed out = [] /\ scheduled_delays out = [].
Proof.
  induction 1 as [|e out He _ [IH1 IH2]]; [split; reflexivity|].
  unfold constructed, scheduled_delays in *. cbn [omap list_omap].
  rewrite IH1, IH2. destruct e; try discriminate He; split; reflexivity.
Qed.

Ltac web_step_tac :=
  first
    [ apply never_ret | apply never_throw | apply never_gets | apply never_modify
    | apply never_emit; reflexivity
    | apply never_when
    | apply never_bind; [|intros ?]
    | apply never_try_catch; [|intros ?]
    | apply preserves_ret | apply preserves_throw | apply preserves_gets
    | apply preserves_emit
    | apply preserves_modify; intros ?; reflexivity
    | apply preserves_when
    | apply preserves_bind; [|intros ?]
    | apply preserves_try_catch; [|intros ?]
    | match goal with
      | |- never _ (if ?b then _ else _) => destruct b
      | |- never _ (match ?x with _ => _ end) => destruct x
      | |- preserves _ (if ?b then _ else _) => destruct b
      | |- preserves _ (match ?x with _ => _ end) => destruct x
      end ].

Ltac web_tac := repeat (first [web_step_tac | progress web_unfold]).

Lemma on_connect_wiring : preserves wiring WebEvents.on_connect.
Proof. web_tac. Qed.
Lemma on_disconnect_wiring : preserves wiring WebEvents.on_disconnect.
Proof. web_tac. Qed.
Lemma sendMessage_wiring now : preserves wiring (Web.sendMessage P String_trim now).
Proof. web_tac. Qed.
Lemma on_keypress_wiring key now :
  preserves wiring (WebEvents.on_keypress P String_trim key now).
Proof. web_tac. Qed.

Lemma on_connect_retry_free : never is_retry_effect WebEvents.on_connect.
Proof. web_tac. Qed.
Lemma on_disconnect_retry_free : never is_retry_effect WebEvents.on_disconnect.
Proof. web_tac. Qed.
Lemma sendMessage_retry_free now :
  never is_retry_effect (Web.sendMessage P String_trim now).
Proof. web_tac. Qed.
Lemma on_keypress_retry_free key now :
  never is_retry_effect (WebEvents.on_keypress P String_trim key now).
Proof. web_tac. Qed.

Lemma idle_step ev st st' out :
  WebEvents.page_only handleMessage ->
  WebEvents.Idle st ->
  web_step ev st = Some (st', out) ->
  WebEvents.Idle st' /\ Forall (fun e => is_retry_effect e = false) out.
Proof.
  intros Hpage [Ht Hs] H.
  assert (Hw : forall {A} (m : JS Web.state A),
             preserves wiring m -> never is_retry_effect m ->
             WebEvents.Idle (exec m st) /\
             Forall (fun e => is_retry_effect e = false) (output m st)).
  { intros A m Hp Hn. split; [|apply Hn].
    specialize (Hp st). injection Hp as Hp1 Hp2.
    split; [by rewrite Hp2|by rewrite Hp1]. }
  destruct ev; cbn [WebEvents.step] in H;
    rewrite ?(closed_readyState st _ Hs), ?Ht in H;
    try discriminate H; injection H as <- <-.
  - apply Hw; [apply on_connect_wiring|apply on_connect_retry_free].
  - apply Hw; [apply on_disconnect_wiring|apply on_disconnect_retry_free].
  - destruct (Hpage data st) as (_ & Hp1 & Hp2 & Hp3 & Hp4).
    unfold WebEvents.handle, WebEvents.on_message, exec, output in *. js_unfold.
    destruct (handleMessage data st) as [[r s1] o1]. cbn [fst snd] in *.
    split; [split; [by rewrite Hp2|by rewrite Hp1]|].
    constructor; [reflexivity|].
    clear -Hp3 Hp4. induction o1 as [|e o1 IH]; [constructor|].
    unfold constructed, scheduled_delays in *. cbn [omap list_omap] in *.
    destruct e; try discriminate Hp3; try discriminate Hp4;
      (constructor; [reflexivity|]); apply IH; assumption.
  - split; [split; assumption|constructor].
  - apply Hw; [apply on_keypress_wiring|apply on_keypress_retry_free].
  - apply Hw; [apply sendMessage_wiring|apply sendMessage_retry_free].
Qed.

Lemma idle_run evs :
  forall st st' out,
    WebEvents.page_only handleMessage ->
    WebEvents.Idle st ->
    web_run evs st = Some (st', out) ->
    WebEvents.Idle st' /\ Forall (fun e => is_retry_effect e = false) out.
Proof.
  induction evs as [|ev evs IH]; intros st st' out Hpage Hi H.
  - injection H as <- <-. split; [exact Hi|constructor].
  - cbn [WebEvents.run] in H.
    destruct (web_step ev st) as [[s1 o1]|] eqn:E1; [|discriminate].
    destruct (web_run evs s1) as [[s2 o2]|] eqn:E2; [|discriminate].
    injection H as <- <-.
    destruct (idle_step _ _ _ _ Hpage Hi E1) as [Hi1 Hq1].
    destruct (IH _ _ _ Hpage Hi1 E2) as [Hi2 Hq2].
    split; [exact Hi2|]. apply Forall_app. by split.
Qed.

(** X28.  If Socket.IO is up when the retry timer of the fallback comes due,
    the timer does nothing, and nothing is left that would bring the WebSocket
    back: whatever happens afterwards, Socket.IO going down included, no
    socket is constructed and no timer registered. *)
Theorem fallback_is_not_revived evs st st' out :
  WebEvents.page_only handleMessage ->
  Web.socketConnected st = true ->
  Web.timers st = 1 ->
  Forall (fun s => ws_readyState s = CLOSED) (Web.sockets st) ->
  web_run (WebEvents.TimerFires :: evs) st = Some (st', out) ->
  constructed out = [] /\ scheduled_delays out = [] /\ WebEvents.Idle st'.
Proof.
  intros Hpage Ha Ht Hs H.
  cbn [WebEvents.run WebEvents.step] in H. rewrite Ht in H.
  unfold WebEvents.handle, exec, output, Web.initWebSocket in H. js_unfold_in H.
  cbn [Web.socketConnected Web.set_timers] in H. rewrite Ha in H. cbn [fst snd] in H.
  destruct (web_run evs (Web.set_timers 0 st)) as [[s2 o2]|] eqn:E; [|discriminate].
  injection H as <- <-.
  assert (Hi0 : WebEvents.Idle (Web.set_timers 0 st)) by (split; [reflexivity|exact Hs]).
  destruct (idle_run evs _ _ _ Hpage Hi0 E) as [Hi Hq].
  destruct (retry_free _ Hq) as [Hc Hd].
  split; [exact Hc|]. split; [exact Hd|exact Hi].
Qed.

(** *** One socket at a time *)

Lemma on_connect_held : preserves held WebEvents.on_connect.
Proof. web_tac. Qed.
Lemma on_disconnect_held : preserves held WebEvents.on_disconnect.
Proof. web_tac. Qed.
Lemma sendMessage_held now : preserves held (Web.sendMessage P String_trim now).
Proof. web_tac. Qed.
Lemma on_keypress_held key now :
  preserves held (WebEvents.on_keypress P String_trim key now).
Proof. web_tac. Qed.
Lemma onopen_held : preserves held Web.onopen.
Proof. web_tac. Qed.
Lemma onclose_held : preserves held (Web.onclose websocketUrl).
Proof. web_tac. Qed.
Lemma onerror_held : preserves held Web.onerror.
Proof. web_tac. Qed.

Lemma held_one_live st st' :
  held st' = held st -> one_live_socket st -> one_live_socket st'.
Proof.
  unfold held, one_live_socket. intros H. injection H as -> ->. auto.
Qed.

Lemma others_settled_insert socks c i s :
  others_settled socks c ->
  (c = Some i \/ ws_readyState s = CLOSING \/ ws_readyState s = CLOSED) ->
  others_settled (<[i := s]> socks) c.
Proof.
  intros H Hs j s' Hj Hc.
  destruct (decide (j = i)) as [->|Hne].
  - apply list_lookup_insert_Some in Hj as [(_ & <- & _)|(Hne & _)]; [|done].
    destruct Hs as [->|Hs]; [done|exact Hs].
  - rewrite list_lookup_insert_ne in Hj by done. eauto.
Qed.

Lemma others_settled_new socks c x :
  others_settled socks c ->
  (forall i s, c = Some i -> socks !! i = Some s ->
     ws_readyState s = CLOSING \/ ws_readyState s = CLOSED) ->
  others_settled (socks ++ [x]) (Some (length socks)).
Proof.
  intros H Hc j s Hj Hne.
  destruct (decide (j < length socks)) as [Hlt|Hge].
  - rewrite lookup_app_l in Hj by exact Hlt.
    destruct (decide (c = Some j)) as [Hcj|Hcj]; [eapply Hc; eauto|eapply H; eauto].
  - apply lookup_lt_Some in Hj as Hl. rewrite length_app in Hl. simpl in Hl.
    exfalso. apply Hne. f_equal. lia.
Qed.

Lemma initWebSocket_one_live st :
  one_live_socket st -> one_live_socket (exec (Web.initWebSocket P websocketUrl) st).
Proof.
  unfold one_live_socket. destruct st as [a b socks c msgs input dot tm]. web_cbn.
  intros H.
  unfold exec, Web.initWebSocket, Web.ws_close, Web.readyState_of, Web.set_readyState.
  js_unfold. web_cbn.
  destruct a; web_cbn; [exact H|].
  destruct c as [i|]; web_cbn.
  - destruct (socks !! i) as [[u r]|] eqn:E; web_cbn.
    + destruct r; cbn [ws_readyState]; web_cbn; rewrite ?E; web_cbn;
        destruct (ws_accepts P websocketUrl); web_cbn;
        first
          [ exact H
          | apply others_settled_insert; [exact H|by left]
          | apply (others_settled_new _ (Some i));
            [ first [exact H|apply others_settled_insert; [exact H|by left]]
            | intros k s Hk Hs; injection Hk as <-;
              first
                [ rewrite list_lookup_insert_eq in Hs by (eapply lookup_lt_Some; eauto);
                  injection Hs as <-; by left
                | rewrite E in Hs; injection Hs as <-; cbn [ws_readyState]; auto ] ] ].
    + destruct (ws_accepts P websocketUrl); web_cbn; [|exact H].
      apply (others_settled_new _ (Some i)); [exact H|].
      intros k s Hk Hs. injection Hk as <-. by rewrite E in Hs.
  - destruct (ws_accepts P websocketUrl); web_cbn; [|exact H].
    apply (others_settled_new _ None); [exact H|]. intros k s Hk. discriminate Hk.
Qed.

Lemma set_readyState_settled i r st :
  one_live_socket st ->
  (Web.ws st = Some i \/ r = CLOSING \/ r = CLOSED) ->
  one_live_socket (Web.set_readyState i r st).
Proof.
  unfold one_live_socket, Web.set_readyState. intros H Hr.
  destruct (Web.sockets st !! i) as [s|]; [|exact H].
  cbn [Web.sockets Web.ws Web.set_sockets].
  apply others_settled_insert; [exact H|exact Hr].
Qed.

Lemma one_live_step ev st st' out :
  WebEvents.page_only handleMessage ->
  one_live_socket st ->
  web_step ev st = Some (st', out) ->
  one_live_socket st'.
Proof.
  intros Hpage H E.
  destruct ev; cbn [WebEvents.step] in E.
  - injection E as <- _. exact (held_one_live _ _ (on_connect_held st) H).
  - injection E as <- _. exact (held_one_live _ _ (on_disconnect_held st) H).
  - injection E as <- _. destruct (Hpage data st) as (Hw & Hs & _).
    unfold WebEvents.handle, WebEvents.on_message, exec in *. js_unfold.
    destruct (handleMessage data st) as [[r s1] o1]. cbn [fst snd] in *.
    unfold one_live_socket. by rewrite Hw, Hs.
  - destruct (bool_decide (Web.readyState_of i st = CONNECTING)) eqn:Hr; [|discriminate E].
    apply bool_decide_eq_true in Hr. injection E as <- _.
    apply (held_one_live _ _ (onopen_held _)).
    apply set_readyState_settled; [exact H|]. left.
    destruct (decide (Web.ws st = Some i)) as [|Hne]; [done|exfalso].
    unfold Web.readyState_of in Hr.
    destruct (Web.sockets st !! i) as [s|] eqn:Es; [|discriminate Hr].
    destruct (H i s Es Hne) as [Hs|Hs]; rewrite Hs in Hr; discriminate Hr.
  - destruct (bool_decide _); [|discriminate E]. injection E as <- _.
    unfold WebEvents.handle, Web.onmessage, exec. js_unfold.
    destruct (JSON_parse P data) as [decoded|]; [|exact H].
    destruct (Hpage decoded st) as (Hw & Hs & _). unfold exec in *.
    destruct (handleMessage decoded st) as [[[[]|m] s1] o1]; cbn [fst snd] in *;
      unfold one_live_socket; by rewrite Hw, Hs.
  - destruct (bool_decide _); [discriminate E|]. injection E as <- _.
    assert (Hh : preserves held (Web.onerror ;; Web.onclose websocketUrl))
      by (apply preserves_bind; [apply onerror_held|intros ?; apply onclose_held]).
    apply (held_one_live _ _ (Hh _)).
    apply set_readyState_settled; [exact H|auto].
  - destruct (bool_decide _); [discriminate E|]. injection E as <- _.
    apply (held_one_live _ _ (onclose_held _)).
    apply set_readyState_settled; [exact H|auto].
  - destruct (Web.timers st) as [|n]; [discriminate E|]. injection E as <- _.
    apply initWebSocket_one_live. exact H.
  - injection E as <- _. exact H.
  - injection E as <- _. exact (held_one_live _ _ (on_keypress_held key now st) H).
  - injection E as <- _. exact (held_one_live _ _ (sendMessage_held now st) H).
Qed.

(** X29.  The page never has two sockets connecting or open at once:
    [initWebSocket] closes the socket it holds, connecting or open, before
    it constructs the next, so at every moment every socket but [ws] is
    closing or closed. *)
Theorem fallback_has_one_live_socket evs :
  forall st st' out,
    WebEvents.page_only handleMessage ->
    one_live_socket st ->
    web_run evs st = Some (st', out) ->
    one_live_socket st'.
Proof.
  induction evs as [|ev evs IH]; intros st st' out Hpage H E.
  - injection E as <- _. exact H.
  - cbn [WebEvents.run] in E.
    destruct (web_step ev st) as [[s1 o1]|] eqn:E1; [|discriminate E].
    destruct (web_run evs s1) as [[s2 o2]|] eqn:E2; [|discriminate E].
    injection E as <- _.
    exact (IH _ _ _ Hpage (one_live_step _ _ _ _ Hpage H E1) E2).
Qed.

End WebClient.

(** ** Discovery turn by turn *)

Lemma lift_run {A} (m : M A) sys r st out :
  m (System.main sys) = (r, st, out) ->
  System.lift m sys = (r, System.set_main st sys, out).
Proof. intros E. unfold System.lift. rewrite E. reflexivity. Qed.

Lemma never_lift {A} bad (m : M A) : never bad m -> never bad (System.lift m).
Proof.
  intros H sys. specialize (H (System.main sys)). unfold output, System.lift in *.
  destruct (m (System.main sys)) as [[r st] out]. exact H.
Qed.

Lemma preserves_lift {A B} (f : store -> B) (m : M A) :
  preserves f m -> preserves (fun sys => f (System.main sys)) (System.lift m).
Proof.
  intros H sys. specialize (H (System.main sys)). unfold exec, System.lift in *.
  destruct (m (System.main sys)) as [[r st] out]. exact H.
Qed.

Ltac system_unfold :=
  unfold System.probe_settled, System.box_answered, System.rejected,
    System.showContainerSelectionDialog_called, System.checkContainerConnection_called,
    System.connectToContainer_called, System.checkPort_called, System.saveConfig,
    System.container_settings, System.await, System.resume.

Ltac system_never :=
  repeat (first [ never_step | apply never_lift | progress cbv zeta
                | progress system_unfold | progress never_unfold ]).

Ltac system_keeps_window :=
  repeat (first
    [ apply preserves_ret | apply preserves_throw | apply preserves_gets
    | apply preserves_emit
    | apply preserves_modify; intros ?;
      first [ reflexivity | apply set_readyState_window
            | match goal with
              | |- context [System.assign ?r _ _] => destruct r; reflexivity
              end ]
    | apply preserves_when
    | apply preserves_bind; [|intros ?]
    | apply preserves_try_catch; [|intros ?]
    | apply (preserves_lift mainWindow)
    | match goal with
      | |- preserves _ (if ?b then _ else _) => destruct b
      | |- preserves _ (match ?x with _ => _ end) => destruct x
      end
    | progress cbv zeta
    | progress system_unfold
    | progress never_unfold ]).

Lemma settings_no_renderer w s : never is_renderer_send (System.container_settings w s).
Proof. system_never. Qed.

Lemma dialog_called_no_renderer w :
  never is_renderer_send (System.showContainerSelectionDialog_called w).
Proof. system_never. Qed.

Lemma box_answered_no_renderer w k containers :
  never is_renderer_send (System.box_answered w k containers).
Proof. system_never. Qed.

Lemma probe_settled_no_renderer w k c :
  never is_renderer_send (System.probe_settled P w k c).
Proof. system_never. Qed.

Lemma settings_keeps_window w s :
  preserves (fun sys => mainWindow (System.main sys)) (System.container_settings w s).
Proof. system_keeps_window. Qed.

Lemma dialog_called_keeps_window w :
  preserves (fun sys => mainWindow (System.main sys))
            (System.showContainerSelectionDialog_called w).
Proof. system_keeps_window. Qed.

Lemma box_answered_keeps_window w k containers :
  preserves (fun sys => mainWindow (System.main sys)) (System.box_answered w k containers).
Proof. system_keeps_window. Qed.

Lemma probe_settled_keeps_window w k c :
  preserves (fun sys => mainWindow (System.main sys)) (System.probe_settled P w k c).
Proof. system_keeps_window. Qed.

(** A turn that finds no window sends nothing to the renderer, and leaves
    none unless it is [activate]. *)
Lemma turn_windowless t sys sys' out :
  System.step P t sys = Some (sys', out) ->
  mainWindow (System.main sys) = false ->
  Forall (fun e => is_renderer_send e = false) out /\
  (t <> System.Activate -> mainWindow (System.main sys') = false).
Proof.
  intros H Hw. destruct t as [ev| |w s|w|w|k w|k w]; cbn [System.step] in H.
  - unfold System.session_turn in H.
    destruct (System.in_one_turn ev); [|discriminate H].
    destruct (step P ev (System.main sys)) as [[st o]|] eqn:E; [|discriminate H].
    injection H as <- <-.
    destruct (step_windowless _ _ _ _ E Hw) as (Hw' & Hq).
    split; [exact Hq|]. intros _. exact Hw'.
  - injection H as <- <-. split; [|congruence].
    unfold System.activate, output, bind, gets. cbn. rewrite Hw. constructor.
  - injection H as <- <-. split; [apply settings_no_renderer|].
    intros _. rewrite <- Hw. apply settings_keeps_window.
  - rewrite Hw in H. discriminate H.
  - injection H as <- <-. split; [apply dialog_called_no_renderer|].
    intros _. rewrite <- Hw. apply dialog_called_keeps_window.
  - destruct (System.tasks sys !! k) as [[[containers|c]|]|]; try discriminate H.
    injection H as <- <-. split; [apply box_answered_no_renderer|].
    intros _. rewrite <- Hw. apply box_answered_keeps_window.
  - destruct (System.tasks sys !! k) as [[[containers|c]|]|]; try discriminate H.
    injection H as <- <-. split; [apply probe_settled_no_renderer|].
    intros _. rewrite <- Hw. apply probe_settled_keeps_window.
Qed.

(** X5.  While [mainWindow] is [null] nothing is sent to the renderer: every
    handler checks [mainWindow] before it calls [webContents.send].  The
    variable stays [null] until the application is activated: of all the
    handlers only that of [activate] assigns a window to it again, through
    [createWindow], and it sends nothing itself. *)
Theorem no_renderer_traffic_without_window ts :
  forall sys sys' out,
    System.run P ts sys = Some (sys', out) ->
    mainWindow (System.main sys) = false ->
    (mainWindow (System.main sys') = true -> In System.Activate ts) /\
    (~ In System.Activate ts -> Forall (fun e => is_renderer_send e = false) out) /\
    System.step P System.Activate sys =
      Some (System.set_main (set_mainWindow true (System.main sys)) sys, []).
Proof.
  assert (Ha : forall sys, mainWindow (System.main sys) = false ->
             System.step P System.Activate sys =
               Some (System.set_main (set_mainWindow true (System.main sys)) sys, [])).
  { intros sys Hw. cbn [System.step]. unfold System.handle, System.activate, exec, output.
    unfold bind, gets. cbn. rewrite Hw. reflexivity. }
  induction ts as [|t ts IH]; intros sys sys' out H Hw; cbn [System.run] in H.
  - injection H as <- <-. split; [congruence|]. split; [constructor|by apply Ha].
  - destruct (System.step P t sys) as [[sys1 out1]|] eqn:E1; [|discriminate H].
    destruct (System.run P ts sys1) as [[sys2 out2]|] eqn:E2; [|discriminate H].
    injection H as <- <-.
    destruct (turn_windowless _ _ _ _ E1 Hw) as (Hq1 & Hw1).
    split; [|split; [|by apply Ha]].
    + intros Hw'. destruct t; try (by left);
        right; (refine (proj1 (IH _ _ _ E2 _) Hw'); apply Hw1; discriminate).
    + intros Hn. apply Forall_app. split; [exact Hq1|].
      assert (Ht : t <> System.Activate) by (intros ->; apply Hn; by left).
      refine (proj1 (proj2 (IH _ _ _ E2 (Hw1 Ht))) _).
      intros Hi. apply Hn. by right.
Qed.

Lemma rejected_no_hand_over w who message :
  never is_hand_over (System.rejected w who message).
Proof. system_never. Qed.













(** ** The references of pending calls *)

Section Invariant.
Context {S : Type} (I : S -> Prop).

Lemma invariant_ret {A} (a : A) : invariant I (ret a).
Proof. intros st H. exact H. Qed.

Lemma invariant_throw {A} message : invariant (A:=A) I (throw message).
Proof. intros st H. exact H. Qed.

Lemma invariant_gets {A} (g : S -> A) : invariant I (gets g).
Proof. intros st H. exact H. Qed.

Lemma invariant_emit e : invariant I (emit e).
Proof. intros st H. exact H. Qed.

Lemma invariant_modify (g : S -> S) : (forall st, I st -> I (g st)) -> invariant I (modify g).
Proof. intros Hg st H. by apply Hg. Qed.

Lemma invariant_bind {A B} (m : JS S A) (k : A -> JS S B) :
  invariant I m -> (forall a, invariant I (k a)) -> invariant I (bind m k).
Proof.
  intros Hm Hk st H. specialize (Hm st H). unfold exec, bind in *.
  destruct (m st) as [[[a|msg] st1] out1]; simpl in *; [|exact Hm].
  specialize (Hk a st1 Hm). unfold exec in Hk.
  destruct (k a st1) as [[r st2] out2]. exact Hk.
Qed.

Lemma invariant_try_catch {A} (body : JS S A) handler :
  invariant I body -> (forall msg, invariant I (handler msg)) ->
  invariant I (try_catch body handler).
Proof.
  intros Hm Hk st H. specialize (Hm st H). unfold exec, try_catch in *.
  destruct (body st) as [[[a|msg] st1] out1]; simpl in *; [exact Hm|].
  specialize (Hk msg st1 Hm). unfold exec in Hk.
  destruct (handler msg st1) as [[r st2] out2]. exact Hk.
Qed.

End Invariant.

(** What the references rest on is out of reach of the handlers of the
    session. *)
Lemma invariant_lift {A} (I : System.system -> Prop) (m : M A) :
  (forall sys st, I sys -> I (System.set_main st sys)) -> invariant I (System.lift m).
Proof.
  intros HI sys H. unfold exec, System.lift.
  destruct (m (System.main sys)) as [[r st] out]. by apply HI.
Qed.

Lemma holding_await_box r containers sys :
  System.holding r sys ->
  System.holding r (System.set_tasks (System.tasks sys ++ [Some (System.Box containers)]) sys).
Proof.
  intros [Hh Hr]. split; [|exact Hr].
  intros k c Hk. cbn in Hk. apply lookup_app_Some in Hk as [Hk|[_ Hk]].
  - exact (Hh k c Hk).
  - destruct (k - length (System.tasks sys)) as [|n]; discriminate Hk.
Qed.

Lemma holding_await_probe r c sys :
  System.holding r sys -> System.refers (System.call_config c) sys ->
  System.holding r (System.set_tasks (System.tasks sys ++ [Some (System.Probe c)]) sys).
Proof.
  intros [Hh Hr] Hc. split; [|exact Hr].
  intros k c' Hk. cbn in Hk. apply lookup_app_Some in Hk as [Hk|[_ Hk]].
  - exact (Hh k c' Hk).
  - destruct (k - length (System.tasks sys)) as [|n]; [|discriminate Hk].
    injection Hk as <-. exact Hc.
Qed.

Lemma holding_resume_none r k sys :
  System.holding r sys ->
  System.holding r (System.set_tasks (<[k := None]> (System.tasks sys)) sys).
Proof.
  intros [Hh Hr]. split; [|exact Hr].
  intros k' c Hk. cbn in Hk.
  destruct (decide (k' = k)) as [->|Hne].
  - destruct (decide (k < length (System.tasks sys))) as [Hlt|Hge].
    + rewrite list_lookup_insert_eq in Hk by exact Hlt. discriminate Hk.
    + rewrite lookup_ge_None_2 in Hk; [discriminate Hk|]. rewrite length_insert. lia.
  - rewrite list_lookup_insert_ne in Hk by auto. exact (Hh k' c Hk).
Qed.

Lemma holding_resume_probe r k c sys :
  System.holding r sys -> System.refers (System.call_config c) sys ->
  System.holding r (System.set_tasks (<[k := Some (System.Probe c)]> (System.tasks sys)) sys).
Proof.
  intros [Hh Hr] Hc. split; [|exact Hr].
  intros k' c' Hk. cbn in Hk.
  destruct (decide (k' = k)) as [->|Hne].
  - destruct (decide (k < length (System.tasks sys))) as [Hlt|Hge].
    + rewrite list_lookup_insert_eq in Hk by exact Hlt. injection Hk as <-. exact Hc.
    + rewrite lookup_ge_None_2 in Hk; [discriminate Hk|]. rewrite length_insert. lia.
  - rewrite list_lookup_insert_ne in Hk by auto. exact (Hh k' c' Hk).
Qed.

Lemma holding_assign r r' v sys :
  System.holding r sys -> System.holding r (System.assign r' v sys).
Proof.
  intros [Hh Hr]. destruct r' as [j|]; [|split; [exact Hh|exact Hr]].
  split.
  - intros k c Hk j' Hj. cbn in *. rewrite length_insert. exact (Hh k c Hk j' Hj).
  - intros j' Hj. cbn. rewrite length_insert. exact (Hr j' Hj).
Qed.

Ltac holding_step :=
  first
    [ apply invariant_ret | apply invariant_throw | apply invariant_gets
    | apply invariant_emit
    | apply invariant_lift; intros ? ? ?; assumption
    | apply invariant_modify; intros ? ?;
      first [ by apply holding_resume_none
            | by apply holding_await_box
            | by apply holding_assign
            | apply holding_await_probe; [assumption|intros ? ?; discriminate] ]
    | apply invariant_bind; [|intros ?]
    | apply invariant_try_catch; [|intros ?]
    | match goal with
      | |- invariant _ (if ?b then _ else _) => destruct b
      | |- invariant _ (match ?x with _ => _ end) => destruct x
      end
    | progress cbv zeta
    | progress system_unfold ].

Ltac holding_tac := repeat holding_step.

Lemma dialog_called_holding r w :
  invariant (System.holding r) (System.showContainerSelectionDialog_called w).
Proof. holding_tac. Qed.

Lemma check_called_holding r w :
  invariant (System.holding r) (System.checkContainerConnection_called w).
Proof. holding_tac. Qed.

Lemma box_answered_holding r w k containers :
  invariant (System.holding r) (System.box_answered w k containers).
Proof. holding_tac. Qed.

Lemma saveConfig_holding r w cfg : invariant (System.holding r) (System.saveConfig w cfg).
Proof. holding_tac. Qed.

Lemma probe_settled_holding w k c :
  invariant (System.holding (System.call_config c)) (System.probe_settled P w k c).
Proof.
  unfold System.probe_settled. cbv zeta.
  apply invariant_bind; [holding_tac|intros _].
  apply invariant_try_catch; [|intros ?; holding_tac].
  apply invariant_bind; [holding_tac|intros cfg].
  destruct (System.call_websocket c); [holding_tac|].
  destruct (negb _); [holding_tac|].
  apply invariant_bind; [holding_tac|intros _].
  apply invariant_modify. intros sys H. apply holding_resume_probe; [exact H|].
  exact (proj2 H).
Qed.

Lemma settings_holding w s :
  invariant System.references_hold (System.container_settings w s).
Proof.
  unfold System.container_settings.
  apply invariant_bind; [|intros _].
  - apply invariant_modify. intros sys H k c Hk j Hj.
    cbn [System.tasks System.detached] in Hk |- *.
    rewrite length_app. cbn [length].
    rewrite list_lookup_fmap in Hk.
    destruct (System.tasks sys !! k) as [[[containers|c0]|]|] eqn:E; try discriminate Hk.
    cbn [fmap option_fmap option_map System.keep_object] in Hk.
    pose proof (H k c0 E) as Hc0.
    destruct (System.call_config c0) as [j0|] eqn:E0; injection Hk as <-.
    + rewrite E0 in Hj. specialize (Hc0 j Hj). lia.
    + cbn [System.call_config] in Hj. injection Hj as <-. lia.
  - apply invariant_bind; [apply invariant_gets|intros cfg].
    intros sys H.
    assert (Hn : System.holding None sys) by (split; [exact H|discriminate]).
    exact (proj1 (saveConfig_holding None w cfg sys Hn)).
Qed.

(** Every turn leaves each pending call with an object to write to. *)
Lemma step_references_hold t sys sys' out :
  System.step P t sys = Some (sys', out) ->
  System.references_hold sys -> System.references_hold sys'.
Proof.
  assert (Hnone : forall s, System.references_hold s -> System.holding None s)
    by (intros s Hs; split; [exact Hs|discriminate]).
  intros H Hh. destruct t as [ev| |w s|w|w|k w|k w]; cbn [System.step] in H.
  - destruct (System.session_turn P ev (System.main sys)) as [[st o]|]; [|discriminate H].
    injection H as <- <-. exact Hh.
  - injection H as <- <-. unfold System.handle, System.activate, exec, bind, gets. cbn.
    destruct (mainWindow (System.main sys)); exact Hh.
  - injection H as <- <-. by apply settings_holding.
  - destruct (mainWindow (System.main sys)); [|discriminate H].
    injection H as <- <-. by apply (check_called_holding None w sys), Hnone.
  - injection H as <- <-. by apply (dialog_called_holding None w sys), Hnone.
  - destruct (System.tasks sys !! k) as [[[containers|c]|]|]; try discriminate H.
    injection H as <- <-. by apply (box_answered_holding None w k containers sys), Hnone.
  - destruct (System.tasks sys !! k) as [[[containers|c]|]|] eqn:E; try discriminate H.
    injection H as <- <-.
    apply (probe_settled_holding w k c sys). split; [exact Hh|exact (Hh k c E)].
Qed.

(** A process that starts with no call pending never has a pending call
    without its object. *)
Lemma run_references_hold ts :
  forall file sys out,
    System.run P ts (System.start file) = Some (sys, out) -> System.references_hold sys.
Proof.
  assert (H : forall sys0 sys out,
             System.run P ts sys0 = Some (sys, out) ->
             System.references_hold sys0 -> System.references_hold sys).
  { induction ts as [|t ts IH]; intros sys0 sys out H Hh; cbn [System.run] in H.
    - by injection H as <- <-.
    - destruct (System.step P t sys0) as [[sys1 out1]|] eqn:E1; [|discriminate H].
      destruct (System.run P ts sys1) as [[sys2 out2]|] eqn:E2; [|discriminate H].
      injection H as <- <-.
      exact (IH _ _ _ E2 (step_references_hold _ _ _ _ E1 Hh)). }
  intros file sys out Hrun. apply (H _ _ _ Hrun).
  intros k c Hk. destruct k; discriminate Hk.
Qed.

End Properties.

(** * The properties at work on the example instance *)

(** ** Sending while the socket is not open (C1) *)

(** C1 as the specification words it fails.  A message sent while the first
    connection attempt is under way is gone when the socket opens: the store
    is then connected on socket 0 and no frame has been handed to it. *)
Lemma send_before_open_is_not_flushed :
  exists st' out,
    run Example.P [ToBackend Example.envelope; SocketOpen 0] Example.connecting
      = Some (st', out) /\
    open_client st' = Some 0 /\
    delivered out = [].
Proof. eexists _, _. split; [reflexivity|]. split; reflexivity. Qed.

Lemma send_while_not_open_is_dropped_witness :
  open_client Example.connecting = None /\
  exec (to_backend Example.P Example.envelope) Example.connecting = Example.connecting /\
  delivered (output (to_backend Example.P Example.envelope) Example.connecting) = [].
Proof.
  split; [reflexivity|].
  pose proof (send_while_not_open_is_dropped Example.P Example.connecting
                Example.envelope eq_refl) as (He & _ & Hd & _).
  split; [exact He|exact Hd].
Defined.

(** ** The retry budget (C2, C3, C9) *)

(** C2 as the specification words it fails.  When the fifth reconnection
    attempt has failed the handler has given up, having not done so after
    the fourth, and a sixth attempt cannot take place: no timer is left to
    start it. *)
Lemma no_sixth_attempt :
  (exists st' out,
     run Example.P (outage 0 1 4) Example.connected = Some (st', out) /\
     gives_up out = false) /\
  (exists st' out,
     run Example.P (outage 0 1 5) Example.connected = Some (st', out) /\
     gives_up out = true /\ timers st' = []) /\
  run Example.P (outage 0 1 6) Example.connected = None.
Proof.
  split; [|split].
  - eexists _, _. split; [vm_compute; reflexivity|reflexivity].
  - eexists _, _. split; [vm_compute; reflexivity|split; reflexivity].
  - vm_compute. reflexivity.
Qed.

Lemma retry_budget_is_five_attempts_witness :
  Connected Example.P Example.connected 0 Example.url /\
  exists st' out,
    run Example.P (outage 0 1 MAX_RECONNECT_ATTEMPTS) Example.connected = Some (st', out) /\
    gives_up out = true /\
    Quiescent st'.
Proof.
  assert (HC : Connected Example.P Example.connected 0 Example.url).
  { split; try reflexivity.
    intros [|j] s Hj Hne; [contradiction|]. simpl in Hj. discriminate. }
  split; [exact HC|].
  destruct (retry_budget_is_five_attempts Example.P Example.connected 0 Example.url HC)
    as (_ & (st' & out & Hrun & Hg & HQ & _) & _).
  exists st', out. split; [exact Hrun|]. split; [exact Hg|exact HQ].
Defined.

(** C3 as the specification words it fails.  The five timers of an outage
    all carry the same delay, so no delay is longer than the one before. *)
Lemma reconnect_delays_do_not_grow :
  exists st' out,
    run Example.P (outage 0 1 5) Example.connected = Some (st', out) /\
    scheduled_delays out = [2000; 2000; 2000; 2000; 2000]%N /\
    ~ strictly_increasing (scheduled_delays out).
Proof.
  eexists _, _. split; [vm_compute; reflexivity|]. split; [reflexivity|].
  intros H. specialize (H 0 2000%N 2000%N eq_refl eq_refl). lia.
Qed.

Lemma reconnect_delay_is_constant_witness :
  exists st' out,
    run Example.P (outage 0 1 2) Example.connected = Some (st', out) /\
    Forall (fun d => d = RECONNECT_INTERVAL) (scheduled_delays out).
Proof.
  eexists _, _. split; [vm_compute; reflexivity|].
  eapply (reconnect_delay_is_constant Example.P (outage 0 1 2) Example.connected).
  vm_compute. reflexivity.
Defined.


(** ** Closing from this side (C4) *)

(** C4 as the specification words it fails.  With a reconnection timer
    pending, [disconnectFromContainer] is called twice; the timer is still
    there, comes due, and a reconnection attempt constructs a new socket. *)
Lemma timer_fires_after_disconnect :
  let st2 := exec disconnectFromContainer (exec disconnectFromContainer Example.reconnecting) in
  Disconnected st2 /\
  timers st2 = [mkTimer Example.url RECONNECT_INTERVAL] /\
  exists st3 out,
    step Example.P (TimerFires 0) st2 = Some (st3, out) /\
    constructed out = [Example.url] /\
    wsClient st3 = Some 1.
Proof.
  split; [split; reflexivity|]. split; [reflexivity|].
  eexists _, _. split; [reflexivity|]. split; reflexivity.
Qed.

(** The [close] event of a socket that [disconnectFromContainer] has closed
    runs the same handler as a drop: it registers a reconnection timer, and
    the session comes back by itself. *)
Lemma closing_an_open_session_reconnects :
  exists st' out,
    run Example.P [WindowClosed; SocketClose 0; TimerFires 0; SocketOpen 1]
        Example.connected = Some (st', out) /\
    scheduled_delays out = [RECONNECT_INTERVAL] /\
    constructed out = [Example.url] /\
    open_client st' = Some 1.
Proof. eexists _, _. split; [reflexivity|]. repeat split. Qed.

Lemma disconnect_is_idempotent_and_keeps_timers_witness :
  timers Example.reconnecting !! 0 = Some (mkTimer Example.url RECONNECT_INTERVAL) /\
  exists st2 out,
    step Example.P (TimerFires 0) (exec disconnectFromContainer Example.reconnecting)
      = Some (st2, out) /\
    constructed out = [Example.url].
Proof.
  split; [reflexivity|].
  pose proof (disconnect_is_idempotent_and_keeps_timers Example.P Example.reconnecting)
    as (_ & _ & _ & _ & _ & H).
  exact (H 0 (mkTimer Example.url RECONNECT_INTERVAL) eq_refl eq_refl).
Defined.

(** ** Malformed frames (C6) *)

Lemma malformed_frame_is_dropped_witness :
  JSON_parse Example.P "{oops" = None /\
  run Example.P [SocketMessage 0 "{oops"; SocketMessage 0 "true"] Example.connected =
    Some (Example.connected,
          [Console ERROR "Error parsing message:" [ArgError "SyntaxError"];
           Console LOG "Received from backend:" [ArgJson (JBool true)];
           WebContentsSend "from-backend" (JBool true)]).
Proof.
  split; [reflexivity|].
  pose proof (malformed_frame_is_dropped Example.P "{oops" eq_refl) as (_ & H & _).
  rewrite (H Example.connected 0 [SocketMessage 0 "true"] eq_refl).
  reflexivity.
Defined.

(** ** Discovery (C5, C7, C8, C10) *)



Lemma connect_resolves_iff_both_ports_accept_witness :
  (exists info,
     outcome (containerIntegration.connectToContainer Example.world "a1b2c3d4e5f6")
             Example.fresh = Return info) /\
  exists ip,
    docker_inspect Example.world "a1b2c3d4e5f6" = Some ip /\ ip <> "" /\
    port_accepts Example.world ip 8080 /\
    port_accepts Example.world ip 8765.
Proof.
  assert (H : exists info,
             outcome (containerIntegration.connectToContainer Example.world "a1b2c3d4e5f6")
                     Example.fresh = Return info)
    by (eexists; reflexivity).
  split; [exact H|].
  pose proof (connect_resolves_iff_both_ports_accept Example.world "a1b2c3d4e5f6"
                Example.fresh) as (_ & Hiff & _).
  exact (proj1 Hiff H).
Defined.

Lemma failed_connect_leaves_config_unchanged_witness :
  outcome (containerIntegration.connectToContainer Example.deaf_world "a1b2c3d4e5f6")
          Example.returning
    = Throw "WebSocket port 8765 is not open on the container" /\
  exec (containerIntegration.connectToContainer Example.deaf_world "a1b2c3d4e5f6")
       Example.returning
    = Example.returning.
Proof.
  split; [reflexivity|].
  apply (failed_connect_leaves_config_unchanged Example.deaf_world "a1b2c3d4e5f6"
           Example.returning "WebSocket port 8765 is not open on the container").
  reflexivity.
Defined.

(** ** Invariants of the main process (X1, X2, X3, X4, X5, X23, X24) *)

Lemma attempts_stay_bounded_witness :
  reconnectAttempts Example.reconnecting <= MAX_RECONNECT_ATTEMPTS /\
  exists st' out,
    run Example.P (failed_attempts 1 2) Example.reconnecting = Some (st', out) /\
    reconnectAttempts st' <= MAX_RECONNECT_ATTEMPTS.
Proof.
  assert (H : reconnectAttempts Example.reconnecting <= MAX_RECONNECT_ATTEMPTS)
    by (vm_compute; repeat constructor).
  split; [exact H|].
  destruct (run Example.P (failed_attempts 1 2) Example.reconnecting)
    as [[st' out]|] eqn:Hrun; [|vm_compute in Hrun; discriminate Hrun].
  exists st', out. split; [reflexivity|].
  exact (attempts_stay_bounded Example.P (failed_attempts 1 2) Example.reconnecting
           st' out Hrun H).
Defined.

Lemma client_stays_a_socket_witness :
  client_is_a_socket Example.connected /\
  exists st' out,
    run Example.P [WindowClosed; SocketClose 0; TimerFires 0] Example.connected
      = Some (st', out) /\
    client_is_a_socket st'.
Proof.
  assert (H : client_is_a_socket Example.connected).
  { intros i Hi. injection Hi as <-. apply Nat.lt_0_1. }
  split; [exact H|].
  eexists _, _. split; [reflexivity|].
  eapply (client_stays_a_socket Example.P [WindowClosed; SocketClose 0; TimerFires 0]
            Example.connected); [reflexivity|exact H].
Defined.

Lemma sockets_keep_their_address_witness :
  sockets Example.connected !! 0 = Some (mkWebSocket Example.url OPEN) /\
  exists st' out,
    run Example.P [WindowClosed; SocketClose 0; TimerFires 0] Example.connected
      = Some (st', out) /\
    exists s', sockets st' !! 0 = Some s' /\ ws_url s' = Example.url.
Proof.
  split; [reflexivity|].
  destruct (run Example.P [WindowClosed; SocketClose 0; TimerFires 0] Example.connected)
    as [[st' out]|] eqn:Hrun; [|vm_compute in Hrun; discriminate Hrun].
  exists st', out. split; [reflexivity|].
  exact (sockets_keep_their_address Example.P
           [WindowClosed; SocketClose 0; TimerFires 0] Example.connected st' out 0
           (mkWebSocket Example.url OPEN) Hrun eq_refl).
Defined.

Lemma abandoned_socket_is_never_closed_witness :
  0 < length (sockets Scenario.let_go) /\
  exists st' out,
    run Example.P [SocketOpen 0; ConnectToContainer Example.world; WindowClosed]
        Scenario.let_go = Some (st', out) /\
    wsClient st' <> Some 0 /\ ~ In 0 (closed_by_us out).
Proof.
  split; [apply Nat.lt_0_1|].
  eexists _, _. split; [reflexivity|].
  eapply (abandoned_socket_is_never_closed Example.P
            [SocketOpen 0; ConnectToContainer Example.world; WindowClosed]
            Scenario.let_go); [reflexivity|apply Nat.lt_0_1|discriminate].
Defined.

Lemma nothing_multiplies_by_itself_witness :
  Forall (fun ev => automatic ev = true) (outage 0 1 3) /\
  exists st' out,
    run Example.P (outage 0 1 3) Example.connected = Some (st', out) /\
    pending st' <= pending Example.connected.
Proof.
  assert (Ha : Forall (fun ev => automatic ev = true) (outage 0 1 3))
    by (repeat constructor).
  split; [exact Ha|].
  destruct (run Example.P (outage 0 1 3) Example.connected)
    as [[st' out]|] eqn:Hrun; [|vm_compute in Hrun; discriminate Hrun].
  exists st', out. split; [reflexivity|].
  exact (nothing_multiplies_by_itself Example.P (outage 0 1 3) Example.connected st' out
           Ha Hrun).
Defined.

Lemma isConnected_is_never_read_witness :
  same_but_isConnected Example.connected (set_isConnected false Example.connected) /\
  alike (run Example.P [ToBackend Example.envelope; SocketClose 0; TimerFires 0]
             Example.connected)
        (run Example.P [ToBackend Example.envelope; SocketClose 0; TimerFires 0]
             (set_isConnected false Example.connected)).
Proof.
  assert (H : same_but_isConnected Example.connected
                (set_isConnected false Example.connected)) by reflexivity.
  split; [exact H|].
  exact (isConnected_is_never_read Example.P
           [ToBackend Example.envelope; SocketClose 0; TimerFires 0]
           Example.connected (set_isConnected false Example.connected) H).
Defined.

(** ** Frames and status messages (X6, X18, X19) *)

Lemma sends_while_open_go_out_in_order_witness :
  open_client Example.connected = Some 0 /\
  exists out,
    run Example.P (map ToBackend [Example.envelope; JNull; JBool true]) Example.connected
      = Some (Example.connected, out) /\
    delivered out = map Example.stringify [Example.envelope; JNull; JBool true].
Proof.
  split; [reflexivity|].
  destruct (sends_while_open_go_out_in_order Example.P Example.connected 0
              [Example.envelope; JNull; JBool true] eq_refl) as (out & Hrun & Hd & _).
  exists out. split; [exact Hrun|exact Hd].
Defined.

Lemma inbound_frames_are_relayed_in_order_witness :
  readyState_of 0 Example.connected = OPEN /\
  mainWindow Example.connected = true /\
  exists out,
    run Example.P (map (SocketMessage 0) ["true"; "{oops"; "null"]) Example.connected
      = Some (Example.connected, out) /\
    relayed out = [JBool true; JNull].
Proof.
  split; [reflexivity|]. split; [reflexivity|].
  destruct (inbound_frames_are_relayed_in_order Example.P Example.connected 0
              ["true"; "{oops"; "null"] eq_refl eq_refl) as (out & Hrun & Hr).
  exists out. split; [exact Hrun|exact Hr].
Defined.

Lemma renderer_hears_only_of_opens_and_closes_witness :
  exists st' out,
    step Example.P (SocketOpen 0) Example.connecting = Some (st', out) /\
    status_events out = [connection_status true].
Proof.
  eexists _, _. split; [reflexivity|].
  eapply (renderer_hears_only_of_opens_and_closes Example.P (SocketOpen 0)
            Example.connecting). reflexivity.
Defined.

(** ** Letting go of a socket (X7, X8, X20) *)

Lemma closing_from_this_side_reconnects_witness :
  Connected Example.P Example.connected 0 Example.url /\
  exists st' out,
    run Example.P [WindowClosed; SocketClose 0] Example.connected = Some (st', out) /\
    closed_by_us out = [0] /\
    timers st' = [mkTimer Example.url RECONNECT_INTERVAL].
Proof.
  assert (HC : Connected Example.P Example.connected 0 Example.url).
  { split; try reflexivity.
    intros [|j] s Hj Hne; [contradiction|]. simpl in Hj. discriminate. }
  split; [exact HC|].
  destruct (closing_from_this_side_reconnects Example.P Example.connected 0 Example.url HC)
    as (st' & out & Hrun & Hc & _ & _ & Ht & _).
  exists st', out. split; [exact Hrun|]. split; [exact Hc|exact Ht].
Defined.

Lemma socket_dropped_while_connecting_still_opens_witness :
  wsClient Example.connecting = Some 0 /\
  readyState_of 0 Example.connecting = CONNECTING /\
  output disconnectFromContainer Example.connecting = [] /\
  exists st2,
    step Example.P (SocketOpen 0) (exec disconnectFromContainer Example.connecting)
      = Some (st2, Console LOG "Connected to container WebSocket" []
                   :: status_out Example.connecting true) /\
    isConnected st2 = true /\
    open_client st2 = None.
Proof.
  split; [reflexivity|]. split; [reflexivity|].
  destruct (socket_dropped_while_connecting_still_opens Example.P Example.connecting 0
              eq_refl eq_refl) as (Hout & _ & st2 & Hstep & Hi & _ & Ho & _).
  split; [exact Hout|].
  exists st2. split; [exact Hstep|]. split; [exact Hi|exact Ho].
Defined.

Lemma switching_is_undone_by_the_old_socket_witness :
  Connected Example.P Example.connected 0 Example.url /\
  ws_accepts Example.P "ws://172.17.0.3:8765" = true /\
  exists st' out,
    run Example.P [SocketOpen 1; SocketClose 0; TimerFires 0]
        (exec (connectToContainerWebSocket Example.P "ws://172.17.0.3:8765")
              Example.connected) = Some (st', out) /\
    closed_by_us out = [1] /\
    constructed out = [Example.url].
Proof.
  assert (HC : Connected Example.P Example.connected 0 Example.url).
  { split; try reflexivity.
    intros [|j] s Hj Hne; [contradiction|]. simpl in Hj. discriminate. }
  split; [exact HC|]. split; [reflexivity|].
  destruct (switching_is_undone_by_the_old_socket Example.P Example.connected 0
              Example.url "ws://172.17.0.3:8765" HC eq_refl)
    as (_ & _ & st' & out & Hrun & _ & Hc & Hn & _).
  exists st', out. split; [exact Hrun|]. split; [exact Hc|exact Hn].
Defined.

(** ** The selection dialog (X9, X10, X11, X12, X13, X14) *)


Lemma cancelled_selection_changes_nothing_witness :
  cancels Scenario.cancelling = true /\
  exec (showContainerSelectionDialog Example.P Scenario.cancelling) Example.connected
    = Example.connected /\
  prompts (output (showContainerSelectionDialog Example.P Scenario.cancelling)
                  Example.connected) = ["Select Container"].
Proof.
  split; [reflexivity|].
  destruct (cancelled_selection_changes_nothing Example.P Scenario.cancelling
              Example.connected eq_refl) as (He & Hp & _).
  split; [exact He|exact Hp].
Defined.

Lemma failed_selection_keeps_the_session_witness :
  running Example.deaf_world !! box_response Example.deaf_world = Some Example.exo1 /\
  healthy Example.deaf_world (containerConfig Example.connected) "a1b2c3d4e5f6" = false /\
  exec (showContainerSelectionDialog Example.P Example.deaf_world) Example.connected
    = Example.connected /\
  Forall (fun e => is_session_effect e = false)
         (output (showContainerSelectionDialog Example.P Example.deaf_world)
                 Example.connected).
Proof.
  split; [reflexivity|]. split; [reflexivity|].
  assert (Hne : container_id Example.exo1 <> "") by discriminate.
  destruct (failed_selection_keeps_the_session Example.P Example.deaf_world
              Example.connected Example.exo1 eq_refl Hne eq_refl) as (He & _ & Hq).
  split; [exact He|exact Hq].
Defined.

Lemma dialog_answers_with_a_listed_container_witness :
  (exists c,
     running Example.world !! box_response Example.world = Some c /\
     container_id c = "a1b2c3d4e5f6") \/
  (running Example.world = [] /\ box_response Example.world = 0 /\
   docker_run Example.world "exo:latest" = Some "a1b2c3d4e5f6" /\
   exists images, docker_images Example.world "exo:latest" = Some images /\ images <> "").
Proof.
  eapply (proj2 (dialog_answers_with_a_listed_container Example.world Example.fresh
                   "a1b2c3d4e5f6" _ _ _)).
  Unshelve. all: try reflexivity.
Defined.

Lemma printed_rows_are_read_back_witness :
  Forall (fun c => printable c = true) [Example.exo1; Example.exo2] /\
  containers_of Scenario.trim (ps_lines [Example.exo1; Example.exo2])
    = [Example.exo1; Example.exo2].
Proof.
  assert (H : Forall (fun c => printable c = true) [Example.exo1; Example.exo2])
    by (repeat constructor).
  split; [exact H|].
  assert (Hne : [Example.exo1; Example.exo2] <> []) by discriminate.
  exact (printed_rows_are_read_back Scenario.trim (ps_lines [Example.exo1; Example.exo2])
           [Example.exo1; Example.exo2] Hne H eq_refl).
Defined.

Lemma docker_ps_output_is_never_no_rows_witness :
  docker_ps Scenario.nothing_running = Some (containers_of Scenario.trim "") /\
  prompts (output (containerIntegration.showContainerSelectionDialog Scenario.nothing_running)
                  Example.fresh) = ["Select Container"] /\
  output (showContainerSelectionDialog Example.P Scenario.nothing_running) Example.fresh
    = [ShowMessageBox "Select Container" ["undefined (undefined)"; "Cancel"]].
Proof.
  split; [reflexivity|].
  destruct (docker_ps_output_is_never_no_rows Example.P Scenario.nothing_running
              Scenario.trim "" Example.fresh eq_refl) as (Hp & Hb).
  split; [exact Hp|]. destruct (Hb eq_refl) as (_ & _ & Ho). exact Ho.
Defined.

(** ** Settings and the next start (X15, X16, X17) *)


Lemma selected_container_is_reconnected_next_run_witness :
  healthy Example.world (containerConfig Example.fresh) "a1b2c3d4e5f6" = true /\
  fs_writable Example.world = true /\
  In "a1b2c3d4e5f6" (running_ids Example.world) /\
  prompts (output (checkContainerConnection Example.P Example.world)
             (Startup.start
                (configFile
                   (exec (containerIntegration.connectToContainer Example.world
                            "a1b2c3d4e5f6") Example.fresh)))) = [].
Proof.
  assert (Hin : In "a1b2c3d4e5f6" (running_ids Example.world)) by (left; reflexivity).
  split; [reflexivity|]. split; [reflexivity|]. split; [exact Hin|].
  assert (Hne : "a1b2c3d4e5f6" <> "") by discriminate.
  destruct (selected_container_is_reconnected_next_run Example.P Example.world
              Example.world Example.fresh "a1b2c3d4e5f6" eq_refl Hne eq_refl eq_refl
              eq_refl Hin eq_refl) as (_ & Hp & _).
  exact Hp.
Defined.

Lemma unsaved_selection_is_forgotten_next_run_witness :
  fs_writable Example.read_only_world = false /\
  configFile Example.fresh = None /\
  prompts (output (checkContainerConnection Example.P Example.read_only_world)
             (Startup.start
                (configFile
                   (exec (containerIntegration.connectToContainer Example.read_only_world
                            "a1b2c3d4e5f6") Example.fresh))))
    = ["Select Container"].
Proof.
  split; [reflexivity|]. split; [reflexivity|].
  destruct (unsaved_selection_is_forgotten_next_run Example.P Example.read_only_world
              Example.read_only_world Example.fresh "a1b2c3d4e5f6" eq_refl eq_refl
              eq_refl) as (_ & Hp).
  exact Hp.
Defined.

(** ** The web client (X25, X27, X28, X29) *)

Lemma status_dot_shows_the_connection_witness :
  reports_connection WebEvents.Disconnect = true /\
  exists st' out,
    WebEvents.step Example.P Scenario.trim Scenario.websocketUrl Scenario.page
      WebEvents.Disconnect Scenario.on_socket_io = Some (st', out) /\
    dot_shows st' false.
Proof.
  split; [reflexivity|].
  eexists _, _. split; [reflexivity|].
  eapply (status_dot_shows_the_connection Example.P Scenario.trim Scenario.websocketUrl
            Scenario.page WebEvents.Disconnect Scenario.on_socket_io);
    reflexivity.
Defined.

Lemma web_client_never_gives_up_witness :
  ws_accepts Example.P Scenario.websocketUrl = true /\
  WebEvents.Trying Scenario.websocketUrl Scenario.trying 0 /\
  exists st' out,
    WebEvents.run Example.P Scenario.trim Scenario.websocketUrl Scenario.page
      (WebEvents.failed_attempts 0 7) Scenario.trying = Some (st', out) /\
    WebEvents.Trying Scenario.websocketUrl st' 7 /\
    scheduled_delays out = repeat Web.RECONNECT_DELAY 7.
Proof.
  assert (HT : WebEvents.Trying Scenario.websocketUrl Scenario.trying 0)
    by (split; reflexivity).
  split; [reflexivity|]. split; [exact HT|].
  destruct (web_client_never_gives_up Example.P Scenario.trim Scenario.websocketUrl
              Scenario.page 7 Scenario.trying 0 eq_refl HT)
    as (st' & out & Hrun & Ht & Hd & _).
  exists st', out. split; [exact Hrun|]. split; [exact Ht|exact Hd].
Defined.

Lemma fallback_is_not_revived_witness :
  WebEvents.page_only Scenario.page /\
  Web.socketConnected Scenario.on_socket_io = true /\
  Web.timers Scenario.on_socket_io = 1 /\
  exists st' out,
    WebEvents.run Example.P Scenario.trim Scenario.websocketUrl Scenario.page
      [WebEvents.TimerFires; WebEvents.Message JNull; WebEvents.Disconnect;
       WebEvents.Click "1700000000"]
      Scenario.on_socket_io = Some (st', out) /\
    constructed out = [] /\ scheduled_delays out = [] /\ WebEvents.Idle st'.
Proof.
  assert (Hpage : WebEvents.page_only Scenario.page).
  { intros data st. repeat split. }
  split; [exact Hpage|]. split; [reflexivity|]. split; [reflexivity|].
  eexists _, _. split; [reflexivity|].
  eapply (fallback_is_not_revived Example.P Scenario.trim Scenario.websocketUrl
            Scenario.page
            [WebEvents.Message JNull; WebEvents.Disconnect; WebEvents.Click "1700000000"]
            Scenario.on_socket_io _ _ Hpage eq_refl eq_refl);
    [repeat constructor|reflexivity].
Defined.

Lemma fallback_has_one_live_socket_witness :
  WebEvents.page_only Scenario.page /\
  one_live_socket Scenario.trying /\
  exists st' out,
    WebEvents.run Example.P Scenario.trim Scenario.websocketUrl Scenario.page
      [WebEvents.Open 0; WebEvents.Connect; WebEvents.Close 0; WebEvents.Disconnect;
       WebEvents.TimerFires]
      Scenario.trying = Some (st', out) /\
    one_live_socket st'.
Proof.
  assert (Hpage : WebEvents.page_only Scenario.page).
  { intros data st. repeat split. }
  assert (H : one_live_socket Scenario.trying).
  { intros [|j] s Hj Hne; [by destruct Hne|]. simpl in Hj. discriminate Hj. }
  split; [exact Hpage|]. split; [exact H|].
  destruct (WebEvents.run Example.P Scenario.trim Scenario.websocketUrl Scenario.page
              [WebEvents.Open 0; WebEvents.Connect; WebEvents.Close 0; WebEvents.Disconnect;
               WebEvents.TimerFires] Scenario.trying)
    as [[st' out]|] eqn:Hrun; [|vm_compute in Hrun; discriminate Hrun].
  exists st', out. split; [reflexivity|].
  exact (fallback_has_one_live_socket Example.P Scenario.trim Scenario.websocketUrl
           Scenario.page _ Scenario.trying st' out Hpage H Hrun).
Defined.


(** ** Discovery turn by turn (C8, X5) *)



(** A [container-settings] message that arrives between the two probes gives
    [containerConfig] another object.  The selection still succeeds and is
    written to the file, from the object that was passed: the variable does
    not hold the identity, and the file does not hold the settings. *)
Lemma settings_between_the_probes :
  exists sys' out,
    System.run Example.P
      [System.Connect Selecting.writable; System.Answered 0 Selecting.writable;
       System.Settled 1 Selecting.writable;
       System.Settings Selecting.writable Scenario.manual;
       System.Settled 1 Selecting.writable]
      (System.start None) = Some (sys', out) /\
    hand_overs out = [hand_over "ws://172.17.0.2:8765"] /\
    containerConfig (System.main sys') = spread DEFAULT_CONFIG Scenario.manual /\
    lastContainer (containerConfig (System.main sys')) = None /\
    configFile (System.main sys')
      = Some (selected "172.17.0.2" "a1b2c3d4e5f6" DEFAULT_CONFIG).
Proof. eexists _, _. split; [reflexivity|]. repeat split. Qed.

Lemma no_renderer_traffic_without_window_witness :
  mainWindow (System.main Selecting.windowless) = false /\
  ~ In System.Activate
       (System.Core (SocketMessage 0 "true") :: Selecting.selection Selecting.writable
        ++ [System.Core (SocketOpen 1)]) /\
  exists sys' out,
    System.run Example.P
      (System.Core (SocketMessage 0 "true") :: Selecting.selection Selecting.writable
       ++ [System.Core (SocketOpen 1)])
      Selecting.windowless = Some (sys', out) /\
    Forall (fun e => is_renderer_send e = false) out.
Proof.
  split; [reflexivity|].
  assert (Hn : ~ In System.Activate
                 (System.Core (SocketMessage 0 "true")
                  :: Selecting.selection Selecting.writable
                  ++ [System.Core (SocketOpen 1)])).
  { cbn. intros [H|[H|[H|[H|[H|[H|[]]]]]]]; discriminate H. }
  split; [exact Hn|].
  destruct (System.run Example.P
              (System.Core (SocketMessage 0 "true") :: Selecting.selection Selecting.writable
               ++ [System.Core (SocketOpen 1)])
              Selecting.windowless)
    as [[sys' out]|] eqn:Hrun; [|vm_compute in Hrun; discriminate Hrun].
  exists sys', out. split; [reflexivity|].
  exact (proj1 (proj2 (no_renderer_traffic_without_window Example.P _ _ _ _ Hrun eq_refl))
               Hn).
Defined.
